(** * Pharmaventory backend: reorder, prescription and analytics workflows

    A shallow embedding of the stock-affecting workflows of the Express /
    Mongoose backend:

    - [services/reorderService.ts]: the periodic reorder sweep and the
      approve / order / receive transitions of a reorder request;
    - [controllers/prescriptionController.ts]: validation and dispensing of a
      prescription;
    - [models/Medicine.ts]: the derived (virtual) fields of a medicine;
    - [controllers/analyticsController.ts]: the demand trend of a medicine and
      the reorder recommendations;
    - [controllers/reorderController.ts]: the handlers of the approve / order /
      receive routes;
    - [controllers/medicineController.ts]: the (soft) delete of a medicine;
    - [middleware/auth.ts] and the route tables: who reaches which handler.

    The database is an explicit state: one collection per Mongoose model.
    Every awaited driver call may be refused by the driver; writes that were
    performed before an exception stay performed, since nothing in the code
    opens a multi-document transaction.

    Conventions of the model:
    - one call of a service or handler runs alone (no interleaving with other
      requests) and at one instant: every [new Date()] of the call reads the
      same clock.  No call moves the clock: what a later request finds is the
      world with a later clock ([at_time]);
    - stock quantities and thresholds are integers, prices are rationals, dates
      are millisecond timestamps.  The numbers that the analytics compute from
      them are IEEE 754 doubles, with their rounding, infinities and NaN;
    - the time zone of the server, which [Date.prototype.setDate] reads, is a
      parameter of the analytics handlers;
    - a collection that is only looked up by [_id] is a finite map from
      identifiers to documents; reorder requests, which are searched by field
      and listed, and transactions, which are only appended and filtered, are
      lists in insertion order;
    - the automatic [createdAt] of a transaction is kept, the other automatic
      timestamps and the fields no modelled function reads are left out. *)

From Stdlib Require Import ZArith QArith SpecFloat Lia.
From stdpp Require Import gmap strings list fin_maps pretty sorting.

Local Open Scope Z_scope.

(** ** Data model *)

(** A document identifier (a Mongo ObjectId). *)
Abbreviation ObjectId := nat (only parsing).

(** A point in time, as [Date.prototype.getTime] gives it: milliseconds since
    the epoch. *)
Abbreviation Time := Z (only parsing).

(** [models/Medicine.ts].  The fields the workflows below read or write;
    [quantity] and [reorderThreshold] are integers (the routes validate
    [isInt]), [pricePerUnit] is a decimal amount. *)
Module Medicine.
Record t := mk {
  name : string;
  expiryDate : Time;
  quantity : Z;
  pricePerUnit : Q;
  reorderThreshold : Z;
  isActive : bool
}.

Definition set_quantity (q : Z) (m : t) : t :=
  mk (name m) (expiryDate m) q (pricePerUnit m) (reorderThreshold m) (isActive m).
End Medicine.

(** [models/ReorderRequest.ts]. *)
Inductive ReorderStatus := PENDING | APPROVED | ORDERED | RECEIVED | CANCELLED.

Module ReorderRequest.
Record t := mk {
  _id : ObjectId;
  medicineId : ObjectId;
  medicineName : string;
  currentStock : Z;
  reorderThreshold : Z;
  requestedQuantity : Z;
  status : ReorderStatus;
  approvedBy : option ObjectId;
  approvedAt : option Time;
  orderedAt : option Time;
  receivedAt : option Time
}.
End ReorderRequest.

(** [models/Transaction.ts] (in the sources, the second document of the file
    [config/database.ts]). *)
Inductive TransactionType := PURCHASE | SALE | DISPENSE | ADJUSTMENT | EXPIRED | RETURN.

Module Transaction.
Record t := mk {
  medicineId : ObjectId;
  medicineName : string;
  type : TransactionType;
  quantity : Z;
  previousStock : Z;
  newStock : Z;
  unitPrice : Q;
  totalAmount : Q;
  performedBy : ObjectId;
  prescriptionId : option ObjectId;
  notes : string;
  createdAt : Time
}.
End Transaction.

(** [models/Prescription.ts]. *)
Inductive PrescriptionStatus :=
  RxPENDING | RxVALIDATED | RxDISPENSED | RxREJECTED | RxEXPIRED.

Module PrescriptionItem.
Record t := mk {
  medicineId : ObjectId;
  medicineName : string;
  quantity : Z
}.
End PrescriptionItem.

Module Prescription.
Record t := mk {
  prescriptionNumber : string;
  items : list PrescriptionItem.t;
  status : PrescriptionStatus;
  validatedBy : option ObjectId;
  validatedAt : option Time;
  dispensedBy : option ObjectId;
  dispensedAt : option Time;
  rejectionReason : option string;
  notes : option string
}.
End Prescription.

#[global] Instance ReorderStatus_eq_dec : EqDecision ReorderStatus.
Proof. solve_decision. Defined.
#[global] Instance TransactionType_eq_dec : EqDecision TransactionType.
Proof. solve_decision. Defined.
#[global] Instance PrescriptionStatus_eq_dec : EqDecision PrescriptionStatus.
Proof. solve_decision. Defined.

(** ** Exceptions, the log and the world *)

(** The classes of what is thrown: [throw new Error(..)] of the code itself,
    a Mongoose validation failure, a Mongoose cast failure, an error of the
    database driver, the runtime's [TypeError], and the errors of
    [jsonwebtoken]. *)
Inductive ErrorKind :=
  | GenericError | ValidationError | CastError | DriverError | TypeError
  | JsonWebTokenError | TokenExpiredError | NotBeforeError.

Record JsError := mkError { kind : ErrorKind; message : string }.

Inductive LogLevel := LvlInfo | LvlError.

(** One line written through [utils/logger.ts]: the level, the [workflow]
    tag, the message and, for [logger.error], the [error] field. *)
Record LogEntry := mkLog {
  level : LogLevel;
  workflow : string;
  text : string;
  error : option string
}.

(** The collections, the log, the clock read by [new Date()], and the
    schedule of the driver: the head of [faults] decides the next awaited
    database call, [Some msg] refusing it with an error, [None] (or an
    exhausted schedule) letting it through.  A database is working when its
    schedule is empty. *)
Record World := mkWorld {
  medicines : gmap ObjectId Medicine.t;
  prescriptions : gmap ObjectId Prescription.t;
  reorderRequests : list ReorderRequest.t;
  transactions : list Transaction.t;
  logs : list LogEntry;
  clock : Time;
  faults : list (option string)
}.

Definition set_medicines (f : gmap ObjectId Medicine.t → gmap ObjectId Medicine.t) (w : World) :=
  mkWorld (f (medicines w)) (prescriptions w) (reorderRequests w) (transactions w)
          (logs w) (clock w) (faults w).
Definition set_prescriptions (f : gmap ObjectId Prescription.t → gmap ObjectId Prescription.t) (w : World) :=
  mkWorld (medicines w) (f (prescriptions w)) (reorderRequests w) (transactions w)
          (logs w) (clock w) (faults w).
Definition set_reorderRequests (f : list ReorderRequest.t → list ReorderRequest.t) (w : World) :=
  mkWorld (medicines w) (prescriptions w) (f (reorderRequests w)) (transactions w)
          (logs w) (clock w) (faults w).
Definition set_transactions (f : list Transaction.t → list Transaction.t) (w : World) :=
  mkWorld (medicines w) (prescriptions w) (reorderRequests w) (f (transactions w))
          (logs w) (clock w) (faults w).
Definition set_logs (f : list LogEntry → list LogEntry) (w : World) :=
  mkWorld (medicines w) (prescriptions w) (reorderRequests w) (transactions w)
          (f (logs w)) (clock w) (faults w).
Definition set_faults (fs : list (option string)) (w : World) :=
  mkWorld (medicines w) (prescriptions w) (reorderRequests w) (transactions w)
          (logs w) (clock w) fs.

(** ** The monad of an async function: state plus exceptions *)

Inductive Result (A : Type) := Ret (a : A) | Throw (e : JsError).
Arguments Ret {A} a.
Arguments Throw {A} e.

Definition M (A : Type) : Type := World → Result A * World.

#[global] Instance M_ret : MRet M := λ A a w, (Ret a, w).
#[global] Instance M_bind : MBind M := λ A B k c w,
  match c w with
  | (Ret a, w') => k a w'
  | (Throw e, w') => (Throw e, w')
  end.

Definition throw {A} (e : JsError) : M A := λ w, (Throw e, w).

(** [try { body } catch (error) { handler }]: the state reached when the
    exception was raised is the state the handler starts from. *)
Definition try_catch {A} (body : M A) (handler : JsError → M A) : M A := λ w,
  match body w with
  | (Ret a, w') => (Ret a, w')
  | (Throw e, w') => handler e w'
  end.

(** [new Date()]: the clock of the world, which stands still during one call
    ([at_time] gives the world of a later call). *)
Definition new_Date : M Time := λ w, (Ret (clock w), w).

Definition write_log (l : LogEntry) : M unit := λ w, (Ret tt, set_logs (λ ls, ls ++ [l]) w).

(** [logger.error(text, { workflow, error: error.message })]. *)
Definition logger_error (wf text : string) (e : JsError) : M unit :=
  write_log (mkLog LvlError wf text (Some (message e))).

Definition logReordering (text : string) : M unit := write_log (mkLog LvlInfo "reordering" text None).
Definition logPrescription (text : string) : M unit := write_log (mkLog LvlInfo "prescription" text None).
Definition logAnalytics (text : string) : M unit := write_log (mkLog LvlInfo "analytics" text None).

(** One awaited call to the database. *)
Definition db_call {A} (op : World → Result A * World) : M A := λ w,
  match faults w with
  | Some msg :: fs => (Throw (mkError DriverError msg), set_faults fs w)
  | None :: fs => op (set_faults fs w)
  | [] => op w
  end.

(** ** Collections *)

(** [Medicine.findById(id)]. *)
Definition Medicine_findById (id : ObjectId) : M (option Medicine.t) :=
  db_call (λ w, (Ret (medicines w !! id), w)).

(** [Medicine.find({ isActive: true }).lean()]: the matching documents with
    their [_id]. *)
Definition Medicine_find_active : M (list (ObjectId * Medicine.t)) :=
  db_call (λ w, (Ret (filter (λ d, Medicine.isActive d.2 = true) (map_to_list (medicines w))), w)).

(** [Medicine.findByIdAndUpdate(id, update)]: no validators run (the calls
    modelled here do not pass [runValidators]); a missing id updates
    nothing. *)
Definition Medicine_findByIdAndUpdate (id : ObjectId) (update : Medicine.t → Medicine.t) : M unit :=
  db_call (λ w, (Ret tt, set_medicines (alter update id) w)).

(** The first document of a collection with a given [_id]. *)
Definition find_by_id (id : ObjectId) (l : list ReorderRequest.t) : option ReorderRequest.t :=
  List.find (λ r, bool_decide (ReorderRequest._id r = id)) l.

(** Apply [update] to the first document with the given [_id]. *)
Fixpoint update_by_id (id : ObjectId) (update : ReorderRequest.t → ReorderRequest.t)
    (l : list ReorderRequest.t) : list ReorderRequest.t :=
  match l with
  | [] => []
  | r :: rest =>
      if bool_decide (ReorderRequest._id r = id) then update r :: rest
      else r :: update_by_id id update rest
  end.

(** The identifier the driver gives a new document: one no document of the
    collection has. *)
Definition fresh_id (l : list ReorderRequest.t) : ObjectId :=
  S (foldr Nat.max 0%nat (ReorderRequest._id <$> l)).

(** [ReorderRequest.findOne({ medicineId, status: { $in: [PENDING, APPROVED] } })]:
    the first match in the collection's order. *)
Definition is_open (r : ReorderRequest.t) : bool :=
  bool_decide (ReorderRequest.status r = PENDING ∨ ReorderRequest.status r = APPROVED).

Definition open_for (mid : ObjectId) (r : ReorderRequest.t) : bool :=
  bool_decide (ReorderRequest.medicineId r = mid) && is_open r.

Definition ReorderRequest_findOne_open (mid : ObjectId) : M (option ReorderRequest.t) :=
  db_call (λ w, (Ret (List.find (open_for mid) (reorderRequests w)), w)).

Definition ReorderRequest_findById (id : ObjectId) : M (option ReorderRequest.t) :=
  db_call (λ w, (Ret (find_by_id id (reorderRequests w)), w)).

(** [ReorderRequest.findByIdAndUpdate(id, update, { new: true })]: answers the
    updated document, or null when there is none. *)
Definition ReorderRequest_findByIdAndUpdate (id : ObjectId)
    (update : ReorderRequest.t → ReorderRequest.t) : M (option ReorderRequest.t) :=
  db_call (λ w, (Ret (update <$> find_by_id id (reorderRequests w)),
                 set_reorderRequests (update_by_id id update) w)).

(** [Array.prototype.join]. *)
Fixpoint join (sep : string) (l : list string) : string :=
  match l with
  | [] => ""
  | [s] => s
  | s :: rest => s +:+ sep +:+ join sep rest
  end.

(** The message of a Mongoose [ValidationError]: the model's name and, for
    every path that failed, the path and the message of its validator. *)
Definition validation_failed (model : string) (errors : list string) : option string :=
  match errors with
  | [] => None
  | _ => Some (model +:+ " validation failed: " +:+ join ", " errors)
  end.

(** The validators of [reorderRequestSchema] that a document built by the
    code can fail, in the order of the schema.  ([trim] is not modelled: the
    names copied here come from stored medicines, whose names the medicine
    schema already trimmed.) *)
Definition ReorderRequest_validate (r : ReorderRequest.t) : option string :=
  validation_failed "ReorderRequest"
    ((if bool_decide (ReorderRequest.medicineName r = "")
      then ["medicineName: Medicine name is required"] else [])
     ++ (if ReorderRequest.currentStock r <? 0
         then ["currentStock: Current stock cannot be negative"] else [])
     ++ (if ReorderRequest.reorderThreshold r <? 0
         then ["reorderThreshold: Reorder threshold cannot be negative"] else [])
     ++ (if ReorderRequest.requestedQuantity r <? 1
         then ["requestedQuantity: Requested quantity must be at least 1"] else [])).

(** [ReorderRequest.create({...})]: the document is validated, given an
    identifier and appended. *)
Definition ReorderRequest_create (medicineId : ObjectId) (medicineName : string)
    (currentStock reorderThreshold requestedQuantity : Z) (status : ReorderStatus) : M ReorderRequest.t :=
  db_call (λ w,
    let doc := ReorderRequest.mk (fresh_id (reorderRequests w)) medicineId medicineName
                 currentStock reorderThreshold requestedQuantity status None None None None in
    match ReorderRequest_validate doc with
    | Some msg => (Throw (mkError ValidationError msg), w)
    | None => (Ret doc, set_reorderRequests (λ l, l ++ [doc]) w)
    end).

(** ** [services/reorderService.ts] *)

(** The loop of [checkAndCreateReorderRequests] over the medicines that
    [Medicine.find] answered, with the two counters it keeps. *)
Fixpoint reorder_loop (meds : list (ObjectId * Medicine.t)) (requestsCreated requestsUpdated : nat)
    : M (nat * nat) :=
  match meds with
  | [] => mret (requestsCreated, requestsUpdated)
  | (mid, medicine) :: rest =>
      if Medicine.quantity medicine <=? Medicine.reorderThreshold medicine then
        existingRequest ← ReorderRequest_findOne_open mid;
        match existingRequest with
        | Some existing =>
            if negb (ReorderRequest.currentStock existing =? Medicine.quantity medicine) then
              _ ← ReorderRequest_findByIdAndUpdate (ReorderRequest._id existing)
                    (λ r, ReorderRequest.mk (ReorderRequest._id r) (ReorderRequest.medicineId r)
                            (ReorderRequest.medicineName r) (Medicine.quantity medicine)
                            (ReorderRequest.reorderThreshold r) (ReorderRequest.requestedQuantity r)
                            (ReorderRequest.status r) (ReorderRequest.approvedBy r)
                            (ReorderRequest.approvedAt r) (ReorderRequest.orderedAt r)
                            (ReorderRequest.receivedAt r));
              _ ← logReordering "Updated existing reorder request";
              reorder_loop rest requestsCreated (S requestsUpdated)
            else reorder_loop rest requestsCreated requestsUpdated
        | None =>
            let requestedQuantity := Z.max (Medicine.reorderThreshold medicine * 3) 50 in
            _ ← ReorderRequest_create mid (Medicine.name medicine) (Medicine.quantity medicine)
                  (Medicine.reorderThreshold medicine) requestedQuantity PENDING;
            _ ← logReordering "Created new reorder request";
            reorder_loop rest (S requestsCreated) requestsUpdated
        end
      else reorder_loop rest requestsCreated requestsUpdated
  end.

(** The [try] block of [checkAndCreateReorderRequests]. *)
Definition reorder_check : M unit :=
  _ ← logReordering "Starting automated reorder check";
  medicines ← Medicine_find_active;
  _ ← reorder_loop medicines 0%nat 0%nat;
  logReordering "Automated reorder check completed".

(** The [catch] block logs the error and ends: nothing is thrown again. *)
Definition checkAndCreateReorderRequests : M unit :=
  try_catch reorder_check
    (λ e, logger_error "reordering" "Error in automated reorder check:" e).

Definition getPendingReorderRequests : M (list ReorderRequest.t) :=
  try_catch
    (db_call (λ w, (Ret (reverse (filter (λ r, ReorderRequest.status r = PENDING) (reorderRequests w))), w)))
    (λ e, _ ← logger_error "reordering" "Error fetching pending reorder requests:" e; throw e).

Definition not_found : JsError := mkError GenericError "Reorder request not found".

Definition approveReorderRequest (requestId userId : ObjectId) : M unit :=
  try_catch
    (now ← new_Date;
     request ← ReorderRequest_findByIdAndUpdate requestId
       (λ r, ReorderRequest.mk (ReorderRequest._id r) (ReorderRequest.medicineId r)
               (ReorderRequest.medicineName r) (ReorderRequest.currentStock r)
               (ReorderRequest.reorderThreshold r) (ReorderRequest.requestedQuantity r)
               APPROVED (Some userId) (Some now) (ReorderRequest.orderedAt r)
               (ReorderRequest.receivedAt r));
     match request with
     | None => throw not_found
     | Some _ => logReordering "Reorder request approved"
     end)
    (λ e, _ ← logger_error "reordering" "Error approving reorder request:" e; throw e).

Definition markReorderRequestAsOrdered (requestId : ObjectId) : M unit :=
  try_catch
    (now ← new_Date;
     request ← ReorderRequest_findByIdAndUpdate requestId
       (λ r, ReorderRequest.mk (ReorderRequest._id r) (ReorderRequest.medicineId r)
               (ReorderRequest.medicineName r) (ReorderRequest.currentStock r)
               (ReorderRequest.reorderThreshold r) (ReorderRequest.requestedQuantity r)
               ORDERED (ReorderRequest.approvedBy r) (ReorderRequest.approvedAt r) (Some now)
               (ReorderRequest.receivedAt r));
     match request with
     | None => throw not_found
     | Some _ => logReordering "Reorder request marked as ordered"
     end)
    (λ e, _ ← logger_error "reordering" "Error marking reorder request as ordered:" e; throw e).

(** [receivedQuantity || request.requestedQuantity]: an absent argument and
    the number 0 are both falsy. *)
Definition quantityToAdd (receivedQuantity : option Z) (request : ReorderRequest.t) : Z :=
  match receivedQuantity with
  | Some q => if q =? 0 then ReorderRequest.requestedQuantity request else q
  | None => ReorderRequest.requestedQuantity request
  end.

(** [findById(requestId).populate('medicineId')] leaves [request.medicineId]
    null when the medicine is gone, so that the last [logReordering], which
    reads [request.medicineId.toString()], raises a [TypeError] after both
    updates were attempted. *)
Definition markReorderRequestAsReceived (requestId : ObjectId) (receivedQuantity : option Z) : M unit :=
  try_catch
    (request ← ReorderRequest_findById requestId;
     match request with
     | None => throw not_found
     | Some request =>
         let quantityToAdd := quantityToAdd receivedQuantity request in
         medicine ← Medicine_findById (ReorderRequest.medicineId request);
         _ ← match medicine with
             | Some _ =>
                 _ ← Medicine_findByIdAndUpdate (ReorderRequest.medicineId request)
                       (λ m, Medicine.set_quantity (Medicine.quantity m + quantityToAdd) m);
                 logReordering "Stock updated from reorder request"
             | None => mret tt
             end;
         now ← new_Date;
         _ ← ReorderRequest_findByIdAndUpdate requestId
               (λ r, ReorderRequest.mk (ReorderRequest._id r) (ReorderRequest.medicineId r)
                       (ReorderRequest.medicineName r) (ReorderRequest.currentStock r)
                       (ReorderRequest.reorderThreshold r) quantityToAdd
                       RECEIVED (ReorderRequest.approvedBy r) (ReorderRequest.approvedAt r)
                       (ReorderRequest.orderedAt r) (Some now));
         match medicine with
         | Some _ => logReordering "Reorder request marked as received"
         | None => throw (mkError TypeError "Cannot read properties of null (reading 'toString')")
         end
     end)
    (λ e, _ ← logger_error "reordering" "Error marking reorder request as received:" e; throw e).

(** ** [controllers/prescriptionController.ts] *)

Definition Prescription_findById (id : ObjectId) : M (option Prescription.t) :=
  db_call (λ w, (Ret (prescriptions w !! id), w)).

Definition Prescription_findByIdAndUpdate (id : ObjectId) (update : Prescription.t → Prescription.t) : M unit :=
  db_call (λ w, (Ret tt, set_prescriptions (alter update id) w)).

(** The validators of [transactionSchema] ([models/Transaction.ts], the
    second document of the file [config/database.ts] of the sources) that a
    document built by the code can fail, in the order of the schema. *)
Definition Transaction_validate (t : Transaction.t) : option string :=
  validation_failed "Transaction"
    ((if bool_decide (Transaction.medicineName t = "")
      then ["medicineName: Medicine name is required"] else [])
     ++ (if negb (Qle_bool 0 (Transaction.unitPrice t))
         then ["unitPrice: Unit price cannot be negative"] else [])).

(** [Transaction.create({...})]: [draft] is the document without its
    [createdAt], which [timestamps: true] fills in. *)
Definition Transaction_create (draft : Time → Transaction.t) : M Transaction.t :=
  db_call (λ w,
    let doc := draft (clock w) in
    match Transaction_validate doc with
    | Some msg => (Throw (mkError ValidationError msg), w)
    | None => (Ret doc, set_transactions (λ l, l ++ [doc]) w)
    end).

(** A route parameter [:id]: either a string that
    [mongoose.Types.ObjectId.isValid] refuses, or an identifier. *)
Inductive IdParam := NotAnObjectId | AnObjectId (id : ObjectId).

(** [res.status(code).json({ success, message, errors, data })]. *)
Module Response.
Record t := mk {
  code : Z;
  success : bool;
  message : string;
  errors : list string;
  prescription : option Prescription.t;
  transactions : list Transaction.t
}.
End Response.

Definition PrescriptionStatus_string (s : PrescriptionStatus) : string :=
  match s with
  | RxPENDING => "pending"
  | RxVALIDATED => "validated"
  | RxDISPENSED => "dispensed"
  | RxREJECTED => "rejected"
  | RxEXPIRED => "expired"
  end.

Definition MS_PER_DAY : Z := 1000 * 60 * 60 * 24.

(** [Math.ceil(a / b)] for integers [a] and [b > 0]. *)
Definition ceil_div (a b : Z) : Z := - ((- a) / b).

Definition insufficient_stock (item : PrescriptionItem.t) (medicine : Medicine.t) : string :=
  "Insufficient stock for " +:+ PrescriptionItem.medicineName item +:+ ". Available: "
    +:+ pretty (Medicine.quantity medicine) +:+ ", Required: " +:+ pretty (PrescriptionItem.quantity item).

(** The loop of [validatePrescription] over the items, pushing one message
    per item that fails.  Each message starts and ends with a fixed word or a
    number, so the [trim] of [rejectionReason] leaves the joined messages as
    they are. *)
Fixpoint validate_items (today : Time) (items : list PrescriptionItem.t)
    (validationErrors : list string) : M (list string) :=
  match items with
  | [] => mret validationErrors
  | item :: rest =>
      medicine ← Medicine_findById (PrescriptionItem.medicineId item);
      match medicine with
      | None =>
          validate_items today rest
            (validationErrors ++ ["Medicine " +:+ PrescriptionItem.medicineName item +:+ " not found"])
      | Some medicine =>
          if negb (Medicine.isActive medicine) then
            validate_items today rest
              (validationErrors ++ ["Medicine " +:+ PrescriptionItem.medicineName item +:+ " is not available"])
          else if Medicine.quantity medicine <? PrescriptionItem.quantity item then
            validate_items today rest (validationErrors ++ [insufficient_stock item medicine])
          else if Medicine.expiryDate medicine <? today then
            validate_items today rest
              (validationErrors ++ ["Medicine " +:+ PrescriptionItem.medicineName item +:+ " has expired"])
          else
            let daysUntilExpiry := ceil_div (Medicine.expiryDate medicine - today) MS_PER_DAY in
            _ ← (if (daysUntilExpiry <=? 30) && (0 <? daysUntilExpiry)
                 then logPrescription "Medicine expiring soon in prescription"
                 else mret tt);
            validate_items today rest validationErrors
      end
  end.

(** [notes || prescription.notes]: an absent and an empty string are falsy. *)
Definition notes_or (notes stored : option string) : option string :=
  match notes with
  | Some s => if bool_decide (s = "") then stored else Some s
  | None => stored
  end.

(** The white space and the line terminators of the language, as the bytes
    of their UTF-8 encoding: U+0009 to U+000D, U+0020, U+00A0, U+1680, U+2000
    to U+200A, U+2028, U+2029, U+202F, U+205F, U+3000 and U+FEFF. *)
Definition white_space : list (list Ascii.ascii) :=
  map (map Ascii.ascii_of_nat)
  [[9]; [10]; [11]; [12]; [13]; [32]; [194; 160]; [225; 154; 128];
   [226; 128; 128]; [226; 128; 129]; [226; 128; 130]; [226; 128; 131]; [226; 128; 132];
   [226; 128; 133]; [226; 128; 134]; [226; 128; 135]; [226; 128; 136]; [226; 128; 137];
   [226; 128; 138]; [226; 128; 168]; [226; 128; 169]; [226; 128; 175]; [226; 129; 159];
   [227; 128; 128]; [239; 187; 191]]%nat.

(** What is left of [l] after the prefix [pre]. *)
Fixpoint after (pre l : list Ascii.ascii) : option (list Ascii.ascii) :=
  match pre, l with
  | [], _ => Some l
  | x :: pre, y :: l => if decide (x = y) then after pre l else None
  | _ :: _, [] => None
  end.

Fixpoint trim_start (fuel : nat) (spaces : list (list Ascii.ascii)) (l : list Ascii.ascii) : list Ascii.ascii :=
  match fuel with
  | O => l
  | S fuel =>
      match omap (λ space, after space l) spaces with
      | rest :: _ => trim_start fuel spaces rest
      | [] => l
      end
  end.

(** [String.prototype.trim], which the [trim] option of a schema path applies
    to the string that is stored. *)
Definition trim (s : string) : string :=
  let l := String.list_ascii_of_string s in
  let l := trim_start (length l) white_space l in
  String.string_of_list_ascii (rev (trim_start (length l) (map (@rev _) white_space) (rev l))).

(** Of the two strings that the updates store, [notes] is trimmed by the
    schema; [rejectionReason] is trimmed too, which changes nothing, since
    every error message starts with a letter and ends with a letter or a
    digit. *)
Definition validatePrescription (id : IdParam) (notes : option string) (user : ObjectId)
    : M Response.t :=
  try_catch
    (match id with
     | NotAnObjectId => mret (Response.mk 400 false "Invalid prescription ID" [] None [])
     | AnObjectId id =>
         prescription ← Prescription_findById id;
         match prescription with
         | None => mret (Response.mk 404 false "Prescription not found" [] None [])
         | Some prescription =>
             if negb (bool_decide (Prescription.status prescription = RxPENDING)) then
               mret (Response.mk 400 false
                       ("Prescription is already " +:+ PrescriptionStatus_string (Prescription.status prescription))
                       [] None [])
             else
               today ← new_Date;
               validationErrors ← validate_items today (Prescription.items prescription) [];
               if (0 <? length validationErrors)%nat then
                 now ← new_Date;
                 _ ← Prescription_findByIdAndUpdate id
                       (λ p, Prescription.mk (Prescription.prescriptionNumber p) (Prescription.items p)
                               RxREJECTED (Some user) (Some now)
                               (Prescription.dispensedBy p) (Prescription.dispensedAt p)
                               (Some (join "; " validationErrors)) (Prescription.notes p));
                 _ ← logPrescription "Prescription validation failed";
                 mret (Response.mk 400 false "Prescription validation failed" validationErrors None [])
               else
                 now ← new_Date;
                 _ ← Prescription_findByIdAndUpdate id
                       (λ p, Prescription.mk (Prescription.prescriptionNumber p) (Prescription.items p)
                               RxVALIDATED (Some user) (Some now)
                               (Prescription.dispensedBy p) (Prescription.dispensedAt p)
                               (Prescription.rejectionReason p)
                               (trim <$> notes_or notes (Prescription.notes prescription)));
                 _ ← logPrescription "Prescription validated successfully";
                 updatedPrescription ← Prescription_findById id;
                 mret (Response.mk 200 true "Prescription validated successfully" [] updatedPrescription [])
         end
     end)
    (λ e, _ ← logger_error "prescription" "Error validating prescription:" e;
          mret (Response.mk 500 false "Error validating prescription. Please try again." [] None [])).

(** The loop of [dispensePrescription] over the items. *)
Fixpoint dispense_items (id user : ObjectId) (prescriptionNumber : string)
    (items : list PrescriptionItem.t) (transactions : list Transaction.t) : M (list Transaction.t) :=
  match items with
  | [] => mret transactions
  | item :: rest =>
      medicine ← Medicine_findById (PrescriptionItem.medicineId item);
      match medicine with
      | None =>
          throw (mkError GenericError ("Medicine " +:+ PrescriptionItem.medicineName item +:+ " not found"))
      | Some medicine =>
          if Medicine.quantity medicine <? PrescriptionItem.quantity item then
            throw (mkError GenericError (insufficient_stock item medicine))
          else
            let previousStock := Medicine.quantity medicine in
            let newStock := previousStock - PrescriptionItem.quantity item in
            _ ← Medicine_findByIdAndUpdate (PrescriptionItem.medicineId item) (Medicine.set_quantity newStock);
            transaction ← Transaction_create
              (Transaction.mk (PrescriptionItem.medicineId item) (Medicine.name medicine) DISPENSE
                 (PrescriptionItem.quantity item) previousStock newStock
                 (Medicine.pricePerUnit medicine)
                 (inject_Z (PrescriptionItem.quantity item) * Medicine.pricePerUnit medicine)%Q
                 user (Some id) ("Dispensed via prescription " +:+ prescriptionNumber));
            dispense_items id user prescriptionNumber rest (transactions ++ [transaction])
      end
  end.

Definition must_be_validated (s : PrescriptionStatus) : string :=
  "Prescription must be validated before dispensing. Current status: " +:+ PrescriptionStatus_string s.

Definition dispensePrescription (id : IdParam) (user : ObjectId) : M Response.t :=
  try_catch
    (match id with
     | NotAnObjectId => mret (Response.mk 400 false "Invalid prescription ID" [] None [])
     | AnObjectId id =>
         prescription ← Prescription_findById id;
         match prescription with
         | None => mret (Response.mk 404 false "Prescription not found" [] None [])
         | Some prescription =>
             if negb (bool_decide (Prescription.status prescription = RxVALIDATED)) then
               mret (Response.mk 400 false (must_be_validated (Prescription.status prescription)) [] None [])
             else
               transactions ← dispense_items id user (Prescription.prescriptionNumber prescription)
                                 (Prescription.items prescription) [];
               now ← new_Date;
               _ ← Prescription_findByIdAndUpdate id
                     (λ p, Prescription.mk (Prescription.prescriptionNumber p) (Prescription.items p)
                             RxDISPENSED (Prescription.validatedBy p) (Prescription.validatedAt p)
                             (Some user) (Some now)
                             (Prescription.rejectionReason p) (Prescription.notes p));
               _ ← logPrescription "Prescription dispensed";
               updatedPrescription ← Prescription_findById id;
               mret (Response.mk 200 true "Prescription dispensed successfully" [] updatedPrescription transactions)
         end
     end)
    (λ e, _ ← logger_error "prescription" "Error dispensing prescription:" e;
          mret (Response.mk 500 false (message e) [] None [])).

(** ** [models/Medicine.ts]: the virtual fields

    Each getter reads [new Date()]; [today] is that reading. *)

Definition daysUntilExpiry (today : Time) (m : Medicine.t) : Z :=
  let diffTime := Medicine.expiryDate m - today in
  ceil_div diffTime MS_PER_DAY.

Definition isLowStock (m : Medicine.t) : bool :=
  Medicine.quantity m <=? Medicine.reorderThreshold m.

Definition isExpired (today : Time) (m : Medicine.t) : bool :=
  Medicine.expiryDate m <? today.

Definition isExpiringSoon (today : Time) (m : Medicine.t) : bool :=
  let diffTime := Medicine.expiryDate m - today in
  let diffDays := ceil_div diffTime MS_PER_DAY in
  (0 <? diffDays) && (diffDays <=? 30).

(** ** [controllers/analyticsController.ts]: the demand trend

    The numbers that the analytics compute are IEEE 754 doubles: the
    [spec_float] of the standard library at 53 bits of precision and a largest
    exponent of 1024, with the library's specification of the operations,
    which round to the nearest double, ties to even. *)
Abbreviation JsNumber := spec_float (only parsing).

(** The double nearest to an integer. *)
Definition js_of_Z (z : Z) : JsNumber := binary_normalize 53 1024 z 0 false.

(** [a + b], [a * b], [a / b]. *)
Definition js_add (a b : JsNumber) : JsNumber := SFadd 53 1024 a b.
Definition js_mul (a b : JsNumber) : JsNumber := SFmul 53 1024 a b.
Definition js_div (a b : JsNumber) : JsNumber := SFdiv 53 1024 a b.

(** [a <= b] and [a > 0]: false as soon as one side is NaN. *)
Definition js_le (a b : JsNumber) : bool := SFleb a b.
Definition js_is_pos (a : JsNumber) : bool := SFltb (js_of_Z 0) a.

(** [!a]: a number is falsy when it is a zero or NaN. *)
Definition js_falsy (a : JsNumber) : bool :=
  match a with
  | S754_zero _ | S754_nan => true
  | _ => false
  end.

(** [Math.floor(a)]: a double without a fractional part is its own floor;
    otherwise the mantissa loses the bits below the unit, rounding down. *)
Definition js_floor (a : JsNumber) : JsNumber :=
  match a with
  | S754_finite s m e =>
      if 0 <=? e then a
      else
        let value := cond_Zopp s (Z.pos m) in
        let floor := value / 2 ^ (- e) in
        if floor * 2 ^ (- e) =? value then a
        else binary_normalize 53 1024 floor 0 s
  | _ => a
  end.

(** [Math.ceil(a)], which is [-Math.floor(-a)], also in the sign of a zero. *)
Definition js_ceil (a : JsNumber) : JsNumber := SFopp (js_floor (SFopp a)).

(** [parseInt(req.query.days, 10)]: NaN when the string does not start with
    a number, [-0] for a negative zero, and otherwise the integer that the
    leading digits denote. *)
Inductive ParsedInt := NotANumber | NegativeZero | Int (n : Z).

(** The number that [daysNum] is. *)
Definition js_number (daysNum : ParsedInt) : JsNumber :=
  match daysNum with
  | NotANumber => S754_nan
  | NegativeZero => S754_zero true
  | Int n => js_of_Z n
  end.

(** The time zone of the server: the offset of local time from UTC in
    milliseconds, [LocalTZA(t, isUTC)] of the language specification, read at
    a UTC instant ([isUTC] true) or at a local time ([isUTC] false). *)
Definition TimeZone : Type := Time → bool → Z.

Definition LocalTime (zone : TimeZone) (t : Time) : Z := t + zone t true.
Definition UTC (zone : TimeZone) (t : Z) : Z := t - zone t false.

(** [TimeClip]: a time value further than 8.64e15 ms from the epoch is no
    date; [None] is the Invalid Date. *)
Definition TimeClip (time : Z) : option Time :=
  if Z.abs time <=? 8640000000000000 then Some time else None.

(** [date.setDate(date.getDate() - daysNum)] for a valid [date].  In the
    language specification [setDate(dt)] takes the local time [t] of the
    date, makes [MakeDate(MakeDay(YearFromTime(t), MonthFromTime(t), dt),
    TimeWithinDay(t))] of it and keeps the [TimeClip] of its [UTC].
    [MakeDay(year, month, dt)] is the day number of the first of the month
    plus [dt - 1], and [getDate()] is the day of the month of [t]: with
    [dt = getDate() - n] the day is that of [t] less [n], so that the local
    time keeps its time of day and goes back [n] calendar days.  A [dt] that
    is NaN gives the Invalid Date.  (The date's own arithmetic is in doubles,
    which are exact on the integers below 2^53; beyond them the result is out
    of the range of [TimeClip] in any case.) *)
Definition setDate_back (zone : TimeZone) (date : Time) (daysNum : ParsedInt) : option Time :=
  match daysNum with
  | NotANumber => None
  | NegativeZero => TimeClip (UTC zone (LocalTime zone date))
  | Int n => TimeClip (UTC zone (LocalTime zone date - n * MS_PER_DAY))
  end.

(** The documents that match
    [{ medicineId, type: { $in: [SALE, DISPENSE] },
       createdAt: { $gte: startDate, $lte: endDate } }]. *)
Definition in_demand_window (medicineId : ObjectId) (startDate endDate : Time) (t : Transaction.t) : bool :=
  bool_decide (Transaction.medicineId t = medicineId)
  && bool_decide (Transaction.type t = SALE ∨ Transaction.type t = DISPENSE)
  && (startDate <=? Transaction.createdAt t) && (Transaction.createdAt t <=? endDate).

(** The double quotation mark. *)
Definition quote : string := String (Ascii.ascii_of_nat 34) "".

(** The message of the [CastError] that Mongoose raises when the query is
    given an Invalid Date. *)
Definition cast_to_date_failed : string :=
  "Cast to date failed for value " +:+ quote +:+ "Invalid Date" +:+ quote
  +:+ " (type Date) at path " +:+ quote +:+ "createdAt" +:+ quote
  +:+ " for model " +:+ quote +:+ "Transaction" +:+ quote.

(** [Transaction.find(filter).lean()], in the collection's order.  An
    Invalid Date in the filter fails the cast of the query, before the
    database is asked. *)
Definition Transaction_find_demand (medicineId : ObjectId) (startDate : option Time) (endDate : Time)
    : M (list Transaction.t) :=
  match startDate with
  | None => throw (mkError CastError cast_to_date_failed)
  | Some startDate =>
      db_call (λ w, (Ret (List.filter (in_demand_window medicineId startDate endDate) (transactions w)), w))
  end.

(** A sort that is stable: an element goes before the first one it does not
    compare greater than. *)
Fixpoint sort_insert {A} (compare : A → A → Z) (x : A) (l : list A) : list A :=
  match l with
  | [] => [x]
  | y :: rest => if compare x y <=? 0 then x :: y :: rest else y :: sort_insert compare x rest
  end.

Definition sort {A} (compare : A → A → Z) (l : list A) : list A :=
  foldr (sort_insert compare) [] l.

(** [{ createdAt: 1 }]: the older document first. *)
Definition createdAt_ascending (a b : Transaction.t) : Z :=
  Transaction.createdAt a - Transaction.createdAt b.

(** [Transaction.find(filter).sort({ createdAt: 1 }).lean()]; documents of
    the same instant stay in the collection's order. *)
Definition Transaction_find_demand_sorted (medicineId : ObjectId) (startDate : option Time)
    (endDate : Time) : M (list Transaction.t) :=
  match startDate with
  | None => throw (mkError CastError cast_to_date_failed)
  | Some startDate =>
      db_call (λ w, (Ret (sort createdAt_ascending
                            (List.filter (in_demand_window medicineId startDate endDate)
                               (transactions w))), w))
  end.

(** The key of [dailyBreakdown]: [toISOString().split('T')[0]] names the UTC
    day of the transaction, here the number of that day. *)
Definition day_of (t : Time) : Z := t / MS_PER_DAY.

(** [dailyDemand[date]] as a number: a missing entry is [undefined], NaN in
    arithmetic. *)
Definition entry (dailyDemand : gmap Z JsNumber) (date : Z) : JsNumber :=
  default S754_nan (dailyDemand !! date).

(** The body of [transactions.forEach]: the per-day totals and the total. *)
Definition add_demand (acc : gmap Z JsNumber * JsNumber) (transaction : Transaction.t)
    : gmap Z JsNumber * JsNumber :=
  let date := day_of (Transaction.createdAt transaction) in
  let dailyDemand := match acc.1 !! date with
                     | Some v => if js_falsy v then <[date := js_of_Z 0]> acc.1 else acc.1
                     | None => <[date := js_of_Z 0]> acc.1
                     end in
  (<[date := js_add (entry dailyDemand date) (js_of_Z (Transaction.quantity transaction))]> dailyDemand,
   js_add acc.2 (js_of_Z (Transaction.quantity transaction))).

Module DemandTrends.
Record t := mk {
  startDate : option Time;
  endDate : Time;
  days : ParsedInt;
  total : JsNumber;
  averageDaily : JsNumber;
  dailyBreakdown : gmap Z JsNumber;
  next30Days : JsNumber;
  daysUntilStockout : JsNumber;
  currentStock : Z
}.
End DemandTrends.

Inductive TrendsResponse :=
  | TrendsOk (data : DemandTrends.t)
  | TrendsFailure (code : Z) (message : string).

(** [medicine?.quantity || 0]. *)
Definition currentStock_of (medicine : option Medicine.t) : Z :=
  match medicine with
  | Some m => Medicine.quantity m
  | None => 0
  end.

(** [daysNum] is [parseInt(req.query.days, 10)].  A [Date] is its time value,
    or [None] when it is the Invalid Date. *)
Definition getDemandTrends (zone : TimeZone) (medicineId : IdParam) (daysNum : ParsedInt)
    : M TrendsResponse :=
  try_catch
    (match medicineId with
     | NotAnObjectId => mret (TrendsFailure 400 "Valid medicine ID is required")
     | AnObjectId medicineId =>
         endDate ← new_Date;
         startDate ← (startDate ← new_Date; mret (setDate_back zone startDate daysNum));
         transactions ← Transaction_find_demand_sorted medicineId startDate endDate;
         let '(dailyDemand, totalDemand) := foldl add_demand (∅, js_of_Z 0) transactions in
         let averageDailyDemand := js_div totalDemand (js_number daysNum) in
         let predictedDemand := js_mul averageDailyDemand (js_of_Z 30) in
         medicine ← Medicine_findById medicineId;
         let currentStock := currentStock_of medicine in
         let daysUntilStockout :=
           if (0 <? currentStock) && js_is_pos averageDailyDemand
           then js_floor (js_div (js_of_Z currentStock) averageDailyDemand)
           else js_of_Z 0 in
         _ ← logAnalytics "Demand trend analysis retrieved";
         mret (TrendsOk (DemandTrends.mk startDate endDate daysNum totalDemand
                           averageDailyDemand dailyDemand predictedDemand daysUntilStockout
                           currentStock))
     end)
    (λ e, _ ← logger_error "analytics" "Error fetching demand trends:" e;
          mret (TrendsFailure 500 "Error fetching demand trends. Please try again.")).

(** ** [controllers/reorderController.ts] and [controllers/medicineController.ts]

    [res.status(code).json({ success, message })]. *)
Module Reply.
Record t := mk {
  code : Z;
  success : bool;
  message : string
}.
End Reply.

(** The three handlers that change a reorder request.  None of them calls
    [validationResult], so what the route's validators found is not looked
    at; the [catch] answers with the message of whatever was thrown.
    [receivedQuantity] is the body's field when it is a number, [None] when
    it is absent. *)
Definition approveRequest (id : IdParam) (user : ObjectId) : M Reply.t :=
  try_catch
    (match id with
     | NotAnObjectId => mret (Reply.mk 400 false "Invalid reorder request ID")
     | AnObjectId id =>
         _ ← approveReorderRequest id user;
         mret (Reply.mk 200 true "Reorder request approved successfully")
     end)
    (λ e, _ ← logger_error "reordering" "Error approving reorder request:" e;
          mret (Reply.mk 500 false (message e))).

Definition markAsOrdered (id : IdParam) : M Reply.t :=
  try_catch
    (match id with
     | NotAnObjectId => mret (Reply.mk 400 false "Invalid reorder request ID")
     | AnObjectId id =>
         _ ← markReorderRequestAsOrdered id;
         mret (Reply.mk 200 true "Reorder request marked as ordered")
     end)
    (λ e, _ ← logger_error "reordering" "Error marking reorder request as ordered:" e;
          mret (Reply.mk 500 false (message e))).

Definition markAsReceived (id : IdParam) (receivedQuantity : option Z) : M Reply.t :=
  try_catch
    (match id with
     | NotAnObjectId => mret (Reply.mk 400 false "Invalid reorder request ID")
     | AnObjectId id =>
         _ ← markReorderRequestAsReceived id receivedQuantity;
         mret (Reply.mk 200 true "Reorder request marked as received and stock updated")
     end)
    (λ e, _ ← logger_error "reordering" "Error marking reorder request as received:" e;
          mret (Reply.mk 500 false (message e))).

Definition logInventory (text : string) : M unit := write_log (mkLog LvlInfo "inventory" text None).

(** [Medicine.findByIdAndUpdate(id, update, { new: true })]: answers the
    updated document, or null when there is none. *)
Definition Medicine_findByIdAndUpdate_new (id : ObjectId) (update : Medicine.t → Medicine.t)
    : M (option Medicine.t) :=
  db_call (λ w, (Ret (update <$> medicines w !! id), set_medicines (alter update id) w)).

(** The update [{ isActive: false }] of [deleteMedicine]; the user that
    [authenticate] attached to the request is read for the log line only. *)
Definition deactivate (m : Medicine.t) : Medicine.t :=
  Medicine.mk (Medicine.name m) (Medicine.expiryDate m) (Medicine.quantity m)
    (Medicine.pricePerUnit m) (Medicine.reorderThreshold m) false.

Definition deleteMedicine (id : IdParam) : M Reply.t :=
  try_catch
    (match id with
     | NotAnObjectId => mret (Reply.mk 400 false "Invalid medicine ID")
     | AnObjectId id =>
         medicine ← Medicine_findByIdAndUpdate_new id deactivate;
         match medicine with
         | None => mret (Reply.mk 404 false "Medicine not found")
         | Some _ =>
             _ ← logInventory "Medicine deleted";
             mret (Reply.mk 200 true "Medicine deleted successfully")
         end
     end)
    (λ e, _ ← logger_error "inventory" "Error deleting medicine:" e;
          mret (Reply.mk 500 false "Error deleting medicine. Please try again.")).

(** ** [controllers/analyticsController.ts]: the reorder recommendations *)

(** The four names shared by the urgency of a recommendation and by
    [MedicinePriority]. *)
Module Level.
Inductive t := critical | high | medium | low.
End Level.

Definition urgencyOrder (l : Level.t) : Z :=
  match l with
  | Level.critical => 0
  | Level.high => 1
  | Level.medium => 2
  | Level.low => 3
  end.

Definition priorityOrder (l : Level.t) : Z :=
  match l with
  | Level.critical => 0
  | Level.high => 1
  | Level.medium => 2
  | Level.low => 3
  end.

Module Recommendation.
Record t := mk {
  medicineId : ObjectId;
  medicineName : string;
  currentStock : Z;
  reorderThreshold : Z;
  averageDailyDemand : JsNumber;
  predictedDemand : JsNumber;
  recommendedQuantity : JsNumber;
  daysUntilStockout : JsNumber;
  urgency : Level.t;
  priority : Level.t
}.
End Recommendation.

Inductive RecommendationsResponse :=
  | RecommendationsOk (recommendations : list Recommendation.t) (generatedAt : Time)
  | RecommendationsFailure (code : Z) (message : string).

(** The urgency read off the days until stock-out. *)
Definition urgency_of (daysUntilStockout : JsNumber) : Level.t :=
  if js_le daysUntilStockout (js_of_Z 7) then Level.critical
  else if js_le daysUntilStockout (js_of_Z 14) then Level.high
  else if js_le daysUntilStockout (js_of_Z 30) then Level.medium
  else Level.low.

(** The loop of [getReorderRecommendations] over the active medicines.
    [medicine.priority] is a field that the medicine record of this model
    does not carry; it is read through [priority], by the medicine's
    identifier. *)
Fixpoint recommend_loop (zone : TimeZone) (priority : ObjectId → Level.t) (daysNum : ParsedInt)
    (meds : list (ObjectId * Medicine.t)) (recommendations : list Recommendation.t)
    : M (list Recommendation.t) :=
  match meds with
  | [] => mret recommendations
  | (mid, medicine) :: rest =>
      endDate ← new_Date;
      startDate ← (startDate ← new_Date; mret (setDate_back zone startDate daysNum));
      transactions ← Transaction_find_demand mid startDate endDate;
      let totalDemand :=
        foldl (λ sum transaction, js_add sum (js_of_Z (Transaction.quantity transaction)))
          (js_of_Z 0) transactions in
      let averageDailyDemand := js_div totalDemand (js_number daysNum) in
      let predictedDemand := js_mul averageDailyDemand (js_of_Z 30) in
      let safetyStock := js_of_Z (Medicine.reorderThreshold medicine) in
      let recommendedQuantity := js_ceil (js_add predictedDemand safetyStock) in
      let daysUntilStockout :=
        if js_is_pos averageDailyDemand
        then js_floor (js_div (js_of_Z (Medicine.quantity medicine)) averageDailyDemand)
        else js_of_Z 999 in
      let urgency := urgency_of daysUntilStockout in
      if js_is_pos recommendedQuantity
         && ((Medicine.quantity medicine <=? Medicine.reorderThreshold medicine)
             || js_le daysUntilStockout (js_of_Z 60))
      then
        recommend_loop zone priority daysNum rest
          (recommendations ++
           [Recommendation.mk mid (Medicine.name medicine) (Medicine.quantity medicine)
              (Medicine.reorderThreshold medicine) averageDailyDemand predictedDemand
              recommendedQuantity daysUntilStockout urgency (priority mid)])
      else recommend_loop zone priority daysNum rest recommendations
  end.

(** The comparator of [recommendations.sort], which is a stable sort. *)
Definition compare_recommendations (a b : Recommendation.t) : Z :=
  let urgencyDiff := urgencyOrder (Recommendation.urgency a) - urgencyOrder (Recommendation.urgency b) in
  if negb (urgencyDiff =? 0) then urgencyDiff
  else priorityOrder (Recommendation.priority a) - priorityOrder (Recommendation.priority b).

Definition getReorderRecommendations (zone : TimeZone) (priority : ObjectId → Level.t)
    (daysNum : ParsedInt) : M RecommendationsResponse :=
  try_catch
    (medicines ← Medicine_find_active;
     recommendations ← recommend_loop zone priority daysNum medicines [];
     let recommendations := sort compare_recommendations recommendations in
     _ ← logAnalytics "Reorder recommendations generated";
     generatedAt ← new_Date;
     mret (RecommendationsOk recommendations generatedAt))
    (λ e, _ ← logger_error "analytics" "Error generating reorder recommendations:" e;
          mret (RecommendationsFailure 500 "Error generating reorder recommendations. Please try again.")).

(** ** [middleware/auth.ts] and the routes it guards *)

Inductive UserRole := ADMIN | PHARMACIST | STAFF.

#[global] Instance UserRole_eq_dec : EqDecision UserRole.
Proof. solve_decision. Defined.

(** A user document: the fields that the middleware reads. *)
Module User.
Record t := mk {
  _id : ObjectId;
  role : UserRole;
  isActive : bool
}.
End User.

(** What [authenticate] reads outside the collections of the world: the
    [Authorization] header of the request, [process.env.JWT_SECRET], the
    library call [jwt.verify(token, secret)], which answers the [userId] of
    the payload or throws, and the users collection, which no modelled
    function writes.  A payload that verifies was signed with the secret, as
    [generateToken] does with the [_id] of a user. *)
Module Session.
Record t := mk {
  authorization : option string;
  JWT_SECRET : option string;
  jwt_verify : string → string → Result ObjectId;
  users : gmap ObjectId User.t
}.
End Session.

Definition logAuth (text : string) : M unit := write_log (mkLog LvlInfo "authentication" text None).

(** [User.findById(decoded.userId).select('-password')]. *)
Definition User_findById (req : Session.t) (id : ObjectId) : M (option User.t) :=
  db_call (λ w, (Ret (Session.users req !! id), w)).

(** [error instanceof jwt.JsonWebTokenError]: in [jsonwebtoken] the classes
    [TokenExpiredError] and [NotBeforeError] extend [JsonWebTokenError]. *)
Definition instanceof_JsonWebTokenError (e : JsError) : bool :=
  match kind e with
  | JsonWebTokenError | TokenExpiredError | NotBeforeError => true
  | _ => false
  end.

Definition instanceof_TokenExpiredError (e : JsError) : bool :=
  match kind e with
  | TokenExpiredError => true
  | _ => false
  end.

(** [authenticate]: the middleware either answers, or attaches the user to
    the request and calls [next()].  The rest of the route runs in handlers
    that catch what they throw, so nothing comes back into this [try].  The
    line about a missing secret is written without a [workflow] tag. *)
Definition authenticate (req : Session.t) : M (Reply.t + User.t) :=
  let no_token : M (Reply.t + User.t) :=
    _ ← logAuth "Authentication failed: No token provided";
    mret (inl (Reply.mk 401 false "Authentication required. Please provide a valid token.")) in
  try_catch
    (match Session.authorization req with
     | None => no_token
     | Some authHeader =>
         if negb (String.prefix "Bearer " authHeader) then no_token
         else
           let token := String.substring 7 (String.length authHeader - 7) authHeader in
           if bool_decide (token = "") then
             _ ← logAuth "Authentication failed: Empty token";
             mret (inl (Reply.mk 401 false "Authentication required. Please provide a valid token."))
           else
             match Session.JWT_SECRET req with
             | Some jwtSecret =>
                 if bool_decide (jwtSecret = "") then
                   _ ← write_log (mkLog LvlError "" "JWT_SECRET is not defined in environment variables" None);
                   mret (inl (Reply.mk 500 false "Server configuration error"))
                 else
                   decoded ← (λ w, (Session.jwt_verify req token jwtSecret, w));
                   user ← User_findById req decoded;
                   match user with
                   | None =>
                       _ ← logAuth "Authentication failed: User not found";
                       mret (inl (Reply.mk 401 false "User not found. Token is invalid."))
                   | Some user =>
                       if negb (User.isActive user) then
                         _ ← logAuth "Authentication failed: User account is inactive";
                         mret (inl (Reply.mk 403 false
                                      "Your account has been deactivated. Please contact an administrator."))
                       else
                         _ ← logAuth "User authenticated successfully";
                         mret (inr user)
                   end
             | None =>
                 _ ← write_log (mkLog LvlError "" "JWT_SECRET is not defined in environment variables" None);
                 mret (inl (Reply.mk 500 false "Server configuration error"))
             end
     end)
    (λ error,
       if instanceof_JsonWebTokenError error then
         _ ← logAuth "Authentication failed: Invalid token";
         mret (inl (Reply.mk 401 false "Invalid token. Please login again."))
       else if instanceof_TokenExpiredError error then
         _ ← logAuth "Authentication failed: Token expired";
         mret (inl (Reply.mk 401 false "Token has expired. Please login again."))
       else
         _ ← logger_error "authentication" "Authentication error:" error;
         mret (inl (Reply.mk 500 false "Authentication error. Please try again."))).

(** [authorize(...allowedRoles)]: the middleware either answers, or calls
    [next()], here the rest of the route, and the answer is the handler's. *)
Definition authorize {A} (allowedRoles : list UserRole) (user : option User.t) (next : M A)
    : M (Reply.t + A) :=
  match user with
  | None =>
      _ ← logAuth "Authorization failed: User not authenticated";
      mret (inl (Reply.mk 401 false "Authentication required"))
  | Some user =>
      if negb (bool_decide (User.role user ∈ allowedRoles)) then
        _ ← logAuth "Authorization failed: Insufficient permissions";
        mret (inl (Reply.mk 403 false "You do not have permission to access this resource."))
      else
        _ ← logAuth "Authorization successful";
        answer ← next;
        mret (inr answer)
  end.

(** [router.post(path, authenticate, authorize(...allowedRoles), validators,
    handler)]: the handler runs for the user that [authenticate] attached to
    the request, once [authorize] has called [next()].  The validators
    [param('id')] and [body('receivedQuantity')] only record what they find,
    and no handler below reads it. *)
Definition guarded {A} (req : Session.t) (allowedRoles : list UserRole) (handler : User.t → M A)
    : M (Reply.t + A) :=
  attached ← authenticate req;
  match attached with
  | inl answer => mret (inl answer)
  | inr user => authorize allowedRoles (Some user) (handler user)
  end.

(** The routes that change a prescription, a reorder request or a medicine's
    availability. *)
Definition post_prescription_validate (req : Session.t) (id : IdParam) (notes : option string) :=
  guarded req [PHARMACIST; ADMIN] (λ user, validatePrescription id notes (User._id user)).

Definition post_prescription_dispense (req : Session.t) (id : IdParam) :=
  guarded req [PHARMACIST; ADMIN] (λ user, dispensePrescription id (User._id user)).

Definition post_reorder_approve (req : Session.t) (id : IdParam) :=
  guarded req [ADMIN; PHARMACIST] (λ user, approveRequest id (User._id user)).

Definition post_reorder_order (req : Session.t) (id : IdParam) :=
  guarded req [ADMIN; PHARMACIST] (λ _, markAsOrdered id).

Definition post_reorder_receive (req : Session.t) (id : IdParam) (receivedQuantity : option Z) :=
  guarded req [ADMIN; PHARMACIST] (λ _, markAsReceived id receivedQuantity).

Definition delete_medicine (req : Session.t) (id : IdParam) :=
  guarded req [ADMIN] (λ _, deleteMedicine id).

(** * Vocabulary of the properties *)

(** ** The driver's schedule along a run *)

(** [refused_within w w' msg]: between [w] and [w'] the driver let some calls
    through and then refused one with [msg]. *)
Definition refused_within (w w' : World) (msg : string) : Prop :=
  ∃ k : nat, faults w = replicate k None ++ Some msg :: faults w'.

(** A computation [tracks] the schedule when each run either consumes only
    calls that were let through, or stops at the first refused call and
    throws the driver's error. *)
Definition tracks {A} (c : M A) : Prop :=
  ∀ w res w', c w = (res, w') →
    (∃ k : nat, faults w = replicate k None ++ faults w') ∨
    (∃ (k : nat) msg, faults w = replicate k None ++ Some msg :: faults w'
                      ∧ res = Throw (mkError DriverError msg)).

(** ** What the validators of the schemas check

    The validators of a schema run when a document is created or saved.  The
    updates of the code, [findByIdAndUpdate] with or without [$inc], run none
    of them.  What they check is therefore a condition that a state may meet,
    not a fact of every state that the code reaches: a request marked as
    received with a negative quantity leaves a negative stock behind. *)

(** A medicine that passes the validators of [medicineSchema]. *)
Definition medicine_ok (m : Medicine.t) : bool :=
  negb (bool_decide (Medicine.name m = ""))
  && (0 <=? Medicine.quantity m) && (0 <=? Medicine.reorderThreshold m)
  && Qle_bool 0 (Medicine.pricePerUnit m).

(** Every medicine on record passes them. *)
Definition schema_valid (w : World) : bool :=
  forallb (λ d, medicine_ok d.2) (map_to_list (medicines w)).


(** ** The reorder service *)

(** The update of [markReorderRequestAsReceived]. *)
Definition received_update (quantityToAdd : Z) (now : Z) (r : ReorderRequest.t) : ReorderRequest.t :=
  ReorderRequest.mk (ReorderRequest._id r) (ReorderRequest.medicineId r)
    (ReorderRequest.medicineName r) (ReorderRequest.currentStock r)
    (ReorderRequest.reorderThreshold r) quantityToAdd
    RECEIVED (ReorderRequest.approvedBy r) (ReorderRequest.approvedAt r)
    (ReorderRequest.orderedAt r) (Some now).

(** The update of the sweep: a new stock snapshot. *)
Definition refresh (q : Z) (r : ReorderRequest.t) : ReorderRequest.t :=
  ReorderRequest.mk (ReorderRequest._id r) (ReorderRequest.medicineId r)
    (ReorderRequest.medicineName r) q
    (ReorderRequest.reorderThreshold r) (ReorderRequest.requestedQuantity r)
    (ReorderRequest.status r) (ReorderRequest.approvedBy r)
    (ReorderRequest.approvedAt r) (ReorderRequest.orderedAt r)
    (ReorderRequest.receivedAt r).

(** The document the sweep creates for medicine [mid]. *)
Definition new_request (id mid : nat) (m : Medicine.t) : ReorderRequest.t :=
  ReorderRequest.mk id mid (Medicine.name m) (Medicine.quantity m) (Medicine.reorderThreshold m)
    (Z.max (Medicine.reorderThreshold m * 3) 50) PENDING None None None None.

(** The medicines [Medicine.find({ isActive: true })] answers. *)
Definition active_medicines (w : World) : list (nat * Medicine.t) :=
  filter (λ d, Medicine.isActive d.2 = true) (map_to_list (medicines w)).

(** One iteration of the loop, as a function on the collection. *)
Definition sweep_step (reqs : list ReorderRequest.t) (d : nat * Medicine.t) : list ReorderRequest.t :=
  if Medicine.quantity d.2 <=? Medicine.reorderThreshold d.2 then
    match List.find (open_for d.1) reqs with
    | Some existing =>
        if negb (ReorderRequest.currentStock existing =? Medicine.quantity d.2)
        then update_by_id (ReorderRequest._id existing) (refresh (Medicine.quantity d.2)) reqs
        else reqs
    | None => reqs ++ [new_request (fresh_id reqs) d.1 d.2]
    end
  else reqs.

(** Two requests that differ at most in their stock snapshot. *)
Definition same_but_stock (r r' : ReorderRequest.t) : Prop := refresh 0 r = refresh 0 r'.

(** A medicine at or below its threshold without an open request. *)
Definition needs_request (reqs : list ReorderRequest.t) (d : nat * Medicine.t) : bool :=
  (Medicine.quantity d.2 <=? Medicine.reorderThreshold d.2) && negb (existsb (open_for d.1) reqs).


(** The open request the sweep finds for [d] already shows [d]'s quantity. *)
Definition settled (reqs : list ReorderRequest.t) (d : nat * Medicine.t) : Prop :=
  (Medicine.quantity d.2 <=? Medicine.reorderThreshold d.2) = true →
  ∃ r, List.find (open_for d.1) reqs = Some r
       ∧ ReorderRequest.currentStock r = Medicine.quantity d.2.

(** ** Prescriptions *)


(** The message the loop pushes for an item, if any. *)
Definition item_error (meds : gmap nat Medicine.t) (today : Z) (item : PrescriptionItem.t)
    : option string :=
  match meds !! PrescriptionItem.medicineId item with
  | None => Some ("Medicine " +:+ PrescriptionItem.medicineName item +:+ " not found")
  | Some m =>
      if negb (Medicine.isActive m) then
        Some ("Medicine " +:+ PrescriptionItem.medicineName item +:+ " is not available")
      else if Medicine.quantity m <? PrescriptionItem.quantity item then
        Some (insufficient_stock item m)
      else if Medicine.expiryDate m <? today then
        Some ("Medicine " +:+ PrescriptionItem.medicineName item +:+ " has expired")
      else None
  end.



(** The transaction the loop records for [item], read against [m]. *)
Definition receipt (id user : nat) (prescriptionNumber : string) (now : Z)
    (item : PrescriptionItem.t) (m : Medicine.t) : Transaction.t :=
  Transaction.mk (PrescriptionItem.medicineId item) (Medicine.name m) DISPENSE
    (PrescriptionItem.quantity item) (Medicine.quantity m)
    (Medicine.quantity m - PrescriptionItem.quantity item)
    (Medicine.pricePerUnit m)
    (inject_Z (PrescriptionItem.quantity item) * Medicine.pricePerUnit m)%Q
    user (Some id) ("Dispensed via prescription " +:+ prescriptionNumber) now.

(** The update of the stock for [item], read against [m]. *)
Definition debit_item (item : PrescriptionItem.t) (m : Medicine.t)
    (meds : gmap nat Medicine.t) : gmap nat Medicine.t :=
  alter (Medicine.set_quantity (Medicine.quantity m - PrescriptionItem.quantity item))
    (PrescriptionItem.medicineId item) meds.

(** The items can be dispensed one after the other: each finds its medicine
    with enough stock left by the items before it. *)
Fixpoint dispensable (meds : gmap nat Medicine.t) (items : list PrescriptionItem.t) : bool :=
  match items with
  | [] => true
  | item :: rest =>
      match meds !! PrescriptionItem.medicineId item with
      | Some m =>
          negb (Medicine.quantity m <? PrescriptionItem.quantity item)
          && negb (bool_decide (Medicine.name m = ""))
          && Qle_bool 0 (Medicine.pricePerUnit m)
          && dispensable (debit_item item m meds) rest
      | None => false
      end
  end.

(** The stock after the items were dispensed. *)
Fixpoint debit (meds : gmap nat Medicine.t) (items : list PrescriptionItem.t) : gmap nat Medicine.t :=
  match items with
  | [] => meds
  | item :: rest =>
      match meds !! PrescriptionItem.medicineId item with
      | Some m => debit (debit_item item m meds) rest
      | None => meds
      end
  end.

(** The transactions recorded for the items. *)
Fixpoint receipts (id user : nat) (prescriptionNumber : string) (now : Z)
    (meds : gmap nat Medicine.t) (items : list PrescriptionItem.t) : list Transaction.t :=
  match items with
  | [] => []
  | item :: rest =>
      match meds !! PrescriptionItem.medicineId item with
      | Some m =>
          receipt id user prescriptionNumber now item m
          :: receipts id user prescriptionNumber now (debit_item item m meds) rest
      | None => []
      end
  end.




(** ** The demand trend *)

(** The sum of a list of quantities as the language computes it: one
    addition of doubles after the other, from [start] on. *)
Definition js_sum_from (start : JsNumber) (l : list Z) : JsNumber :=
  foldl (λ sum q, js_add sum (js_of_Z q)) start l.

Definition js_sum (l : list Z) : JsNumber := js_sum_from (js_of_Z 0) l.



(** A double that is an integer: a mantissa that is a multiple of the weight
    of the unit. *)
Definition integral (a : spec_float) : Prop :=
  match a with
  | S754_finite _ m e => ∃ n shift, 0 ≤ shift ∧ e = - shift ∧ Z.pos m = n * 2 ^ shift
  | _ => True
  end.

(** The sale and dispense transactions of a medicine that were created from
    [start] up to the clock, in the collection's order. *)
Definition demand_window (w : World) (mid : nat) (start : Z) : list Transaction.t :=
  List.filter (in_demand_window mid start (clock w)) (transactions w).


(** A server that keeps UTC. *)
Definition utc : TimeZone := λ _ _, 0.


(** ** Example worlds *)

(** A medicine below its threshold: 5 in stock, threshold 10. *)
Definition amoxicillin : Medicine.t :=
  Medicine.mk "Amoxicillin" 1900000000000 5 (5 # 2) 10 true.

(** A pending request of 50 units for that medicine. *)
Definition pending_request : ReorderRequest.t :=
  ReorderRequest.mk 1%nat 1%nat "Amoxicillin" 5 10 50 PENDING None None None None.

(** One medicine, one reorder request for it, nothing else. *)
Definition pharmacy : World :=
  mkWorld {[ 1%nat := amoxicillin ]} ∅ [pending_request] [] [] 1700000000000 [].

(** The same pharmacy with a driver that refuses the next call. *)
Definition pharmacy_offline : World := set_faults [Some "connection lost"] pharmacy.

(** The example world of the specification: 5 in stock, threshold 10, and no
    reorder request yet. *)
Definition pharmacy_low : World :=
  mkWorld {[ 1%nat := amoxicillin ]} ∅ [] [] [] 1700000000000 [].

(** A state the service itself reaches: the first request was marked as
    ordered, a sweep then opened a second request for the same medicine, and
    approving the first one made it open again. *)
Definition pharmacy_two_open : World :=
  (approveReorderRequest 1%nat 9%nat
     (checkAndCreateReorderRequests
        (markReorderRequestAsOrdered 1%nat
           (checkAndCreateReorderRequests pharmacy_low).2).2).2).2.


(** A pharmacy with [stock] units of the example medicine and one
    prescription [p]. *)
Definition pharmacy_rx (p : Prescription.t) (stock : Z) : World :=
  mkWorld {[ 1%nat := Medicine.set_quantity stock amoxicillin ]} {[ 7%nat := p ]}
    [] [] [] 1700000000000 [].

(** A pending prescription for three units of the example medicine. *)
Definition rx_three : Prescription.t :=
  Prescription.mk "RX-1" [PrescriptionItem.mk 1%nat "Amoxicillin" 3]
    RxPENDING None None None None None None.

(** A validated prescription for three units. *)
Definition rx_validated : Prescription.t :=
  Prescription.mk "RX-1" [PrescriptionItem.mk 1%nat "Amoxicillin" 3]
    RxVALIDATED (Some 9%nat) (Some 1690000000000) None None None None.


(** ** What every run of a computation respects *)

(** [evolves R c]: every run of [c], whatever it answers and whatever the
    driver does, takes a world to one that [R] relates to it. *)
Definition evolves {A} (R : relation World) (c : M A) : Prop := ∀ w, R w (c w).2.

(** A relation that steps compose along, and that neither a log entry nor the
    driver's schedule can break. *)
Class Lasting (R : relation World) : Prop := {
  lasting_refl w : R w w;
  lasting_trans w1 w2 w3 : R w1 w2 → R w2 w3 → R w1 w3;
  lasting_logs g w : R w (set_logs g w);
  lasting_faults fs w : R w (set_faults fs w)
}.

(** The part [f] of the world is as it was. *)
Definition kept {T} (f : World → T) : relation World := λ w w', f w' = f w.

(** A part of the world that is neither the log nor the driver's schedule. *)
Class Stored {T} (f : World → T) : Prop := {
  stored_logs g w : f (set_logs g w) = f w;
  stored_faults fs w : f (set_faults fs w) = f w
}.

(** The property [P] of the world, once it holds, still holds. *)
Definition invariant (P : World → Prop) : relation World := λ w w', P w → P w'.

(** The requests are kept, up to their stock snapshot, and others may have
    been appended. *)
Definition grown : relation World := λ w w',
  ∃ old created,
    reorderRequests w' = old ++ created
    ∧ Forall2 same_but_stock (reorderRequests w) old.

(** The medicines on record are the same, each as it was but for its
    quantity, and no quantity went from non-negative to negative. *)
Definition restocked : relation World := λ w w',
  ∀ mid, match medicines w !! mid, medicines w' !! mid with
         | Some m, Some m' =>
             ∃ q, m' = Medicine.set_quantity q m ∧ (0 ≤ Medicine.quantity m → 0 ≤ q)
         | None, None => True
         | _, _ => False
         end.

(** The identifiers of the reorder requests are pairwise different. *)
Definition unique_ids (w : World) : Prop := NoDup (ReorderRequest._id <$> reorderRequests w).

(** The requests are the same documents in the same order, each with the
    identifier and the medicine it had, and those whose identifier is not
    [id] exactly as they were. *)
Definition only_request (id : nat) : relation World := λ w w',
  Forall2 (λ r r', ReorderRequest._id r' = ReorderRequest._id r
                   ∧ ReorderRequest.medicineId r' = ReorderRequest.medicineId r
                   ∧ (ReorderRequest._id r ≠ id → r' = r))
    (reorderRequests w) (reorderRequests w').

(** The transactions on record are still there, followed by new ones that
    are all of type [DISPENSE]. *)
Definition dispensed_more : relation World := λ w w',
  ∃ new, transactions w' = transactions w ++ new
         ∧ Forall (λ t, Transaction.type t = DISPENSE) new.

(** The update of [approveReorderRequest]. *)
Definition approved_update (userId : nat) (now : Z) (r : ReorderRequest.t) : ReorderRequest.t :=
  ReorderRequest.mk (ReorderRequest._id r) (ReorderRequest.medicineId r)
    (ReorderRequest.medicineName r) (ReorderRequest.currentStock r)
    (ReorderRequest.reorderThreshold r) (ReorderRequest.requestedQuantity r)
    APPROVED (Some userId) (Some now) (ReorderRequest.orderedAt r)
    (ReorderRequest.receivedAt r).

(** The update of [markReorderRequestAsOrdered]. *)
Definition ordered_update (now : Z) (r : ReorderRequest.t) : ReorderRequest.t :=
  ReorderRequest.mk (ReorderRequest._id r) (ReorderRequest.medicineId r)
    (ReorderRequest.medicineName r) (ReorderRequest.currentStock r)
    (ReorderRequest.reorderThreshold r) (ReorderRequest.requestedQuantity r)
    ORDERED (ReorderRequest.approvedBy r) (ReorderRequest.approvedAt r) (Some now)
    (ReorderRequest.receivedAt r).





(** The update of [validatePrescription] when an item fails. *)
Definition rejected_update (user : nat) (now : Z) (errors : list string) (p : Prescription.t)
    : Prescription.t :=
  Prescription.mk (Prescription.prescriptionNumber p) (Prescription.items p)
    RxREJECTED (Some user) (Some now)
    (Prescription.dispensedBy p) (Prescription.dispensedAt p)
    (Some (join "; " errors)) (Prescription.notes p).





(** The example pharmacy after all of its three units were dispensed. *)
Definition pharmacy_sold_out : World :=
  (dispensePrescription (AnObjectId 7%nat) 9%nat (pharmacy_rx rx_validated 3)).2.

(** The example pharmacy with 3 units left, while its pending request still
    records the 5 there were. *)
Definition pharmacy_stale : World :=
  mkWorld {[ 1%nat := Medicine.set_quantity 3 amoxicillin ]} ∅ [pending_request] [] []
    1700000000000 [].

(** ** The reorder recommendations *)

(** The recommendation of one medicine, if the loop makes one, for a window
    that starts at [start]. *)
Definition recommend (priority : nat → Level.t) (w : World) (days : ParsedInt) (start : Z)
    (d : nat * Medicine.t) : option Recommendation.t :=
  let total := js_sum (Transaction.quantity <$> demand_window w d.1 start) in
  let avg := js_div total (js_number days) in
  let predicted := js_mul avg (js_of_Z 30) in
  let quantity := js_ceil (js_add predicted (js_of_Z (Medicine.reorderThreshold d.2))) in
  let stockout := if js_is_pos avg
                  then js_floor (js_div (js_of_Z (Medicine.quantity d.2)) avg)
                  else js_of_Z 999 in
  if js_is_pos quantity && (isLowStock d.2 || js_le stockout (js_of_Z 60))
  then Some (Recommendation.mk d.1 (Medicine.name d.2) (Medicine.quantity d.2)
               (Medicine.reorderThreshold d.2) avg predicted quantity stockout
               (urgency_of stockout) (priority d.1))
  else None.


(** ** Access control *)

(** The request of [user], signed in: its header carries a token that
    verifies under the server's secret as the identifier of [user], who is on
    record and active. *)
Definition signed_in (req : Session.t) (user : User.t) : Prop :=
  ∃ token secret,
    Session.authorization req = Some ("Bearer " +:+ token) ∧ token ≠ ""
    ∧ Session.JWT_SECRET req = Some secret ∧ secret ≠ ""
    ∧ Session.jwt_verify req token secret = Ret (User._id user)
    ∧ Session.users req !! User._id user = Some user
    ∧ User.isActive user = true.

(** The world in which [authorize] starts once [authenticate] has attached
    the user. *)
Definition authenticated (w : World) : World :=
  set_logs (λ ls, ls ++ [mkLog LvlInfo "authentication" "User authenticated successfully" None]) w.

(** A route turned away a request without a token: 401, and one line in
    the log. *)
Definition unauthenticated {A} (w : World) : Result (Reply.t + A) * World :=
  (Ret (inl (Reply.mk 401 false "Authentication required. Please provide a valid token.")),
   set_logs (λ ls, ls ++ [mkLog LvlInfo "authentication"
                            "Authentication failed: No token provided" None]) w).

(** A route turned the request away: 403, and one line in the log. *)
Definition denied {A} (w : World) : Result (Reply.t + A) * World :=
  (Ret (inl (Reply.mk 403 false "You do not have permission to access this resource.")),
   set_logs (λ ls, ls ++ [mkLog LvlInfo "authentication"
                            "Authorization failed: Insufficient permissions" None]) w).

(** The world in which the handler of a route starts once [authorize] has let
    the request through. *)
Definition let_through (w : World) : World :=
  set_logs (λ ls, ls ++ [mkLog LvlInfo "authentication" "Authorization successful" None]) w.

(** The request of the pharmacy's staff member, and that of its pharmacist;
    the library call is stood for by a table of two tokens. *)
Definition staff_member : User.t := User.mk 4%nat STAFF true.
Definition pharmacist : User.t := User.mk 9%nat PHARMACIST true.

Definition request_of (token : string) : Session.t :=
  Session.mk (Some ("Bearer " +:+ token)) (Some "secret")
    (λ token _, if bool_decide (token = "staff-token") then Ret 4%nat
                else if bool_decide (token = "pharmacist-token") then Ret 9%nat
                else Throw (mkError JsonWebTokenError "jwt malformed"))
    {[ 4%nat := staff_member; 9%nat := pharmacist ]}.

(** * Properties *)

(** ** Running a computation *)

Lemma run_bind {A B} (c : M A) (k : A → M B) w :
  (c ≫= k) w = match c w with
               | (Ret a, w') => k a w'
               | (Throw e, w') => (Throw e, w')
               end.
Proof. reflexivity. Qed.

Lemma db_call_ok {A} (op : World → Result A * World) w :
  faults w = [] → db_call op w = op w.
Proof. intros H. unfold db_call. by rewrite H. Qed.

(** Unfold the plumbing of a run: the monad, the driver and the setters. *)
Ltac unfold_run :=
  unfold ReorderRequest_findById, ReorderRequest_findOne_open, ReorderRequest_findByIdAndUpdate,
    ReorderRequest_create, Medicine_findById, Medicine_findByIdAndUpdate, Medicine_find_active,
    Prescription_findById, Prescription_findByIdAndUpdate, Transaction_create, Transaction_find_demand,
    logReordering, logPrescription, logAnalytics, logger_error, write_log, new_Date,
    try_catch, throw, db_call, mbind, M_bind, mret, M_ret.

Tactic Notation "unfold_run" "in" hyp(H) :=
  unfold ReorderRequest_findById, ReorderRequest_findOne_open, ReorderRequest_findByIdAndUpdate,
    ReorderRequest_create, Medicine_findById, Medicine_findByIdAndUpdate, Medicine_find_active,
    Prescription_findById, Prescription_findByIdAndUpdate, Transaction_create, Transaction_find_demand,
    logReordering, logPrescription, logAnalytics, logger_error, write_log, new_Date,
    try_catch, throw, db_call, mbind, M_bind, mret, M_ret in H.

Ltac unfold_world :=
  unfold set_logs, set_reorderRequests, set_medicines, set_prescriptions, set_transactions, set_faults;
  cbn [medicines prescriptions reorderRequests transactions logs clock faults].

(** ** The driver's schedule along a run *)

Lemma tracks_ret {A} (a : A) : tracks (mret a : M A).
Proof. intros w res w' [= <- <-]. left. by exists 0%nat. Qed.

Lemma tracks_throw {A} e : tracks (throw e : M A).
Proof. intros w res w' [= <- <-]. left. by exists 0%nat. Qed.

Lemma tracks_new_Date : tracks new_Date.
Proof. intros w res w' [= <- <-]. left. by exists 0%nat. Qed.

Lemma tracks_write_log l : tracks (write_log l).
Proof. intros w res w' [= <- <-]. left. by exists 0%nat. Qed.

Lemma tracks_db_call {A} (op : World → Result A * World) :
  (∀ w, faults (op w).2 = faults w) → tracks (db_call op).
Proof.
  intros Hop w res w'. unfold db_call.
  destruct (faults w) as [|[msg|] fs] eqn:Hf.
  - intros Hrun. left. exists 0%nat. rewrite <- Hf, <- (Hop w), Hrun. done.
  - intros [= <- <-]. right. exists 0%nat, msg. done.
  - intros Hrun. left. exists 1%nat. cbn.
    specialize (Hop (set_faults fs w)). rewrite Hrun in Hop. cbn in Hop. by rewrite Hop.
Qed.

Lemma tracks_bind {A B} (c : M A) (k : A → M B) :
  tracks c → (∀ a, tracks (k a)) → tracks (c ≫= k).
Proof.
  intros Hc Hk w res w'. rewrite run_bind.
  destruct (c w) as [[a|e] w1] eqn:Hrun.
  - intros Hrun2.
    destruct (Hc _ _ _ Hrun) as [[k1 H1] | (k1 & msg & H1 & [=])].
    destruct (Hk a _ _ _ Hrun2) as [[k2 H2] | (k2 & msg & H2 & ->)].
    + left. exists (k1 + k2)%nat. rewrite H1, H2, replicate_add. by rewrite <- app_assoc.
    + right. exists (k1 + k2)%nat, msg. rewrite H1, H2, replicate_add. by rewrite <- app_assoc.
  - intros [= <- <-].
    destruct (Hc _ _ _ Hrun) as [H1 | (k1 & msg & H1 & [= ->])]; [by left|].
    right. by exists k1, msg.
Qed.

(** [catch (error) { logger.error(..); throw error; }] *)
Lemma tracks_rethrow {A} (body : M A) wf text :
  tracks body → tracks (try_catch body (λ e, _ ← logger_error wf text e; throw e)).
Proof.
  intros Hb w res w'. unfold try_catch.
  destruct (body w) as [[a|e] w1] eqn:Hrun.
  - intros [= <- <-]. exact (Hb _ _ _ Hrun).
  - intros [= <- <-]. exact (Hb _ _ _ Hrun).
Qed.

Lemma tracks_refused {A} (c : M A) w res w' msg :
  tracks c → c w = (res, w') → refused_within w w' msg →
  res = Throw (mkError DriverError msg).
Proof.
  intros Hc Hrun [k Hk].
  destruct (Hc _ _ _ Hrun) as [[k1 H1] | (k1 & msg1 & H1 & ->)].
  - exfalso. rewrite H1 in Hk.
    assert (k1 = S k) as ->.
    { apply (f_equal length) in Hk. rewrite !length_app, !length_replicate in Hk. cbn in Hk. lia. }
    replace (replicate (S k) None) with (replicate k (@None string) ++ [None]) in Hk.
    2:{ clear. induction k; cbn; [done|]. by rewrite IHk. }
    rewrite <- app_assoc in Hk. apply app_inv_head in Hk. discriminate.
  - rewrite H1 in Hk.
    assert (k1 = k) as ->.
    { apply (f_equal length) in Hk. rewrite !length_app, !length_replicate in Hk. cbn in Hk. lia. }
    apply app_inv_head in Hk. by injection Hk as ->.
Qed.

Lemma rethrow_logged {A} (body : M A) wf text w e w' :
  try_catch body (λ e, _ ← logger_error wf text e; throw e) w = (Throw e, w') →
  last (logs w') = Some (mkLog LvlError wf text (Some (message e))).
Proof.
  unfold try_catch. destruct (body w) as [[a|e1] w1]; [done|].
  intros [= <- <-]. cbn. by rewrite last_snoc.
Qed.

Lemma tracks_ReorderRequest_create mid nm cs thr rq st :
  tracks (ReorderRequest_create mid nm cs thr rq st).
Proof.
  apply tracks_db_call. intros w. cbn.
  by destruct (ReorderRequest_validate _).
Qed.

Lemma tracks_Transaction_create draft : tracks (Transaction_create draft).
Proof.
  apply tracks_db_call. intros w. cbn.
  by destruct (Transaction_validate _).
Qed.

Ltac tracks_step :=
  lazymatch goal with
  | |- tracks (mbind _ _) => apply tracks_bind; [|intros ?]
  | |- tracks (mret _) => apply tracks_ret
  | |- tracks (throw _) => apply tracks_throw
  | |- tracks new_Date => apply tracks_new_Date
  | |- tracks (write_log _) => apply tracks_write_log
  | |- tracks (logReordering _) => apply tracks_write_log
  | |- tracks (logPrescription _) => apply tracks_write_log
  | |- tracks (logAnalytics _) => apply tracks_write_log
  | |- tracks (logger_error _ _ _) => apply tracks_write_log
  | |- tracks (ReorderRequest_create _ _ _ _ _ _) => apply tracks_ReorderRequest_create
  | |- tracks (Transaction_create _) => apply tracks_Transaction_create
  | |- tracks (db_call _) => apply tracks_db_call; intros ?; reflexivity
  | |- tracks (try_catch _ (λ e, _ ← logger_error _ _ e; throw e)) => apply tracks_rethrow
  | |- tracks (match ?x with _ => _ end) => destruct x
  | |- tracks (if ?b then _ else _) => destruct b
  end.

Ltac tracks_auto := repeat tracks_step.

Lemma tracks_reorder_loop meds c u : tracks (reorder_loop meds c u).
Proof.
  revert c u. induction meds as [|[mid m] rest IH]; intros c u; cbn [reorder_loop].
  - tracks_auto.
  - unfold ReorderRequest_findOne_open, ReorderRequest_findByIdAndUpdate.
    tracks_auto; apply IH.
Qed.

Lemma tracks_reorder_check : tracks reorder_check.
Proof.
  unfold reorder_check, Medicine_find_active. tracks_auto. apply tracks_reorder_loop.
Qed.

(** The sweep never throws: whatever its body raised is logged and dropped. *)
Lemma sweep_returns w : (checkAndCreateReorderRequests w).1 = Ret tt.
Proof.
  unfold checkAndCreateReorderRequests, try_catch.
  by destruct (reorder_check w) as [[[]|e] w1].
Qed.

Lemma sweep_logs_refusal w msg :
  refused_within w (checkAndCreateReorderRequests w).2 msg →
  last (logs (checkAndCreateReorderRequests w).2)
  = Some (mkLog LvlError "reordering" "Error in automated reorder check:" (Some msg)).
Proof.
  unfold checkAndCreateReorderRequests, try_catch.
  destruct (reorder_check w) as [[[]|e] w1] eqn:Hrun; cbn; intros Href.
  - by pose proof (tracks_refused _ _ _ _ _ tracks_reorder_check Hrun Href).
  - assert (refused_within w w1 msg) as Href' by exact Href.
    pose proof (tracks_refused _ _ _ _ _ tracks_reorder_check Hrun Href') as [= ->].
    cbn. by rewrite last_snoc.
Qed.


Lemma received_run w id rq r m :
  faults w = [] →
  find_by_id id (reorderRequests w) = Some r →
  medicines w !! ReorderRequest.medicineId r = Some m →
  ∃ ls,
    markReorderRequestAsReceived id rq w =
    (Ret tt,
     mkWorld (alter (λ m, Medicine.set_quantity (Medicine.quantity m + quantityToAdd rq r) m)
                (ReorderRequest.medicineId r) (medicines w))
       (prescriptions w)
       (update_by_id id (received_update (quantityToAdd rq r) (clock w)) (reorderRequests w))
       (transactions w) (logs w ++ ls) (clock w) []).
Proof.
  intros Hf Hr Hm.
  destruct w as [meds rxs reqs txs lg ck fs].
  cbn [faults reorderRequests medicines] in *; subst fs.
  unfold markReorderRequestAsReceived. unfold_run.
  cbn -[find_by_id]. rewrite Hr. cbn -[find_by_id]. rewrite Hm. cbn -[find_by_id].
  unfold_world. eexists. rewrite <- !app_assoc. reflexivity.
Qed.

Lemma received_missing w id rq :
  faults w = [] → find_by_id id (reorderRequests w) = None →
  (markReorderRequestAsReceived id rq w).1 = Throw not_found
  ∧ medicines (markReorderRequestAsReceived id rq w).2 = medicines w
  ∧ reorderRequests (markReorderRequestAsReceived id rq w).2 = reorderRequests w.
Proof.
  intros Hf Hr. destruct w as [meds rxs reqs txs lg ck fs].
  cbn [faults reorderRequests medicines] in *; subst fs.
  unfold markReorderRequestAsReceived. unfold_run.
  cbn -[find_by_id]. rewrite Hr. cbn. done.
Qed.

Lemma update_by_id_missing id f l : find_by_id id l = None → update_by_id id f l = l.
Proof.
  unfold find_by_id. induction l as [|x l IH]; cbn; [done|].
  destruct (bool_decide (ReorderRequest._id x = id)); [done|]. intros H. by rewrite IH.
Qed.

Lemma approve_missing w id u :
  faults w = [] → find_by_id id (reorderRequests w) = None →
  (approveReorderRequest id u w).1 = Throw not_found
  ∧ reorderRequests (approveReorderRequest id u w).2 = reorderRequests w.
Proof.
  intros Hf Hr. destruct w as [meds rxs reqs txs lg ck fs].
  cbn [faults reorderRequests medicines] in *; subst fs.
  unfold approveReorderRequest. unfold_run.
  cbn -[find_by_id update_by_id]. rewrite Hr. cbn -[update_by_id].
  by rewrite update_by_id_missing.
Qed.

Lemma ordered_missing w id :
  faults w = [] → find_by_id id (reorderRequests w) = None →
  (markReorderRequestAsOrdered id w).1 = Throw not_found
  ∧ reorderRequests (markReorderRequestAsOrdered id w).2 = reorderRequests w.
Proof.
  intros Hf Hr. destruct w as [meds rxs reqs txs lg ck fs].
  cbn [faults reorderRequests medicines] in *; subst fs.
  unfold markReorderRequestAsOrdered. unfold_run.
  cbn -[find_by_id update_by_id]. rewrite Hr. cbn -[update_by_id].
  by rewrite update_by_id_missing.
Qed.

(** What a caller of a rethrowing service sees of a refused call. *)
Lemma rethrown_and_logged {A} (body : M A) wf text w msg :
  tracks body →
  let run := try_catch body (λ e, _ ← logger_error wf text e; throw e) w in
  refused_within w run.2 msg →
  run.1 = Throw (mkError DriverError msg)
  ∧ last (logs run.2) = Some (mkLog LvlError wf text (Some msg)).
Proof.
  intros Hb run Href.
  destruct run as [res w'] eqn:Hrun. cbn in *.
  pose proof (tracks_refused _ _ _ _ _ (tracks_rethrow _ wf text Hb) Hrun Href) as ->.
  split; [done|]. by rewrite (rethrow_logged _ _ _ _ _ _ Hrun).
Qed.

(** ** Errors of the reorder service *)

(** C7 (as amended).  In the reorder service, a database call that the driver
    refuses inside approve, order, receive or the pending-list query is logged
    at error level and thrown again to the caller; approve, order and receive
    on a missing request throw a plain [Error] saying the request was not
    found; the sweep logs the refusal and returns normally. *)
Theorem reorder_errors_logged :
  (∀ id u w msg,
     refused_within w (approveReorderRequest id u w).2 msg →
     (approveReorderRequest id u w).1 = Throw (mkError DriverError msg)
     ∧ last (logs (approveReorderRequest id u w).2)
       = Some (mkLog LvlError "reordering" "Error approving reorder request:" (Some msg)))
  ∧ (∀ id w msg,
     refused_within w (markReorderRequestAsOrdered id w).2 msg →
     (markReorderRequestAsOrdered id w).1 = Throw (mkError DriverError msg)
     ∧ last (logs (markReorderRequestAsOrdered id w).2)
       = Some (mkLog LvlError "reordering" "Error marking reorder request as ordered:" (Some msg)))
  ∧ (∀ id rq w msg,
     refused_within w (markReorderRequestAsReceived id rq w).2 msg →
     (markReorderRequestAsReceived id rq w).1 = Throw (mkError DriverError msg)
     ∧ last (logs (markReorderRequestAsReceived id rq w).2)
       = Some (mkLog LvlError "reordering" "Error marking reorder request as received:" (Some msg)))
  ∧ (∀ w msg,
     refused_within w (getPendingReorderRequests w).2 msg →
     (getPendingReorderRequests w).1 = Throw (mkError DriverError msg)
     ∧ last (logs (getPendingReorderRequests w).2)
       = Some (mkLog LvlError "reordering" "Error fetching pending reorder requests:" (Some msg)))
  ∧ (∀ id u rq w,
     faults w = [] → find_by_id id (reorderRequests w) = None →
     (approveReorderRequest id u w).1 = Throw (mkError GenericError "Reorder request not found")
     ∧ (markReorderRequestAsOrdered id w).1 = Throw (mkError GenericError "Reorder request not found")
     ∧ (markReorderRequestAsReceived id rq w).1 = Throw (mkError GenericError "Reorder request not found"))
  ∧ (∀ w, (checkAndCreateReorderRequests w).1 = Ret tt)
  ∧ (∀ w msg,
     refused_within w (checkAndCreateReorderRequests w).2 msg →
     last (logs (checkAndCreateReorderRequests w).2)
     = Some (mkLog LvlError "reordering" "Error in automated reorder check:" (Some msg))).
Proof.
  repeat split.
  - eapply (rethrown_and_logged _ "reordering" "Error approving reorder request:"); [|done].
    unfold ReorderRequest_findByIdAndUpdate. tracks_auto.
  - eapply (rethrown_and_logged _ "reordering" "Error approving reorder request:"); [|done].
    unfold ReorderRequest_findByIdAndUpdate. tracks_auto.
  - eapply (rethrown_and_logged _ "reordering" "Error marking reorder request as ordered:"); [|done].
    unfold ReorderRequest_findByIdAndUpdate. tracks_auto.
  - eapply (rethrown_and_logged _ "reordering" "Error marking reorder request as ordered:"); [|done].
    unfold ReorderRequest_findByIdAndUpdate. tracks_auto.
  - eapply (rethrown_and_logged _ "reordering" "Error marking reorder request as received:"); [|done].
    unfold ReorderRequest_findByIdAndUpdate, ReorderRequest_findById, Medicine_findById,
      Medicine_findByIdAndUpdate. tracks_auto.
  - eapply (rethrown_and_logged _ "reordering" "Error marking reorder request as received:"); [|done].
    unfold ReorderRequest_findByIdAndUpdate, ReorderRequest_findById, Medicine_findById,
      Medicine_findByIdAndUpdate. tracks_auto.
  - eapply (rethrown_and_logged _ "reordering" "Error fetching pending reorder requests:"); [|done].
    tracks_auto.
  - eapply (rethrown_and_logged _ "reordering" "Error fetching pending reorder requests:"); [|done].
    tracks_auto.
  - by apply approve_missing.
  - by apply ordered_missing.
  - by apply received_missing.
  - apply sweep_returns.
  - apply sweep_logs_refusal.
Qed.

(** With the database offline, approving throws the driver's error after
    logging it, and the sweep returns normally after logging it. *)
Lemma reorder_errors_logged_witness :
  (approveReorderRequest 1%nat 9%nat pharmacy_offline).1
    = Throw (mkError DriverError "connection lost")
  ∧ last (logs (checkAndCreateReorderRequests pharmacy_offline).2)
    = Some (mkLog LvlError "reordering" "Error in automated reorder check:" (Some "connection lost")).
Proof.
  destruct reorder_errors_logged as (Happrove & _ & _ & _ & _ & _ & Hsweep).
  split.
  - apply (Happrove 1%nat 9%nat pharmacy_offline "connection lost").
    exists 0%nat. reflexivity.
  - apply (Hsweep pharmacy_offline "connection lost").
    exists 0%nat. reflexivity.
Defined.

(** C7 as stated fails for the sweep: its first database call is refused, yet
    the sweep returns normally instead of throwing to its caller. *)
Lemma sweep_swallows_database_error :
  refused_within pharmacy_offline (checkAndCreateReorderRequests pharmacy_offline).2 "connection lost"
  ∧ (checkAndCreateReorderRequests pharmacy_offline).1 = Ret tt
  ∧ (checkAndCreateReorderRequests pharmacy_offline).1 ≠ Throw (mkError DriverError "connection lost").
Proof.
  split; [by exists 0%nat|]. split; [reflexivity|]. discriminate.
Qed.







(** ** The reorder sweep on a working database *)

Lemma medicine_ok_create w mid m :
  faults w = [] → medicine_ok m = true →
  ReorderRequest_create mid (Medicine.name m) (Medicine.quantity m) (Medicine.reorderThreshold m)
    (Z.max (Medicine.reorderThreshold m * 3) 50) PENDING w
  = (Ret (new_request (fresh_id (reorderRequests w)) mid m),
     set_reorderRequests (λ l, l ++ [new_request (fresh_id (reorderRequests w)) mid m]) w).
Proof.
  intros Hf Hok. unfold ReorderRequest_create. rewrite db_call_ok by done.
  unfold medicine_ok in Hok. rewrite !andb_true_iff, negb_true_iff in Hok.
  destruct Hok as [[[Hn Hq] Ht] _].
  apply Z.leb_le in Hq, Ht.
  unfold ReorderRequest_validate. cbn [ReorderRequest.medicineName ReorderRequest.currentStock
    ReorderRequest.reorderThreshold ReorderRequest.requestedQuantity].
  rewrite Hn.
  destruct (Z.ltb_spec (Medicine.quantity m) 0); [lia|].
  destruct (Z.ltb_spec (Medicine.reorderThreshold m) 0); [lia|].
  destruct (Z.ltb_spec (Z.max (Medicine.reorderThreshold m * 3) 50) 1); [lia|].
  reflexivity.
Qed.

Lemma reorder_loop_run meds : ∀ c u w,
  faults w = [] → Forall (λ d, medicine_ok d.2 = true) meds →
  ∃ cu ls,
    reorder_loop meds c u w
    = (Ret cu, mkWorld (medicines w) (prescriptions w)
                 (foldl sweep_step (reorderRequests w) meds)
                 (transactions w) (logs w ++ ls) (clock w) []).
Proof.
  induction meds as [|[mid m] rest IH]; intros c u w Hf Hok.
  - exists (c, u), []. destruct w; cbn in *. subst. by rewrite app_nil_r.
  - apply Forall_cons in Hok as [Hm Hrest]. cbn [snd] in Hm.
    cbn [reorder_loop foldl]. unfold sweep_step at 2. cbn [fst snd].
    destruct (Medicine.quantity m <=? Medicine.reorderThreshold m); [|by apply IH].
    rewrite run_bind. unfold ReorderRequest_findOne_open. rewrite db_call_ok by done.
    destruct (List.find (open_for mid) (reorderRequests w)) as [ex|].
    + destruct (negb (ReorderRequest.currentStock ex =? Medicine.quantity m)); [|by apply IH].
      rewrite run_bind. unfold ReorderRequest_findByIdAndUpdate. rewrite db_call_ok by done.
      rewrite run_bind. unfold logReordering at 1, write_log.
      edestruct (IH c (S u)) as (cu & ls & ->); [| exact Hrest |]; [done|].
      eexists cu, (_ :: ls). unfold_world. by rewrite <- app_assoc.
    + rewrite run_bind, medicine_ok_create by done.
      rewrite run_bind. unfold logReordering at 1, write_log.
      edestruct (IH (S c) u) as (cu & ls & ->); [| exact Hrest |]; [done|].
      eexists cu, (_ :: ls). unfold_world. by rewrite <- app_assoc.
Qed.

Lemma schema_valid_lookup w mid m :
  schema_valid w = true → medicines w !! mid = Some m → medicine_ok m = true.
Proof.
  unfold schema_valid. rewrite forallb_forall. intros H Hm.
  apply (H (mid, m)). apply list_elem_of_In. by apply elem_of_map_to_list.
Qed.

Lemma sweep_run w :
  faults w = [] → schema_valid w = true →
  ∃ ls,
    checkAndCreateReorderRequests w
    = (Ret tt, mkWorld (medicines w) (prescriptions w)
                 (foldl sweep_step (reorderRequests w) (active_medicines w))
                 (transactions w) (logs w ++ ls) (clock w) []).
Proof.
  intros Hf Hok.
  unfold checkAndCreateReorderRequests, try_catch, reorder_check.
  rewrite run_bind. unfold logReordering at 1, write_log.
  rewrite run_bind. unfold Medicine_find_active. rewrite db_call_ok by done.
  cbn [medicines set_logs]. fold (active_medicines w).
  rewrite run_bind.
  edestruct (reorder_loop_run (active_medicines w) 0%nat 0%nat) as (cu & ls & ->).
  { done. }
  { apply Forall_forall. intros [mid m] Hin. cbn.
    apply list_elem_of_filter in Hin as [_ Hin].
    apply elem_of_map_to_list in Hin. unfold_world. by eapply schema_valid_lookup. }
  unfold logReordering, write_log. unfold_world.
  eexists. by rewrite <- !app_assoc.
Qed.

Section sweep_fold.
Implicit Types (reqs old created : list ReorderRequest.t) (r : ReorderRequest.t).

Lemma same_but_stock_refl r : same_but_stock r r.
Proof. reflexivity. Qed.

Lemma same_but_stock_refresh q r : same_but_stock r (refresh q r).
Proof. reflexivity. Qed.

Lemma same_but_stock_open mid r r' :
  same_but_stock r r' → open_for mid r = open_for mid r'.
Proof.
  unfold same_but_stock, refresh, open_for, is_open. intros [= Hid Hmid Hn Ht Hq Hs _ _ _ _].
  by rewrite Hmid, Hs.
Qed.

Lemma Forall2_same_refl reqs : Forall2 same_but_stock reqs reqs.
Proof. induction reqs; constructor; [apply same_but_stock_refl | done]. Qed.

Lemma Forall2_same_trans reqs1 reqs2 reqs3 :
  Forall2 same_but_stock reqs1 reqs2 → Forall2 same_but_stock reqs2 reqs3 →
  Forall2 same_but_stock reqs1 reqs3.
Proof.
  intros H. revert reqs3. induction H as [|a b l k Hab _ IH]; intros reqs3 H3.
  - by inversion H3.
  - inversion H3 as [|b' c k' l3 Hbc Hk]; subst. constructor; [|by apply IH].
    unfold same_but_stock in *. congruence.
Qed.

Lemma Forall2_same_update id q reqs :
  Forall2 same_but_stock reqs (update_by_id id (refresh q) reqs).
Proof.
  induction reqs as [|r reqs IH]; cbn; [constructor|].
  destruct (bool_decide (ReorderRequest._id r = id)).
  - constructor; [apply same_but_stock_refresh | apply Forall2_same_refl].
  - constructor; [apply same_but_stock_refl | done].
Qed.

Lemma Forall2_same_existsb mid reqs reqs' :
  Forall2 same_but_stock reqs reqs' →
  existsb (open_for mid) reqs = existsb (open_for mid) reqs'.
Proof.
  induction 1 as [|r r' l l' Hr _ IH]; cbn; [done|].
  by rewrite (same_but_stock_open mid r r' Hr), IH.
Qed.


Lemma find_existsb {A} (f : A → bool) (l : list A) :
  existsb f l = bool_decide (is_Some (List.find f l)).
Proof.
  induction l as [|x l IH]; cbn [existsb List.find]; [done|].
  destruct (f x); [|done]. cbn [orb]. symmetry. apply bool_decide_eq_true_2. eauto.
Qed.

Lemma find_app_l {A} (f : A → bool) (l k : list A) :
  existsb f k = false → List.find f (l ++ k) = List.find f l.
Proof.
  intros Hk. induction l as [|x l IH]; cbn.
  - rewrite find_existsb in Hk. apply bool_decide_eq_false in Hk.
    destruct (List.find f k); [|done]. exfalso. eauto.
  - by destruct (f x).
Qed.

Lemma update_by_id_app id (f : ReorderRequest.t → ReorderRequest.t) reqs created r :
  r ∈ reqs → ReorderRequest._id r = id →
  update_by_id id f (reqs ++ created) = update_by_id id f reqs ++ created.
Proof.
  intros Hin Hid. induction reqs as [|x reqs IH]; [by apply elem_of_nil in Hin|].
  cbn. destruct (bool_decide (ReorderRequest._id x = id)) eqn:Hx; [done|].
  apply elem_of_cons in Hin as [->|Hin].
  - apply bool_decide_eq_false in Hx. done.
  - by rewrite IH.
Qed.

Lemma not_open_for_other mid created :
  (∀ r, r ∈ created → ReorderRequest.medicineId r ≠ mid) →
  existsb (open_for mid) created = false.
Proof.
  intros H. induction created as [|r created IH]; cbn; [done|].
  rewrite IH by (intros; apply H; by right).
  unfold open_for. rewrite bool_decide_eq_false_2; [done|]. apply H. by left.
Qed.

(** The sweep over [meds], started on a collection whose tail [created]
    belongs to other medicines: the head keeps its shape, the tail is left
    alone, and one request is appended for each medicine that needs one. *)
Lemma sweep_fold_split (meds : list (nat * Medicine.t)) : ∀ reqs created,
  NoDup meds.*1 →
  (∀ r, r ∈ created → ReorderRequest.medicineId r ∉ meds.*1) →
  ∃ old new,
    foldl sweep_step (reqs ++ created) meds = old ++ created ++ new
    ∧ Forall2 same_but_stock reqs old
    ∧ Forall2 (λ d r, r = new_request (ReorderRequest._id r) d.1 d.2)
        (List.filter (needs_request reqs) meds) new.
Proof.
  induction meds as [|[mid m] meds IH]; intros reqs created Hnd Hcr.
  - exists reqs, []. cbn. rewrite app_nil_r. split; [done|]. split; [apply Forall2_same_refl|constructor].
  - cbn [fmap list_fmap fst] in Hnd, Hcr. apply NoDup_cons in Hnd as [Hmid Hnd].
    assert (∀ r, r ∈ created → ReorderRequest.medicineId r ∉ meds.*1) as Hcr'.
    { intros r Hr Hin. apply (Hcr r Hr). by right. }
    assert (existsb (open_for mid) created = false) as Hnone.
    { apply not_open_for_other. intros r Hr Heq. apply (Hcr r Hr). rewrite Heq. by left. }
    cbn [foldl List.filter]. unfold sweep_step at 2, needs_request at 1. cbn [fst snd].
    destruct (Medicine.quantity m <=? Medicine.reorderThreshold m); [|by apply IH].
    rewrite find_app_l by done. rewrite (find_existsb _ reqs).
    destruct (List.find (open_for mid) reqs) as [ex|] eqn:Hfind.
    + rewrite bool_decide_eq_true_2 by eauto. cbn [negb andb].
      destruct (negb (ReorderRequest.currentStock ex =? Medicine.quantity m)); [|by apply IH].
      apply find_some in Hfind as [Hin _]. apply list_elem_of_In in Hin.
      rewrite (update_by_id_app _ _ _ _ ex) by done.
      destruct (IH (update_by_id (ReorderRequest._id ex) (refresh (Medicine.quantity m)) reqs)
                  created Hnd Hcr') as (old & new & -> & Hold & Hnew).
      exists old, new. split; [done|]. split.
      * eapply Forall2_same_trans; [apply Forall2_same_update | done].
      * erewrite filter_ext; [exact Hnew|].
        intros d. unfold needs_request. f_equal. f_equal.
        apply Forall2_same_existsb, Forall2_same_update.
    + rewrite bool_decide_eq_false_2 by (intros [? [=]]). cbn [negb andb].
      set (nr := new_request (fresh_id (reqs ++ created)) mid m).
      rewrite <- app_assoc.
      destruct (IH reqs (created ++ [nr]) Hnd) as (old & new & -> & Hold & Hnew).
      { intros r [Hr | ->%list_elem_of_singleton]%elem_of_app; [by apply Hcr'|done]. }
      exists old, (nr :: new). rewrite <- app_assoc. split; [done|]. split; [done|].
      by constructor.
Qed.

Lemma sweep_fold_spec (meds : list (nat * Medicine.t)) reqs :
  NoDup meds.*1 →
  ∃ old new,
    foldl sweep_step reqs meds = old ++ new
    ∧ Forall2 same_but_stock reqs old
    ∧ Forall2 (λ d r, r = new_request (ReorderRequest._id r) d.1 d.2)
        (List.filter (needs_request reqs) meds) new.
Proof.
  intros Hnd.
  destruct (sweep_fold_split meds reqs [] Hnd) as (old & new & H & Hold & Hnew).
  { intros r Hr. by apply elem_of_nil in Hr. }
  rewrite app_nil_r in H. by exists old, new.
Qed.
End sweep_fold.

Lemma Forall2_elem_of_l {A B} (P : A → B → Prop) l k x :
  Forall2 P l k → x ∈ l → ∃ y, y ∈ k ∧ P x y.
Proof.
  induction 1 as [|a b l k Hab _ IH]; intros Hin; [by apply elem_of_nil in Hin|].
  apply elem_of_cons in Hin as [->|Hin].
  - exists b. split; [by left|done].
  - destruct (IH Hin) as (y & Hy & HP). exists y. split; [by right|done].
Qed.

Lemma Forall2_elem_of_r {A B} (P : A → B → Prop) l k y :
  Forall2 P l k → y ∈ k → ∃ x, x ∈ l ∧ P x y.
Proof.
  induction 1 as [|a b l k Hab _ IH]; intros Hin; [by apply elem_of_nil in Hin|].
  apply elem_of_cons in Hin as [->|Hin].
  - exists a. split; [by left|done].
  - destruct (IH Hin) as (x & Hx & HP). exists x. split; [by right|done].
Qed.

Lemma elem_of_List_filter {A} (f : A → bool) l x :
  x ∈ List.filter f l ↔ x ∈ l ∧ f x = true.
Proof. rewrite !list_elem_of_In. apply filter_In. Qed.

Lemma NoDup_fst_List_filter {K A} (f : K * A → bool) (l : list (K * A)) :
  NoDup l.*1 → NoDup (List.filter f l).*1.
Proof.
  induction l as [|x l IH]; cbn; [done|].
  intros [Hx Hl]%NoDup_cons. destruct (f x); cbn; [|by apply IH].
  apply NoDup_cons. split; [|by apply IH].
  intros Hin. apply Hx.
  apply list_elem_of_fmap in Hin as (y & -> & Hy).
  apply elem_of_List_filter in Hy as [Hy _].
  apply list_elem_of_fmap. by exists y.
Qed.

Lemma NoDup_active_medicines w : NoDup (active_medicines w).*1.
Proof.
  unfold active_medicines.
  apply (sublist_NoDup _ (map_to_list (medicines w)).*1); [apply NoDup_fst_map_to_list|].
  apply fmap_sublist, sublist_filter.
Qed.

Lemma elem_of_active_medicines w mid m :
  (mid, m) ∈ active_medicines w ↔ medicines w !! mid = Some m ∧ Medicine.isActive m = true.
Proof.
  unfold active_medicines. rewrite list_elem_of_filter, elem_of_map_to_list. cbn. tauto.
Qed.

(** The requests a sweep appends, in terms of the medicines on record. *)
Lemma sweep_created w :
  faults w = [] → schema_valid w = true →
  ∃ old created,
    reorderRequests (checkAndCreateReorderRequests w).2 = old ++ created
    ∧ medicines (checkAndCreateReorderRequests w).2 = medicines w
    ∧ faults (checkAndCreateReorderRequests w).2 = []
    ∧ Forall2 same_but_stock (reorderRequests w) old
    ∧ NoDup (ReorderRequest.medicineId <$> created)
    ∧ (∀ mid m, medicines w !! mid = Some m →
         Medicine.isActive m && needs_request (reorderRequests w) (mid, m) = true →
         ∃ r, r ∈ created ∧ r = new_request (ReorderRequest._id r) mid m)
    ∧ (∀ r, r ∈ created →
         ∃ m, medicines w !! ReorderRequest.medicineId r = Some m
              ∧ Medicine.isActive m && needs_request (reorderRequests w) (ReorderRequest.medicineId r, m) = true
              ∧ r = new_request (ReorderRequest._id r) (ReorderRequest.medicineId r) m).
Proof.
  intros Hf Hok.
  destruct (sweep_run w Hf Hok) as [ls ->]. cbn [snd reorderRequests medicines faults].
  destruct (sweep_fold_spec (active_medicines w) (reorderRequests w) (NoDup_active_medicines w))
    as (old & created & -> & Hold & Hnew).
  exists old, created. do 4 (split; [done|]).
  split; [|split].
  - replace (ReorderRequest.medicineId <$> created)
      with ((List.filter (needs_request (reorderRequests w)) (active_medicines w)).*1).
    { apply NoDup_fst_List_filter, NoDup_active_medicines. }
    clear -Hnew. induction Hnew as [|d r l k Hdr _ IH]; cbn; [done|].
    rewrite IH. f_equal. by rewrite Hdr.
  - intros mid m Hm [Hact Hneed]%andb_true_iff.
    destruct (Forall2_elem_of_l _ _ _ (mid, m) Hnew) as (r & Hr & Hnr).
    { apply elem_of_List_filter. split; [|done]. by apply elem_of_active_medicines. }
    by exists r.
  - intros r Hr.
    destruct (Forall2_elem_of_r _ _ _ r Hnew Hr) as ([mid m] & Hd & Hnr).
    apply elem_of_List_filter in Hd as [Hd Hneed].
    apply elem_of_active_medicines in Hd as [Hm Hact].
    cbn [fst snd] in Hnr.
    assert (ReorderRequest.medicineId r = mid) as -> by (by rewrite Hnr).
    exists m. by rewrite Hact, Hneed.
Qed.






Lemma open_for_medicineId mid r : open_for mid r = true → ReorderRequest.medicineId r = mid.
Proof. unfold open_for. intros [H _]%andb_true_iff. by apply bool_decide_eq_true in H. Qed.




(** ** The second sweep, when identifiers are unique *)

Section sweep_settled.
Implicit Types (reqs : list ReorderRequest.t) (r : ReorderRequest.t) (d : nat * Medicine.t).

Lemma find_app_none {A} (f : A → bool) (l k : list A) :
  List.find f l = None → List.find f (l ++ k) = List.find f k.
Proof. induction l as [|x l IH]; cbn; [done|]. by destruct (f x). Qed.

Lemma find_app_some {A} (f : A → bool) (l k : list A) x :
  List.find f l = Some x → List.find f (l ++ k) = Some x.
Proof. induction l as [|y l IH]; cbn; [done|]. by destruct (f y). Qed.

Lemma fresh_id_above reqs r : r ∈ reqs → (ReorderRequest._id r < fresh_id reqs)%nat.
Proof.
  unfold fresh_id. induction reqs as [|x reqs IH]; intros Hin; [by apply elem_of_nil in Hin|].
  cbn. apply elem_of_cons in Hin as [->|Hin]; [lia|]. specialize (IH Hin). lia.
Qed.

Lemma update_by_id_ids id q reqs :
  ReorderRequest._id <$> update_by_id id (refresh q) reqs = ReorderRequest._id <$> reqs.
Proof.
  induction reqs as [|x reqs IH]; cbn; [done|].
  destruct (bool_decide (ReorderRequest._id x = id)); cbn; [done|]. by rewrite IH.
Qed.

Lemma sweep_step_ids reqs d :
  NoDup (ReorderRequest._id <$> reqs) → NoDup (ReorderRequest._id <$> sweep_step reqs d).
Proof.
  intros Hnd. unfold sweep_step.
  destruct (Medicine.quantity d.2 <=? Medicine.reorderThreshold d.2); [|done].
  destruct (List.find (open_for d.1) reqs) as [ex|].
  - destruct (negb _); [|done]. by rewrite update_by_id_ids.
  - rewrite fmap_app. cbn. apply NoDup_app. split; [done|]. split; [|apply NoDup_singleton].
    intros id Hin ->%list_elem_of_singleton.
    apply list_elem_of_fmap in Hin as (r & Hid & Hr).
    pose proof (fresh_id_above reqs r Hr). lia.
Qed.

(** Refreshing a request of another medicine does not change which request
    is found for [mid]. *)
Lemma find_open_update mid q reqs ex :
  NoDup (ReorderRequest._id <$> reqs) → ex ∈ reqs → ReorderRequest.medicineId ex ≠ mid →
  List.find (open_for mid) (update_by_id (ReorderRequest._id ex) (refresh q) reqs)
  = List.find (open_for mid) reqs.
Proof.
  intros Hnd Hin Hne. induction reqs as [|x reqs IH]; [done|].
  cbn in Hnd. apply NoDup_cons in Hnd as [Hx Hnd]. cbn.
  destruct (bool_decide (ReorderRequest._id x = ReorderRequest._id ex)) eqn:Hid.
  - apply bool_decide_eq_true in Hid.
    assert (x = ex) as ->.
    { apply elem_of_cons in Hin as [->|Hin]; [done|]. exfalso. apply Hx.
      rewrite Hid. apply list_elem_of_fmap. by exists ex. }
    cbn. unfold open_for at 1 3. cbn. by rewrite !bool_decide_eq_false_2.
  - cbn. destruct (open_for mid x); [done|].
    apply IH; [done|]. apply elem_of_cons in Hin as [->|Hin]; [|done].
    apply bool_decide_eq_false in Hid. done.
Qed.

(** Refreshing the request found for [mid] leaves it the one found. *)
Lemma find_open_refresh mid q reqs ex :
  NoDup (ReorderRequest._id <$> reqs) → List.find (open_for mid) reqs = Some ex →
  List.find (open_for mid) (update_by_id (ReorderRequest._id ex) (refresh q) reqs)
  = Some (refresh q ex).
Proof.
  intros Hnd Hfind. induction reqs as [|x reqs IH]; [done|].
  cbn in Hnd. apply NoDup_cons in Hnd as [Hx Hnd]. cbn in Hfind |- *.
  destruct (open_for mid x) eqn:Hopen.
  - injection Hfind as ->. rewrite bool_decide_eq_true_2 by done. cbn.
    by rewrite <- (same_but_stock_open mid ex (refresh q ex) (same_but_stock_refresh q ex)), Hopen.
  - destruct (bool_decide (ReorderRequest._id x = ReorderRequest._id ex)) eqn:Hid.
    + exfalso. apply bool_decide_eq_true in Hid. apply Hx. rewrite Hid.
      apply find_some in Hfind as [Hin _]. apply list_elem_of_In in Hin.
      apply list_elem_of_fmap. by exists ex.
    + cbn. rewrite Hopen. by apply IH.
Qed.

Lemma sweep_step_settles reqs d :
  NoDup (ReorderRequest._id <$> reqs) → settled (sweep_step reqs d) d.
Proof.
  intros Hnd Hlow. unfold sweep_step. rewrite Hlow.
  destruct (List.find (open_for d.1) reqs) as [ex|] eqn:Hfind.
  - destruct (Z.eqb_spec (ReorderRequest.currentStock ex) (Medicine.quantity d.2)) as [Heq|Hne]; cbn.
    + by exists ex.
    + exists (refresh (Medicine.quantity d.2) ex). split; [by apply find_open_refresh|done].
  - exists (new_request (fresh_id reqs) d.1 d.2). split; [|done].
    rewrite find_app_none by done.
    cbn. unfold open_for, is_open. cbn. rewrite !bool_decide_eq_true_2; [done|by left|done].
Qed.

Lemma sweep_step_keeps_settled reqs d d' :
  NoDup (ReorderRequest._id <$> reqs) → d'.1 ≠ d.1 →
  settled reqs d → settled (sweep_step reqs d') d.
Proof.
  intros Hnd Hne Hset Hlow. destruct (Hset Hlow) as (r & Hfind & Hstock).
  exists r. split; [|done]. unfold sweep_step.
  destruct (Medicine.quantity d'.2 <=? Medicine.reorderThreshold d'.2); [|done].
  destruct (List.find (open_for d'.1) reqs) as [ex|] eqn:Hfind'.
  - destruct (negb _); [|done]. rewrite find_open_update; [done..| |].
    + apply find_some in Hfind' as [Hin _]. by apply list_elem_of_In.
    + apply find_some in Hfind' as [_ Hopen]. apply open_for_medicineId in Hopen. congruence.
  - by apply find_app_some.
Qed.

Lemma sweep_fold_ids (meds : list (nat * Medicine.t)) : ∀ reqs,
  NoDup (ReorderRequest._id <$> reqs) →
  NoDup (ReorderRequest._id <$> foldl sweep_step reqs meds).
Proof.
  induction meds as [|d meds IH]; intros reqs Hnd; [done|].
  cbn. by apply IH, sweep_step_ids.
Qed.

Lemma sweep_fold_keeps_settled (meds : list (nat * Medicine.t)) d : ∀ reqs,
  NoDup (ReorderRequest._id <$> reqs) → d.1 ∉ meds.*1 →
  settled reqs d → settled (foldl sweep_step reqs meds) d.
Proof.
  induction meds as [|d' meds IH]; intros reqs Hnd Hnin Hset; [done|].
  cbn in Hnin. apply not_elem_of_cons in Hnin as [Hne Hnin]. cbn.
  apply IH; [by apply sweep_step_ids | done |].
  apply sweep_step_keeps_settled; [done | congruence | done].
Qed.

(** After a sweep every medicine it visited is settled. *)
Lemma sweep_fold_settles (meds : list (nat * Medicine.t)) : ∀ reqs,
  NoDup meds.*1 → NoDup (ReorderRequest._id <$> reqs) →
  ∀ d, d ∈ meds → settled (foldl sweep_step reqs meds) d.
Proof.
  induction meds as [|d' meds IH]; intros reqs Hmeds Hnd d Hin; [by apply elem_of_nil in Hin|].
  cbn in Hmeds. apply NoDup_cons in Hmeds as [Hd' Hmeds]. cbn.
  apply elem_of_cons in Hin as [->|Hin].
  - apply sweep_fold_keeps_settled; [by apply sweep_step_ids | done |].
    by apply sweep_step_settles.
  - apply IH; [done | by apply sweep_step_ids | done].
Qed.

End sweep_settled.





(** ** Validating a prescription *)





Lemma validate_items_run today items : ∀ errs w,
  faults w = [] →
  ∃ ls,
    validate_items today items errs w
    = (Ret (errs ++ omap (item_error (medicines w) today) items),
       mkWorld (medicines w) (prescriptions w) (reorderRequests w) (transactions w)
         (logs w ++ ls) (clock w) []).
Proof.
  induction items as [|item items IH]; intros errs w Hf.
  - exists []. destruct w; cbn in *. subst. by rewrite !app_nil_r.
  - cbn [validate_items omap list_omap]. rewrite run_bind.
    unfold Medicine_findById. rewrite db_call_ok by done.
    unfold item_error at 1.
    destruct (medicines w !! PrescriptionItem.medicineId item) as [m|].
    2:{ destruct (IH (errs ++ ["Medicine " +:+ PrescriptionItem.medicineName item +:+ " not found"]) w Hf)
          as [ls ->]. exists ls. by rewrite <- app_assoc. }
    destruct (negb (Medicine.isActive m)).
    { destruct (IH (errs ++ ["Medicine " +:+ PrescriptionItem.medicineName item +:+ " is not available"]) w Hf)
        as [ls ->]. exists ls. by rewrite <- app_assoc. }
    destruct (Medicine.quantity m <? PrescriptionItem.quantity item).
    { destruct (IH (errs ++ [insufficient_stock item m]) w Hf) as [ls ->].
      exists ls. by rewrite <- app_assoc. }
    destruct (Medicine.expiryDate m <? today).
    { destruct (IH (errs ++ ["Medicine " +:+ PrescriptionItem.medicineName item +:+ " has expired"]) w Hf)
        as [ls ->]. exists ls. by rewrite <- app_assoc. }
    cbv zeta. rewrite run_bind.
    destruct ((ceil_div (Medicine.expiryDate m - today) MS_PER_DAY <=? 30)
              && (0 <? ceil_div (Medicine.expiryDate m - today) MS_PER_DAY)).
    + unfold logPrescription, write_log.
      edestruct (IH errs) as [ls ->]; [|eexists (_ :: ls); unfold_world; by rewrite <- app_assoc].
      done.
    + unfold mret, M_ret. destruct (IH errs w Hf) as [ls ->]. by exists ls.
Qed.



(** ** Dispensing a prescription *)

Section dispense_loop.
Context (id user : nat) (num : string).



End dispense_loop.

Lemma set_quantity_twice a b m :
  Medicine.set_quantity (Medicine.quantity (Medicine.set_quantity a m) - b) (Medicine.set_quantity a m)
  = Medicine.set_quantity (a - b) m.
Proof. reflexivity. Qed.



















(** ** The virtual fields of a medicine *)

(** [ceil_div a b] is the least integer [d] with [a ≤ d * b]. *)
Lemma ceil_div_spec a b d : 0 < b → (ceil_div a b ≤ d ↔ a ≤ d * b).
Proof.
  intros Hb. unfold ceil_div.
  pose proof (Z.div_mod (- a) b ltac:(lia)) as Hdm.
  pose proof (Z.mod_pos_bound (- a) b Hb) as Hmod.
  split; intros H; nia.
Qed.

Lemma ceil_div_bounds a b : 0 < b → (ceil_div a b - 1) * b < a ≤ ceil_div a b * b.
Proof.
  intros Hb.
  pose proof (proj1 (ceil_div_spec a b (ceil_div a b) Hb) ltac:(lia)).
  pose proof (ceil_div_spec a b (ceil_div a b - 1) Hb) as H1.
  split; [|done]. destruct (Z_lt_le_dec ((ceil_div a b - 1) * b) a); [done|].
  apply H1 in l. lia.
Qed.

(** C8.  The derived flags of a medicine, read at the instant [today]:
    low stock exactly when the quantity is at most the threshold; expired
    exactly when the expiry date is before [today]; expiring soon exactly when
    the days until expiry are more than 0 and at most 30, where the days until
    expiry are the time to the expiry date in days, rounded up. *)
Theorem medicine_virtuals today m :
  (isLowStock m = true ↔ Medicine.quantity m ≤ Medicine.reorderThreshold m)
  ∧ (isExpired today m = true ↔ Medicine.expiryDate m < today)
  ∧ (isExpiringSoon today m = true ↔ 0 < daysUntilExpiry today m ≤ 30)
  ∧ ((daysUntilExpiry today m - 1) * MS_PER_DAY
       < Medicine.expiryDate m - today
       ≤ daysUntilExpiry today m * MS_PER_DAY)
  ∧ (isExpiringSoon today m = true
     ↔ today < Medicine.expiryDate m ≤ today + 30 * MS_PER_DAY).
Proof.
  assert (0 < MS_PER_DAY) as Hday by done.
  split; [apply Z.leb_le|]. split; [apply Z.ltb_lt|].
  assert (isExpiringSoon today m = true ↔ 0 < daysUntilExpiry today m ≤ 30) as Hsoon.
  { unfold isExpiringSoon, daysUntilExpiry. cbv zeta.
    rewrite andb_true_iff, Z.ltb_lt, Z.leb_le. tauto. }
  split; [exact Hsoon|]. split; [by apply ceil_div_bounds|].
  rewrite Hsoon. unfold daysUntilExpiry. cbv zeta.
  pose proof (ceil_div_spec (Medicine.expiryDate m - today) MS_PER_DAY 30 Hday) as H30.
  pose proof (ceil_div_spec (Medicine.expiryDate m - today) MS_PER_DAY 0 Hday) as H0.
  lia.
Qed.

(** ** Doubles of integers *)

Lemma digits2_pos_iter p k :
  digits2_pos (Pos.iter xO p k) = (digits2_pos p + k)%positive.
Proof.
  induction k as [|k IH] using Pos.peano_ind.
  - cbn. lia.
  - rewrite Pos.iter_succ. cbn. rewrite IH. lia.
Qed.

Lemma pos_iter_xO p k : Z.pos (Pos.iter xO p k) = Z.pos p * 2 ^ Z.pos k.
Proof.
  induction k as [|k IH] using Pos.peano_ind.
  - cbn. lia.
  - rewrite Pos.iter_succ, Pos2Z.inj_xO, IH, Pos2Z.inj_succ, Z.pow_succ_r by lia. lia.
Qed.

Lemma digits2_pos_lower p : 2 ^ (Z.pos (digits2_pos p) - 1) ≤ Z.pos p.
Proof.
  induction p as [p IH|p IH|]; cbn [digits2_pos]; [| |done].
  - rewrite Pos2Z.inj_succ, Z.sub_succ_l, Z.pow_succ_r by lia. lia.
  - rewrite Pos2Z.inj_succ, Z.sub_succ_l, Z.pow_succ_r by lia. lia.
Qed.

(** An integer below 2^53 has a mantissa of at most 53 bits. *)
Lemma safe_digits p : Z.pos p < 2 ^ 53 → Z.pos (digits2_pos p) ≤ 53.
Proof.
  intros Hp. pose proof (digits2_pos_lower p) as Hlow.
  destruct (Z_le_gt_dec (Z.pos (digits2_pos p)) 53) as [|Hgt]; [done|].
  assert (2 ^ 53 ≤ 2 ^ (Z.pos (digits2_pos p) - 1)) by (apply Z.pow_le_mono_r; lia). lia.
Qed.

(** The double of a positive integer below 2^53 is the integer itself, with
    its mantissa brought to 53 bits. *)
Lemma binary_round_safe s p :
  Z.pos (digits2_pos p) ≤ 53 →
  let shift := 53 - Z.pos (digits2_pos p) in
  binary_round 53 1024 s p 0 = S754_finite s (Z.to_pos (Z.pos p * 2 ^ shift)) (- shift).
Proof.
  intros Hd shift. unfold binary_round.
  assert (fexp 53 1024 (Z.pos (digits2_pos p) + 0) = - shift) as ->.
  { unfold fexp, SpecFloat.emin. lia. }
  unfold shl_align. rewrite Z.sub_0_r.
  destruct (- shift) as [|q|q] eqn:Hq; [| lia |].
  - assert (shift = 0) as Hs by lia. rewrite Hs, Z.mul_1_r. cbn [Z.to_pos].
    unfold binary_round_aux, shr_fexp, Zdigits2, shr_record_of_loc, shr.
    assert (fexp 53 1024 (Z.pos (digits2_pos p) + 0) - 0 = 0) as ->.
    { unfold fexp, SpecFloat.emin. lia. }
    cbn [shr_m loc_of_shr_record round_nearest_even].
    assert (fexp 53 1024 (Z.pos (digits2_pos p) + 0) - 0 = 0) as ->.
    { unfold fexp, SpecFloat.emin. lia. }
    cbn. reflexivity.
  - assert (shift = Z.pos q) as Hs by lia. rewrite Hs.
    rewrite <- pos_iter_xO. cbn [Z.to_pos].
    unfold binary_round_aux, shr_fexp, Zdigits2, shr_record_of_loc, shr.
    rewrite digits2_pos_iter.
    assert (fexp 53 1024 (Z.pos (digits2_pos p + q) + Z.neg q) - Z.neg q = 0) as ->.
    { unfold fexp, SpecFloat.emin. lia. }
    cbn [shr_m loc_of_shr_record round_nearest_even].
    rewrite digits2_pos_iter.
    assert (fexp 53 1024 (Z.pos (digits2_pos p + q) + Z.neg q) - Z.neg q = 0) as ->.
    { unfold fexp, SpecFloat.emin. lia. }
    cbn [shr_m].
    assert ((Z.neg q <=? 1024 - 53) = true) as -> by (apply Z.leb_le; lia).
    reflexivity.
Qed.

Lemma js_of_Z_safe z :
  z ≠ 0 → Z.abs z < 2 ^ 53 →
  ∃ m e, js_of_Z z = S754_finite (z <? 0) m e ∧ integral (S754_finite (z <? 0) m e).
Proof.
  intros Hz Hsafe. unfold js_of_Z, binary_normalize.
  destruct z as [|p|p]; [done| |]; cbn [Z.abs] in Hsafe;
    rewrite (binary_round_safe _ p (safe_digits p Hsafe)); cbv zeta;
    (eexists _, _; split; [reflexivity|]);
    exists (Z.pos p), (53 - Z.pos (digits2_pos p));
    (split; [pose proof (safe_digits p Hsafe); lia|]); (split; [done|]);
    rewrite Z2Pos.id; [done| |done|];
    apply Z.mul_pos_pos; try lia; apply Z.pow_pos_nonneg; pose proof (safe_digits p Hsafe); lia.
Qed.

Lemma js_floor_integral a : integral a → js_floor a = a.
Proof.
  destruct a as [| | |s m e]; try done. intros (n & shift & Hshift & -> & Hm).
  unfold js_floor. destruct (Z.leb_spec 0 (- shift)) as [|Hneg]; [done|].
  rewrite Z.opp_involutive.
  assert (0 < 2 ^ shift) as Hpow by (apply Z.pow_pos_nonneg; lia).
  assert (cond_Zopp s (Z.pos m) = cond_Zopp s n * 2 ^ shift) as Hv.
  { rewrite Hm. destruct s; cbn; lia. }
  cbv zeta. rewrite Hv, Z.div_mul by lia. by rewrite Z.eqb_refl.
Qed.

Lemma js_ceil_integral a : integral a → js_ceil a = a.
Proof.
  intros Ha. unfold js_ceil. rewrite js_floor_integral; [by destruct a as [[]|[]| |[] ? ?]|].
  by destruct a.
Qed.



Lemma digits2_pos_upper p : Z.pos p < 2 ^ Z.pos (digits2_pos p).
Proof.
  induction p as [p IH|p IH|]; cbn [digits2_pos]; [| |done].
  - rewrite Pos2Z.inj_succ, Z.pow_succ_r by lia. lia.
  - rewrite Pos2Z.inj_succ, Z.pow_succ_r by lia. lia.
Qed.











Lemma sort_insert_perm {A} (compare : A → A → Z) x l : sort_insert compare x l ≡ₚ x :: l.
Proof.
  induction l as [|y l IH]; cbn; [done|].
  destruct (compare x y <=? 0); [done|]. rewrite IH. apply Permutation_swap.
Qed.

Lemma sort_perm {A} (compare : A → A → Z) l : sort compare l ≡ₚ l.
Proof.
  induction l as [|x l IH]; cbn; [done|]. by rewrite sort_insert_perm, IH.
Qed.

(** ** The demand trend *)




(** The average of a total of 0 is not above 0, whatever the number of
    days: it is a zero, or NaN. *)
Lemma zero_average_not_positive (divisor : JsNumber) :
  js_is_pos (js_div (js_of_Z 0) divisor) = false.
Proof. by destruct divisor as [[]|[]| |[] ? ?]. Qed.




(** * Further properties *)

(** ** Relations that every step respects *)

Section evolves.
Context (R : relation World) `{!Lasting R}.

Lemma evolves_ret {A} (a : A) : evolves R (mret a : M A).
Proof. intros w. apply lasting_refl. Qed.

Lemma evolves_throw {A} e : evolves R (throw e : M A).
Proof. intros w. apply lasting_refl. Qed.

Lemma evolves_new_Date : evolves R new_Date.
Proof. intros w. apply lasting_refl. Qed.

Lemma evolves_write_log l : evolves R (write_log l).
Proof. intros w. apply lasting_logs. Qed.

Lemma evolves_bind {A B} (c : M A) (k : A → M B) :
  evolves R c → (∀ a, evolves R (k a)) → evolves R (c ≫= k).
Proof.
  intros Hc Hk w. rewrite run_bind. specialize (Hc w).
  destruct (c w) as [[a|e] w1]; cbn in *; [|done].
  eapply lasting_trans; [exact Hc | apply Hk].
Qed.

Lemma evolves_try_catch {A} (body : M A) (handler : JsError → M A) :
  evolves R body → (∀ e, evolves R (handler e)) → evolves R (try_catch body handler).
Proof.
  intros Hb Hh w. unfold try_catch. specialize (Hb w).
  destruct (body w) as [[a|e] w1]; cbn in *; [done|].
  eapply lasting_trans; [exact Hb | apply Hh].
Qed.

Lemma evolves_db_call {A} (op : World → Result A * World) :
  (∀ w, R w (op w).2) → evolves R (db_call op).
Proof.
  intros Hop w. unfold db_call.
  destruct (faults w) as [|[msg|] fs]; cbn; [done| apply lasting_faults |].
  eapply lasting_trans; [apply lasting_faults | apply Hop].
Qed.
End evolves.

#[global] Instance kept_lasting {T} (f : World → T) `{!Stored f} : Lasting (kept f).
Proof.
  split; unfold kept.
  - done.
  - intros w1 w2 w3 H12 H23. by rewrite H23.
  - apply stored_logs.
  - apply stored_faults.
Qed.

#[global] Instance invariant_lasting (P : World → Prop) :
  (∀ g w, P w → P (set_logs g w)) → (∀ fs w, P w → P (set_faults fs w)) →
  Lasting (invariant P).
Proof. intros Hl Hf. split; unfold invariant; eauto. Qed.

#[global] Instance stored_medicines : Stored medicines.
Proof. by split. Qed.
#[global] Instance stored_prescriptions : Stored prescriptions.
Proof. by split. Qed.
#[global] Instance stored_reorderRequests : Stored reorderRequests.
Proof. by split. Qed.
#[global] Instance stored_transactions : Stored transactions.
Proof. by split. Qed.
#[global] Instance stored_prescription id : Stored (λ w, prescriptions w !! id).
Proof. by split. Qed.
#[global] Instance stored_clock : Stored clock.
Proof. by split. Qed.

#[global] Instance grown_lasting : Lasting grown.
Proof.
  split; unfold grown.
  - intros w. exists (reorderRequests w), []. rewrite app_nil_r.
    split; [done | apply Forall2_same_refl].
  - intros w1 w2 w3 (old & created & Hreq & Hold) (old1 & created1 & Hreq1 & Hold1).
    rewrite Hreq in Hold1.
    apply Forall2_app_inv_l in Hold1 as (old2 & rest & Hold2 & Hrest & ->).
    exists old2, (rest ++ created1). rewrite Hreq1, <- app_assoc. split; [done|].
    by eapply Forall2_same_trans.
  - intros g w. exists (reorderRequests w), []. rewrite app_nil_r.
    split; [done | apply Forall2_same_refl].
  - intros fs w. exists (reorderRequests w), []. rewrite app_nil_r.
    split; [done | apply Forall2_same_refl].
Qed.

Lemma set_quantity_quantity m : Medicine.set_quantity (Medicine.quantity m) m = m.
Proof. by destruct m. Qed.

Lemma restocked_same w w' : medicines w' = medicines w → restocked w w'.
Proof.
  intros Heq mid. rewrite Heq. destruct (medicines w !! mid) as [m|]; [|done].
  exists (Medicine.quantity m). by rewrite set_quantity_quantity.
Qed.

#[global] Instance restocked_lasting : Lasting restocked.
Proof.
  split.
  - intros w. by apply restocked_same.
  - intros w1 w2 w3 H12 H23 mid. specialize (H12 mid). specialize (H23 mid).
    destruct (medicines w1 !! mid) as [m1|], (medicines w2 !! mid) as [m2|],
      (medicines w3 !! mid) as [m3|]; try done.
    destruct H12 as (q & -> & Hq), H23 as (q' & -> & Hq').
    exists q'. split; [by destruct m1|]. intros H. apply Hq'. cbn. by apply Hq.
  - intros g w. by apply restocked_same.
  - intros fs w. by apply restocked_same.
Qed.

#[global] Instance unique_ids_lasting : Lasting (invariant unique_ids).
Proof. by apply invariant_lasting. Qed.

Lemma kept_evolves {T} (f : World → T) {A} (c : M A) (R : relation World) `{!Lasting R} :
  (∀ w w', f w' = f w → R w w') → evolves (kept f) c → evolves R c.
Proof. intros HR Hc w. apply HR, Hc. Qed.

Ltac evolves_step :=
  lazymatch goal with
  | |- evolves _ (mbind _ _) => apply evolves_bind; [tc_solve | | intros ?]
  | |- evolves _ (mret _) => apply evolves_ret; tc_solve
  | |- evolves _ (throw _) => apply evolves_throw; tc_solve
  | |- evolves _ new_Date => apply evolves_new_Date; tc_solve
  | |- evolves _ (write_log _) => apply evolves_write_log; tc_solve
  | |- evolves _ (logReordering _) => apply evolves_write_log; tc_solve
  | |- evolves _ (logPrescription _) => apply evolves_write_log; tc_solve
  | |- evolves _ (logAnalytics _) => apply evolves_write_log; tc_solve
  | |- evolves _ (logger_error _ _ _) => apply evolves_write_log; tc_solve
  | |- evolves _ (try_catch _ _) => apply evolves_try_catch; [tc_solve | | intros ?]
  | |- evolves _ (db_call _) => apply evolves_db_call; [tc_solve | intros ?; cbn; try done]
  | |- evolves _ (match ?x with _ => _ end) => destruct x
  | |- evolves _ (if ?b then _ else _) => destruct b
  | |- evolves _ (let _ := _ in _) => cbv zeta
  end.

Ltac evolves_auto := repeat evolves_step.

(** *** Reading never changes what is stored *)

Lemma kept_validate_items {T} (f : World → T) `{!Stored f} today items : ∀ errs,
  evolves (kept f) (validate_items today items errs).
Proof.
  induction items as [|item items IH]; intros errs; cbn [validate_items].
  - evolves_auto.
  - unfold Medicine_findById. evolves_auto; apply IH.
Qed.

Lemma kept_reorder_loop {T} (f : World → T) `{!Stored f} meds : ∀ c u,
  (∀ g w, f (set_reorderRequests g w) = f w) →
  evolves (kept f) (reorder_loop meds c u).
Proof.
  induction meds as [|[mid m] meds IH]; intros c u Hreq; cbn [reorder_loop].
  - evolves_auto.
  - unfold ReorderRequest_findOne_open, ReorderRequest_findByIdAndUpdate, ReorderRequest_create.
    evolves_auto; try (by apply IH); try apply Hreq.
    destruct (ReorderRequest_validate _); [done|apply Hreq].
Qed.

Lemma kept_dispense_items {T} (f : World → T) `{!Stored f} id user num items : ∀ txs,
  (∀ g w, f (set_medicines g w) = f w) → (∀ g w, f (set_transactions g w) = f w) →
  evolves (kept f) (dispense_items id user num items txs).
Proof.
  induction items as [|item items IH]; intros txs Hm Ht; cbn [dispense_items].
  - evolves_auto.
  - unfold Medicine_findById, Medicine_findByIdAndUpdate, Transaction_create.
    evolves_auto; try (by apply IH); try apply Hm.
    destruct (Transaction_validate _); [done|apply Ht].
Qed.

Lemma only_request_same id w w' : reorderRequests w' = reorderRequests w → only_request id w w'.
Proof.
  unfold only_request. intros ->. induction (reorderRequests w); constructor; done.
Qed.

#[global] Instance only_request_lasting id : Lasting (only_request id).
Proof.
  split.
  - intros w. by apply only_request_same.
  - unfold only_request. intros w1 w2 w3 H12. revert w3.
    generalize dependent (reorderRequests w2). generalize dependent (reorderRequests w1).
    intros l1 l2 H12 w3. generalize dependent (reorderRequests w3).
    induction H12 as [|r1 r2 l1 l2 (Hid & Hmid & Hsame) _ IH]; intros l3 H23.
    + by apply Forall2_nil_inv_l in H23 as ->.
    + apply Forall2_cons_inv_l in H23 as (r3 & l3' & (Hid' & Hmid' & Hsame') & H23 & ->).
      constructor; [|by apply IH].
      split; [congruence|]. split; [congruence|].
      intros Hne. rewrite Hsame', Hsame; [done..|congruence].
  - intros g w. by apply only_request_same.
  - intros fs w. by apply only_request_same.
Qed.

Lemma only_request_update id f l :
  (∀ r, ReorderRequest._id (f r) = ReorderRequest._id r) →
  (∀ r, ReorderRequest.medicineId (f r) = ReorderRequest.medicineId r) →
  Forall2 (λ r r', ReorderRequest._id r' = ReorderRequest._id r
                   ∧ ReorderRequest.medicineId r' = ReorderRequest.medicineId r
                   ∧ (ReorderRequest._id r ≠ id → r' = r))
    l (update_by_id id f l).
Proof.
  intros Hid Hmid. induction l as [|x l IH]; cbn; [constructor|].
  destruct (bool_decide (ReorderRequest._id x = id)) eqn:Hx.
  - apply bool_decide_eq_true in Hx. constructor; [by rewrite Hid, Hmid|].
    clear. induction l; constructor; done.
  - by constructor.
Qed.

#[global] Instance dispensed_more_lasting : Lasting dispensed_more.
Proof.
  split; unfold dispensed_more.
  - intros w. exists []. by rewrite app_nil_r.
  - intros w1 w2 w3 (n1 & H1 & Hn1) (n2 & H2 & Hn2).
    exists (n1 ++ n2). rewrite H2, H1, <- app_assoc. split; [done|]. by apply Forall_app.
  - intros g w. exists []. by rewrite app_nil_r.
  - intros fs w. exists []. by rewrite app_nil_r.
Qed.

(** *** [validatePrescription] *)

Lemma kept_validatePrescription {T} (f : World → T) `{!Stored f} id notes user :
  (∀ g w, f (set_prescriptions g w) = f w) →
  evolves (kept f) (validatePrescription id notes user).
Proof.
  intros Hrx. unfold validatePrescription, Prescription_findById, Prescription_findByIdAndUpdate.
  evolves_auto; try apply Hrx. apply kept_validate_items; tc_solve.
Qed.

Lemma kept_validatePrescription_other other id notes user :
  id ≠ AnObjectId other →
  evolves (kept (λ w, prescriptions w !! other)) (validatePrescription id notes user).
Proof.
  intros Hother. unfold validatePrescription, Prescription_findById, Prescription_findByIdAndUpdate.
  destruct id as [|id]; [evolves_auto|].
  assert (id ≠ other) as Hne by congruence.
  evolves_auto; try (by apply lookup_alter_ne). apply kept_validate_items; tc_solve.
Qed.

(** X1.  Whatever the request, the state of the prescription and the
    behaviour of the driver, [validatePrescription] changes no medicine, no
    transaction, no reorder request and no prescription other than the one it
    was called for. *)
Theorem validate_touches_one_prescription id notes user w :
  medicines (validatePrescription id notes user w).2 = medicines w
  ∧ transactions (validatePrescription id notes user w).2 = transactions w
  ∧ reorderRequests (validatePrescription id notes user w).2 = reorderRequests w
  ∧ ∀ other, id ≠ AnObjectId other →
      prescriptions (validatePrescription id notes user w).2 !! other = prescriptions w !! other.
Proof.
  split; [by apply (kept_validatePrescription medicines)|].
  split; [by apply (kept_validatePrescription transactions)|].
  split; [by apply (kept_validatePrescription reorderRequests)|].
  intros other Hother.
  apply (kept_validatePrescription_other other id notes user Hother).
Qed.

(** *** [checkAndCreateReorderRequests] *)

Lemma kept_sweep {T} (f : World → T) `{!Stored f} :
  (∀ g w, f (set_reorderRequests g w) = f w) →
  evolves (kept f) checkAndCreateReorderRequests.
Proof.
  intros Hreq. unfold checkAndCreateReorderRequests, reorder_check, Medicine_find_active.
  evolves_auto. by apply kept_reorder_loop.
Qed.

Lemma grown_same w w' : reorderRequests w' = reorderRequests w → grown w w'.
Proof.
  intros Heq. exists (reorderRequests w), []. rewrite app_nil_r.
  split; [done | apply Forall2_same_refl].
Qed.

Lemma grown_reorder_loop meds : ∀ c u, evolves grown (reorder_loop meds c u).
Proof.
  induction meds as [|[mid m] meds IH]; intros c u; cbn [reorder_loop].
  - evolves_auto.
  - unfold ReorderRequest_findOne_open, ReorderRequest_findByIdAndUpdate, ReorderRequest_create.
    evolves_auto; try apply IH; try (by apply grown_same).
    + eexists _, []. rewrite app_nil_r. split; [done|]. apply Forall2_same_update.
    + destruct (ReorderRequest_validate _); cbn; [by apply grown_same|].
      eexists _, [_]. split; [done|]. apply Forall2_same_refl.
Qed.

Lemma grown_sweep : evolves grown checkAndCreateReorderRequests.
Proof.
  unfold checkAndCreateReorderRequests, reorder_check, Medicine_find_active.
  evolves_auto; try (by apply grown_same). apply grown_reorder_loop.
Qed.

(** X2.  Whatever the state and the behaviour of the driver, the sweep
    changes no medicine, no prescription and no transaction, and it never
    removes a reorder request: the requests it found are still there, in
    order, at most with another stock snapshot. *)
Theorem sweep_touches_only_requests w :
  medicines (checkAndCreateReorderRequests w).2 = medicines w
  ∧ prescriptions (checkAndCreateReorderRequests w).2 = prescriptions w
  ∧ transactions (checkAndCreateReorderRequests w).2 = transactions w
  ∧ ∃ old created,
      reorderRequests (checkAndCreateReorderRequests w).2 = old ++ created
      ∧ Forall2 same_but_stock (reorderRequests w) old.
Proof.
  split; [by apply (kept_sweep medicines)|].
  split; [by apply (kept_sweep prescriptions)|].
  split; [by apply (kept_sweep transactions)|].
  apply (grown_sweep w).
Qed.

(** *** The status changes of the reorder service *)

Lemma kept_approve {T} (f : World → T) `{!Stored f} id user :
  (∀ g w, f (set_reorderRequests g w) = f w) →
  evolves (kept f) (approveReorderRequest id user).
Proof.
  intros Hreq. unfold approveReorderRequest, ReorderRequest_findByIdAndUpdate.
  evolves_auto; apply Hreq.
Qed.

Lemma kept_ordered {T} (f : World → T) `{!Stored f} id :
  (∀ g w, f (set_reorderRequests g w) = f w) →
  evolves (kept f) (markReorderRequestAsOrdered id).
Proof.
  intros Hreq. unfold markReorderRequestAsOrdered, ReorderRequest_findByIdAndUpdate.
  evolves_auto; apply Hreq.
Qed.

Lemma kept_received {T} (f : World → T) `{!Stored f} id rq :
  (∀ g w, f (set_reorderRequests g w) = f w) → (∀ g w, f (set_medicines g w) = f w) →
  evolves (kept f) (markReorderRequestAsReceived id rq).
Proof.
  intros Hreq Hmed.
  unfold markReorderRequestAsReceived, ReorderRequest_findByIdAndUpdate, ReorderRequest_findById,
    Medicine_findById, Medicine_findByIdAndUpdate.
  evolves_auto; first [apply Hreq | apply Hmed].
Qed.

Lemma only_request_approve id user : evolves (only_request id) (approveReorderRequest id user).
Proof.
  unfold approveReorderRequest, ReorderRequest_findByIdAndUpdate.
  evolves_auto; try (by apply only_request_same). by apply only_request_update.
Qed.

Lemma only_request_ordered id : evolves (only_request id) (markReorderRequestAsOrdered id).
Proof.
  unfold markReorderRequestAsOrdered, ReorderRequest_findByIdAndUpdate.
  evolves_auto; try (by apply only_request_same). by apply only_request_update.
Qed.

Lemma only_request_received id rq : evolves (only_request id) (markReorderRequestAsReceived id rq).
Proof.
  unfold markReorderRequestAsReceived, ReorderRequest_findByIdAndUpdate, ReorderRequest_findById,
    Medicine_findById, Medicine_findByIdAndUpdate.
  evolves_auto; try (by apply only_request_same); by apply only_request_update.
Qed.

(** X3.  Whatever the state and the behaviour of the driver, approving a
    request, marking it as ordered and marking it as received change no
    prescription and no transaction, add and remove no request, change the
    identifier and the medicine of none, and leave every request with another
    identifier exactly as it was; approving and ordering change no medicine
    either. *)
Theorem status_changes_touch_one_request id user rq w :
  let approved := (approveReorderRequest id user w).2 in
  let ordered := (markReorderRequestAsOrdered id w).2 in
  let received := (markReorderRequestAsReceived id rq w).2 in
  (medicines approved = medicines w ∧ prescriptions approved = prescriptions w
   ∧ transactions approved = transactions w ∧ only_request id w approved)
  ∧ (medicines ordered = medicines w ∧ prescriptions ordered = prescriptions w
     ∧ transactions ordered = transactions w ∧ only_request id w ordered)
  ∧ (prescriptions received = prescriptions w
     ∧ transactions received = transactions w ∧ only_request id w received).
Proof.
  cbv zeta. split; [|split].
  - split; [by apply (kept_approve medicines)|].
    split; [by apply (kept_approve prescriptions)|].
    split; [by apply (kept_approve transactions)|]. apply only_request_approve.
  - split; [by apply (kept_ordered medicines)|].
    split; [by apply (kept_ordered prescriptions)|].
    split; [by apply (kept_ordered transactions)|]. apply only_request_ordered.
  - split; [by apply (kept_received prescriptions)|].
    split; [by apply (kept_received transactions)|]. apply only_request_received.
Qed.

(** *** [dispensePrescription] *)

Lemma restocked_alter w mid q :
  (∀ m, medicines w !! mid = Some m → 0 ≤ Medicine.quantity m → 0 ≤ q) →
  restocked w (set_medicines (alter (Medicine.set_quantity q) mid) w).
Proof.
  intros Hq mid'. cbn. destruct (decide (mid' = mid)) as [->|Hne].
  - rewrite lookup_alter_eq. destruct (medicines w !! mid) as [m|] eqn:Hm; cbn; [|done].
    exists q. split; [done|]. by apply Hq.
  - rewrite lookup_alter_ne by done. destruct (medicines w !! mid') as [m|]; [|done].
    exists (Medicine.quantity m). by rewrite set_quantity_quantity.
Qed.

(** The loop writes [previousStock - quantity] only after it has read a
    stock of at least [quantity], but the stock it writes over is the one on
    record at the time of the write. *)
Lemma restocked_dispense_items id user num items : ∀ txs,
  evolves restocked (dispense_items id user num items txs).
Proof.
  induction items as [|item items IH]; intros txs; cbn [dispense_items].
  - evolves_auto.
  - unfold Medicine_findById.
    apply evolves_bind; [tc_solve | evolves_auto; by apply restocked_same |].
    intros [medicine|]; [|evolves_auto].
    destruct (Z.ltb_spec (Medicine.quantity medicine) (PrescriptionItem.quantity item));
      [evolves_auto|].
    cbv zeta. unfold Medicine_findByIdAndUpdate, Transaction_create.
    evolves_auto; try apply IH.
    + apply restocked_alter. intros; lia.
    + destruct (Transaction_validate _); by apply restocked_same.
Qed.

Lemma restocked_dispense id user : evolves restocked (dispensePrescription id user).
Proof.
  unfold dispensePrescription, Prescription_findById, Prescription_findByIdAndUpdate.
  evolves_auto; try (by apply restocked_same). apply restocked_dispense_items.
Qed.

Lemma dispensed_more_same w w' : transactions w' = transactions w → dispensed_more w w'.
Proof. intros Heq. exists []. by rewrite app_nil_r. Qed.

Lemma dispensed_more_items id user num items : ∀ txs,
  evolves dispensed_more (dispense_items id user num items txs).
Proof.
  induction items as [|item items IH]; intros txs; cbn [dispense_items].
  - evolves_auto.
  - unfold Medicine_findById, Medicine_findByIdAndUpdate, Transaction_create.
    evolves_auto; try apply IH; try (by apply dispensed_more_same).
    destruct (Transaction_validate _); cbn; [by apply dispensed_more_same|].
    eexists [_]. split; [done|]. by constructor.
Qed.

Lemma dispensed_more_dispense id user : evolves dispensed_more (dispensePrescription id user).
Proof.
  unfold dispensePrescription, Prescription_findById, Prescription_findByIdAndUpdate.
  evolves_auto; try (by apply dispensed_more_same). apply dispensed_more_items.
Qed.

Lemma kept_dispense {T} (f : World → T) `{!Stored f} id user :
  (∀ g w, f (set_medicines g w) = f w) → (∀ g w, f (set_transactions g w) = f w) →
  (∀ g w, f (set_prescriptions g w) = f w) →
  evolves (kept f) (dispensePrescription id user).
Proof.
  intros Hm Ht Hp.
  unfold dispensePrescription, Prescription_findById, Prescription_findByIdAndUpdate.
  evolves_auto; try apply Hp. by apply kept_dispense_items.
Qed.

Lemma kept_dispense_other other id user :
  id ≠ AnObjectId other →
  evolves (kept (λ w, prescriptions w !! other)) (dispensePrescription id user).
Proof.
  intros Hother.
  unfold dispensePrescription, Prescription_findById, Prescription_findByIdAndUpdate.
  destruct id as [|id]; [evolves_auto|].
  assert (id ≠ other) as Hne by congruence.
  evolves_auto; try (by apply lookup_alter_ne). by apply kept_dispense_items.
Qed.

Lemma schema_valid_spec w :
  schema_valid w = true ↔ ∀ mid m, medicines w !! mid = Some m → medicine_ok m = true.
Proof.
  split; [intros H mid m; by apply schema_valid_lookup|].
  intros H. unfold schema_valid. apply forallb_forall. intros [mid m] Hin.
  apply list_elem_of_In, elem_of_map_to_list in Hin. by apply (H mid).
Qed.

Lemma medicine_ok_set_quantity q m :
  medicine_ok m = true → 0 ≤ q → medicine_ok (Medicine.set_quantity q m) = true.
Proof.
  unfold medicine_ok. rewrite !andb_true_iff. intros [[[Hn _] Ht] Hp] Hq. cbn.
  repeat split; try done. by apply Z.leb_le.
Qed.

Lemma restocked_schema_valid w w' :
  restocked w w' → schema_valid w = true → schema_valid w' = true.
Proof.
  rewrite !schema_valid_spec. intros Hr Hok mid m' Hm'. specialize (Hr mid).
  rewrite Hm' in Hr. destruct (medicines w !! mid) as [m|] eqn:Hm; [|done].
  destruct Hr as (q & -> & Hq). pose proof (Hok mid m Hm) as Hmok.
  apply medicine_ok_set_quantity; [done|]. apply Hq.
  unfold medicine_ok in Hmok. rewrite !andb_true_iff in Hmok.
  destruct Hmok as [[[_ H0] _] _]. by apply Z.leb_le.
Qed.

(** X4.  Whatever the prescription and the behaviour of the driver, and
    whether the handler answers 200, 400, 404 or 500, a run of
    [dispensePrescription] adds and removes no medicine and changes nothing of
    a medicine but its quantity; it never takes a quantity that was not
    negative below zero, so that a stock that satisfies the medicine schema
    still does afterwards.  It changes no reorder request and no other
    prescription, and the transactions on record are still there, followed by
    [DISPENSE] transactions only. *)
Theorem dispense_never_overdraws id user w :
  let w' := (dispensePrescription id user w).2 in
  (∀ mid, match medicines w !! mid, medicines w' !! mid with
          | Some m, Some m' =>
              ∃ q, m' = Medicine.set_quantity q m ∧ (0 ≤ Medicine.quantity m → 0 ≤ q)
          | None, None => True
          | _, _ => False
          end)
  ∧ (schema_valid w = true → schema_valid w' = true)
  ∧ reorderRequests w' = reorderRequests w
  ∧ (∀ other, id ≠ AnObjectId other → prescriptions w' !! other = prescriptions w !! other)
  ∧ ∃ new, transactions w' = transactions w ++ new
           ∧ Forall (λ t, Transaction.type t = DISPENSE) new.
Proof.
  cbv zeta. split; [apply (restocked_dispense id user w)|].
  split; [apply restocked_schema_valid, restocked_dispense|].
  split; [by apply (kept_dispense reorderRequests)|].
  split; [intros other Hother; apply (kept_dispense_other other id user Hother)|].
  apply (dispensed_more_dispense id user w).
Qed.

(** *** Identifiers stay unique *)

Lemma unique_ids_same w w' :
  reorderRequests w' = reorderRequests w → invariant unique_ids w w'.
Proof. unfold invariant, unique_ids. by intros ->. Qed.

Lemma update_by_id_same_ids id f l :
  (∀ r, ReorderRequest._id (f r) = ReorderRequest._id r) →
  ReorderRequest._id <$> update_by_id id f l = ReorderRequest._id <$> l.
Proof.
  intros Hf. induction l as [|x l IH]; cbn; [done|].
  destruct (bool_decide (ReorderRequest._id x = id)); cbn; [by rewrite Hf|]. by rewrite IH.
Qed.

Lemma unique_ids_update id f w :
  (∀ r, ReorderRequest._id (f r) = ReorderRequest._id r) →
  invariant unique_ids w (set_reorderRequests (update_by_id id f) w).
Proof. intros Hf. unfold invariant, unique_ids. cbn. by rewrite update_by_id_same_ids. Qed.

Lemma unique_ids_create w doc :
  ReorderRequest._id doc = fresh_id (reorderRequests w) →
  invariant unique_ids w (set_reorderRequests (λ l, l ++ [doc]) w).
Proof.
  intros Hid. unfold invariant, unique_ids. cbn. intros Hnd.
  rewrite fmap_app. cbn. apply NoDup_app. split; [done|]. split; [|apply NoDup_singleton].
  intros id Hin ->%list_elem_of_singleton.
  apply list_elem_of_fmap in Hin as (r & Hr & Hin).
  pose proof (fresh_id_above _ r Hin). lia.
Qed.

Lemma unique_ids_reorder_loop meds : ∀ c u, evolves (invariant unique_ids) (reorder_loop meds c u).
Proof.
  induction meds as [|[mid m] meds IH]; intros c u; cbn [reorder_loop].
  - evolves_auto.
  - unfold ReorderRequest_findOne_open, ReorderRequest_findByIdAndUpdate, ReorderRequest_create.
    evolves_auto; try apply IH; try (by apply unique_ids_same).
    + by apply unique_ids_update.
    + destruct (ReorderRequest_validate _); cbn; [by apply unique_ids_same|].
      by apply unique_ids_create.
Qed.

Lemma unique_ids_sweep : evolves (invariant unique_ids) checkAndCreateReorderRequests.
Proof.
  unfold checkAndCreateReorderRequests, reorder_check, Medicine_find_active.
  evolves_auto; try (by apply unique_ids_same). apply unique_ids_reorder_loop.
Qed.

Lemma unique_ids_approve id user : evolves (invariant unique_ids) (approveReorderRequest id user).
Proof.
  unfold approveReorderRequest, ReorderRequest_findByIdAndUpdate.
  evolves_auto; try (by apply unique_ids_same); by apply unique_ids_update.
Qed.

Lemma unique_ids_ordered id : evolves (invariant unique_ids) (markReorderRequestAsOrdered id).
Proof.
  unfold markReorderRequestAsOrdered, ReorderRequest_findByIdAndUpdate.
  evolves_auto; try (by apply unique_ids_same); by apply unique_ids_update.
Qed.

Lemma unique_ids_received id rq :
  evolves (invariant unique_ids) (markReorderRequestAsReceived id rq).
Proof.
  unfold markReorderRequestAsReceived, ReorderRequest_findByIdAndUpdate, ReorderRequest_findById,
    Medicine_findById, Medicine_findByIdAndUpdate.
  evolves_auto; try (by apply unique_ids_same); by apply unique_ids_update.
Qed.

(** X5.  Whatever the driver does, no function of the reorder service makes
    two requests share an identifier: if the identifiers are pairwise
    different before a sweep, an approval, an order or a reception, they are
    afterwards. *)
Theorem reorder_service_keeps_ids_unique id user rq w :
  unique_ids w →
  unique_ids (checkAndCreateReorderRequests w).2
  ∧ unique_ids (approveReorderRequest id user w).2
  ∧ unique_ids (markReorderRequestAsOrdered id w).2
  ∧ unique_ids (markReorderRequestAsReceived id rq w).2.
Proof.
  intros Hw. split; [|split; [|split]].
  - by apply unique_ids_sweep.
  - by apply unique_ids_approve.
  - by apply unique_ids_ordered.
  - by apply unique_ids_received.
Qed.

Lemma reorder_service_keeps_ids_unique_witness :
  unique_ids (checkAndCreateReorderRequests pharmacy_two_open).2.
Proof.
  apply (reorder_service_keeps_ids_unique 1%nat 9%nat None pharmacy_two_open).
  apply (bool_decide_unpack _). by vm_compute.
Defined.

(** *** The queries *)

Lemma kept_getDemandTrends {T} (f : World → T) `{!Stored f} zone id days :
  evolves (kept f) (getDemandTrends zone id days).
Proof.
  unfold getDemandTrends, Transaction_find_demand_sorted, Medicine_findById. evolves_auto.
Qed.

Lemma kept_getPending {T} (f : World → T) `{!Stored f} :
  evolves (kept f) getPendingReorderRequests.
Proof. unfold getPendingReorderRequests. evolves_auto. Qed.

Lemma kept_recommend_loop {T} (f : World → T) `{!Stored f} zone priority days meds : ∀ recs,
  evolves (kept f) (recommend_loop zone priority days meds recs).
Proof.
  induction meds as [|[mid m] meds IH]; intros recs; cbn [recommend_loop].
  - evolves_auto.
  - unfold Transaction_find_demand. evolves_auto; apply IH.
Qed.

Lemma kept_getReorderRecommendations {T} (f : World → T) `{!Stored f} zone priority days :
  evolves (kept f) (getReorderRecommendations zone priority days).
Proof.
  unfold getReorderRecommendations, Medicine_find_active. evolves_auto.
  apply kept_recommend_loop; tc_solve.
Qed.

(** X6.  The three queries only read: whatever the driver does,
    [getDemandTrends], [getReorderRecommendations] and
    [getPendingReorderRequests] change no medicine, no prescription, no
    reorder request and no transaction. *)
Theorem queries_change_nothing zone id priority days w :
  let trends := (getDemandTrends zone id days w).2 in
  let advice := (getReorderRecommendations zone priority days w).2 in
  let pending := (getPendingReorderRequests w).2 in
  (medicines trends = medicines w ∧ prescriptions trends = prescriptions w
   ∧ reorderRequests trends = reorderRequests w ∧ transactions trends = transactions w)
  ∧ (medicines advice = medicines w ∧ prescriptions advice = prescriptions w
     ∧ reorderRequests advice = reorderRequests w ∧ transactions advice = transactions w)
  ∧ (medicines pending = medicines w ∧ prescriptions pending = prescriptions w
     ∧ reorderRequests pending = reorderRequests w ∧ transactions pending = transactions w).
Proof.
  cbv zeta. split; [|split].
  - split; [apply (kept_getDemandTrends medicines)|].
    split; [apply (kept_getDemandTrends prescriptions)|].
    split; [apply (kept_getDemandTrends reorderRequests)|apply (kept_getDemandTrends transactions)].
  - split; [apply (kept_getReorderRecommendations medicines)|].
    split; [apply (kept_getReorderRecommendations prescriptions)|].
    split; [apply (kept_getReorderRecommendations reorderRequests)
           |apply (kept_getReorderRecommendations transactions)].
  - split; [apply (kept_getPending medicines)|].
    split; [apply (kept_getPending prescriptions)|].
    split; [apply (kept_getPending reorderRequests)|apply (kept_getPending transactions)].
Qed.

(** *** The handlers on a refused call *)

Lemma tracks_validate_items today items : ∀ errs, tracks (validate_items today items errs).
Proof.
  induction items as [|item items IH]; intros errs; cbn [validate_items].
  - tracks_auto.
  - unfold Medicine_findById. tracks_auto; apply IH.
Qed.

Lemma tracks_dispense_items id user num items : ∀ txs, tracks (dispense_items id user num items txs).
Proof.
  induction items as [|item items IH]; intros txs; cbn [dispense_items].
  - tracks_auto.
  - unfold Medicine_findById, Medicine_findByIdAndUpdate. tracks_auto. apply IH.
Qed.

(** [catch (error) { logger.error(..); res.status(500).json(..) }] *)
Lemma answered_on_refusal {A} (body : M A) (answer : JsError → A) wf text w msg :
  tracks body →
  let run := try_catch body (λ e, _ ← logger_error wf text e; mret (answer e)) w in
  refused_within w run.2 msg →
  run.1 = Ret (answer (mkError DriverError msg))
  ∧ last (logs run.2) = Some (mkLog LvlError wf text (Some msg)).
Proof.
  intros Hb run. subst run. unfold try_catch.
  destruct (body w) as [[a|e] w1] eqn:Hrun;
    unfold mbind, M_bind, logger_error, write_log, mret, M_ret; cbn; intros Href.
  - by pose proof (tracks_refused _ _ _ _ _ Hb Hrun Href).
  - assert (refused_within w w1 msg) as Href' by exact Href.
    pose proof (tracks_refused _ _ _ _ _ Hb Hrun Href') as [= ->].
    cbn. by rewrite last_snoc.
Qed.

Lemma tracks_recommend_loop zone priority days meds : ∀ recs,
  tracks (recommend_loop zone priority days meds recs).
Proof.
  induction meds as [|[mid m] meds IH]; intros recs; cbn [recommend_loop].
  - tracks_auto.
  - unfold Transaction_find_demand. tracks_auto; apply IH.
Qed.

(** X7.  When the driver refuses a database call during
    [validatePrescription], [dispensePrescription], [getDemandTrends] or
    [getReorderRecommendations], the handler does not throw: it logs the
    error and answers 500.  Validation and the two analytics handlers answer
    with their fixed messages; dispensing answers with the driver's own
    message. *)
Theorem handlers_answer_500_on_refusal msg :
  (∀ id notes user w,
     refused_within w (validatePrescription id notes user w).2 msg →
     (validatePrescription id notes user w).1
     = Ret (Response.mk 500 false "Error validating prescription. Please try again." [] None [])
     ∧ last (logs (validatePrescription id notes user w).2)
       = Some (mkLog LvlError "prescription" "Error validating prescription:" (Some msg)))
  ∧ (∀ id user w,
     refused_within w (dispensePrescription id user w).2 msg →
     (dispensePrescription id user w).1 = Ret (Response.mk 500 false msg [] None [])
     ∧ last (logs (dispensePrescription id user w).2)
       = Some (mkLog LvlError "prescription" "Error dispensing prescription:" (Some msg)))
  ∧ (∀ zone id days w,
     refused_within w (getDemandTrends zone id days w).2 msg →
     (getDemandTrends zone id days w).1
     = Ret (TrendsFailure 500 "Error fetching demand trends. Please try again.")
     ∧ last (logs (getDemandTrends zone id days w).2)
       = Some (mkLog LvlError "analytics" "Error fetching demand trends:" (Some msg)))
  ∧ (∀ zone priority days w,
     refused_within w (getReorderRecommendations zone priority days w).2 msg →
     (getReorderRecommendations zone priority days w).1
     = Ret (RecommendationsFailure 500 "Error generating reorder recommendations. Please try again.")
     ∧ last (logs (getReorderRecommendations zone priority days w).2)
       = Some (mkLog LvlError "analytics" "Error generating reorder recommendations:" (Some msg))).
Proof.
  split; [|split; [|split]].
  - intros id notes user w.
    apply (answered_on_refusal _
             (λ _, Response.mk 500 false "Error validating prescription. Please try again." [] None [])).
    unfold Prescription_findById, Prescription_findByIdAndUpdate.
    tracks_auto. apply tracks_validate_items.
  - intros id user w.
    apply (answered_on_refusal _ (λ e, Response.mk 500 false (message e) [] None [])).
    unfold Prescription_findById, Prescription_findByIdAndUpdate.
    tracks_auto. apply tracks_dispense_items.
  - intros zone id days w.
    apply (answered_on_refusal _
             (λ _, TrendsFailure 500 "Error fetching demand trends. Please try again.")).
    unfold Transaction_find_demand_sorted, Medicine_findById.
    tracks_auto.
  - intros zone priority days w.
    apply (answered_on_refusal _
             (λ _, RecommendationsFailure 500
                     "Error generating reorder recommendations. Please try again.")).
    unfold Medicine_find_active. tracks_auto. apply tracks_recommend_loop.
Qed.

Lemma handlers_answer_500_on_refusal_witness :
  (dispensePrescription (AnObjectId 7%nat) 9%nat
     (set_faults [None; Some "socket closed"] (pharmacy_rx rx_validated 5))).1
  = Ret (Response.mk 500 false "socket closed" [] None []).
Proof.
  apply (proj1 (proj2 (handlers_answer_500_on_refusal "socket closed"))
           (AnObjectId 7%nat) 9%nat
           (set_faults [None; Some "socket closed"] (pharmacy_rx rx_validated 5))).
  exists 1%nat. reflexivity.
Defined.

(** ** The reorder service on a working database *)

Lemma approve_run w id user r :
  faults w = [] → find_by_id id (reorderRequests w) = Some r →
  ∃ ls,
    approveReorderRequest id user w
    = (Ret tt, mkWorld (medicines w) (prescriptions w)
                 (update_by_id id (approved_update user (clock w)) (reorderRequests w))
                 (transactions w) (logs w ++ ls) (clock w) []).
Proof.
  intros Hf Hr. destruct w as [meds rxs reqs txs lg ck fs].
  cbn [faults reorderRequests medicines] in *; subst fs.
  unfold approveReorderRequest. unfold_run.
  cbn -[find_by_id update_by_id]. rewrite Hr. cbn -[update_by_id].
  unfold_world. eexists. reflexivity.
Qed.

Lemma ordered_run w id r :
  faults w = [] → find_by_id id (reorderRequests w) = Some r →
  ∃ ls,
    markReorderRequestAsOrdered id w
    = (Ret tt, mkWorld (medicines w) (prescriptions w)
                 (update_by_id id (ordered_update (clock w)) (reorderRequests w))
                 (transactions w) (logs w ++ ls) (clock w) []).
Proof.
  intros Hf Hr. destruct w as [meds rxs reqs txs lg ck fs].
  cbn [faults reorderRequests medicines] in *; subst fs.
  unfold markReorderRequestAsOrdered. unfold_run.
  cbn -[find_by_id update_by_id]. rewrite Hr. cbn -[update_by_id].
  unfold_world. eexists. reflexivity.
Qed.







(** ** Prescriptions on a working database *)


(** X10.  A prescription is validated at most once: on a working database,
    validating a prescription that is not pending (already validated,
    rejected, dispensed or expired) answers 400 with a message naming its
    state, and leaves the whole world, log included, as it was.  In
    particular a rejected prescription stays rejected however the stock has
    changed since. *)
Theorem validate_only_pending w id p notes user :
  faults w = [] → prescriptions w !! id = Some p →
  Prescription.status p ≠ RxPENDING →
  validatePrescription (AnObjectId id) notes user w
  = (Ret (Response.mk 400 false
            ("Prescription is already " +:+ PrescriptionStatus_string (Prescription.status p))
            [] None []), w).
Proof.
  intros Hf Hp Hst.
  unfold validatePrescription, try_catch.
  rewrite run_bind. unfold Prescription_findById. rewrite db_call_ok by done.
  rewrite Hp. by rewrite bool_decide_eq_false_2 by done.
Qed.

Lemma validate_only_pending_witness :
  (validatePrescription (AnObjectId 7%nat) None 9%nat (pharmacy_rx rx_validated 5)).1
  = Ret (Response.mk 400 false "Prescription is already validated" [] None []).
Proof.
  by rewrite (validate_only_pending (pharmacy_rx rx_validated 5) 7%nat rx_validated None 9%nat
                eq_refl eq_refl ltac:(discriminate)).
Defined.

(** X11.  Both handlers turn a bad identifier away before they touch
    anything.  An [:id] that is not an ObjectId is answered 400 without a
    single database call, so whatever the driver would have done; an
    identifier of no prescription is answered 404 on a working database.  In
    both cases the world, log included, is as it was. *)
Theorem handlers_reject_bad_ids notes user w :
  validatePrescription NotAnObjectId notes user w
  = (Ret (Response.mk 400 false "Invalid prescription ID" [] None []), w)
  ∧ dispensePrescription NotAnObjectId user w
    = (Ret (Response.mk 400 false "Invalid prescription ID" [] None []), w)
  ∧ ∀ id, faults w = [] → prescriptions w !! id = None →
      validatePrescription (AnObjectId id) notes user w
      = (Ret (Response.mk 404 false "Prescription not found" [] None []), w)
      ∧ dispensePrescription (AnObjectId id) user w
        = (Ret (Response.mk 404 false "Prescription not found" [] None []), w).
Proof.
  split; [done|]. split; [done|]. intros id Hf Hp. split.
  - unfold validatePrescription, try_catch.
    rewrite run_bind. unfold Prescription_findById. rewrite db_call_ok by done. by rewrite Hp.
  - unfold dispensePrescription, try_catch.
    rewrite run_bind. unfold Prescription_findById. rewrite db_call_ok by done. by rewrite Hp.
Qed.

Lemma handlers_reject_bad_ids_witness :
  (dispensePrescription (AnObjectId 8%nat) 9%nat (pharmacy_rx rx_validated 5)).1
  = Ret (Response.mk 404 false "Prescription not found" [] None []).
Proof.
  destruct (handlers_reject_bad_ids None 9%nat (pharmacy_rx rx_validated 5)) as (_ & _ & H).
  destruct (H 8%nat eq_refl eq_refl) as [_ ->]. reflexivity.
Defined.






(** ** The daily breakdown of the demand trend *)










(** ** What a dispense shows in the demand trend *)





(** ** The handlers of the reorder requests *)

Lemma try_catch_answers {A} (body : M A) (handler : JsError → M A) w :
  (∀ e w', ∃ a, (handler e w').1 = Ret a) →
  ∃ a, (try_catch body handler w).1 = Ret a.
Proof.
  intros Hh. unfold try_catch. destruct (body w) as [[a|e] w1]; [by exists a|apply Hh].
Qed.

(** X16.  No handler lets an exception escape: whatever the request, the
    state and the behaviour of the driver, each handler ends with an answer,
    and so does the sweep, which the scheduler awaits without a [catch] of
    its own. *)
Theorem handlers_never_throw w :
  (∀ id notes user, ∃ resp, (validatePrescription id notes user w).1 = Ret resp)
  ∧ (∀ id user, ∃ resp, (dispensePrescription id user w).1 = Ret resp)
  ∧ (∀ zone id days, ∃ resp, (getDemandTrends zone id days w).1 = Ret resp)
  ∧ (∀ zone priority days, ∃ resp, (getReorderRecommendations zone priority days w).1 = Ret resp)
  ∧ (∀ id user, ∃ resp, (approveRequest id user w).1 = Ret resp)
  ∧ (∀ id, ∃ resp, (markAsOrdered id w).1 = Ret resp)
  ∧ (∀ id rq, ∃ resp, (markAsReceived id rq w).1 = Ret resp)
  ∧ (∀ id, ∃ resp, (deleteMedicine id w).1 = Ret resp)
  ∧ (checkAndCreateReorderRequests w).1 = Ret tt.
Proof.
  repeat split; intros; try (apply try_catch_answers; intros e w'; by eexists).
  apply sweep_returns.
Qed.

Lemma approveRequest_missing w id user :
  faults w = [] → find_by_id id (reorderRequests w) = None →
  approveRequest (AnObjectId id) user w
  = (Ret (Reply.mk 500 false "Reorder request not found"),
     set_logs (λ ls, ls ++ [mkLog LvlError "reordering" "Error approving reorder request:"
                              (Some "Reorder request not found");
                            mkLog LvlError "reordering" "Error approving reorder request:"
                              (Some "Reorder request not found")]) w).
Proof.
  intros Hf Hr. destruct w as [meds rxs reqs txs lg ck fs].
  cbn [faults reorderRequests] in *; subst fs.
  unfold approveRequest, approveReorderRequest. unfold_run.
  cbn -[find_by_id update_by_id]. rewrite Hr. cbn -[update_by_id].
  unfold_world. rewrite update_by_id_missing by done. by rewrite <- app_assoc.
Qed.

Lemma markAsOrdered_missing w id :
  faults w = [] → find_by_id id (reorderRequests w) = None →
  markAsOrdered (AnObjectId id) w
  = (Ret (Reply.mk 500 false "Reorder request not found"),
     set_logs (λ ls, ls ++ [mkLog LvlError "reordering" "Error marking reorder request as ordered:"
                              (Some "Reorder request not found");
                            mkLog LvlError "reordering" "Error marking reorder request as ordered:"
                              (Some "Reorder request not found")]) w).
Proof.
  intros Hf Hr. destruct w as [meds rxs reqs txs lg ck fs].
  cbn [faults reorderRequests] in *; subst fs.
  unfold markAsOrdered, markReorderRequestAsOrdered. unfold_run.
  cbn -[find_by_id update_by_id]. rewrite Hr. cbn -[update_by_id].
  unfold_world. rewrite update_by_id_missing by done. by rewrite <- app_assoc.
Qed.

Lemma markAsReceived_missing w id rq :
  faults w = [] → find_by_id id (reorderRequests w) = None →
  markAsReceived (AnObjectId id) rq w
  = (Ret (Reply.mk 500 false "Reorder request not found"),
     set_logs (λ ls, ls ++ [mkLog LvlError "reordering" "Error marking reorder request as received:"
                              (Some "Reorder request not found");
                            mkLog LvlError "reordering" "Error marking reorder request as received:"
                              (Some "Reorder request not found")]) w).
Proof.
  intros Hf Hr. destruct w as [meds rxs reqs txs lg ck fs].
  cbn [faults reorderRequests] in *; subst fs.
  unfold markAsReceived, markReorderRequestAsReceived. unfold_run.
  cbn -[find_by_id]. rewrite Hr. cbn. unfold_world. by rewrite <- app_assoc.
Qed.

(** X17.  A reorder request that does not exist is not answered 404: on a
    working database each of the three handlers answers 500 with the message
    [Reorder request not found], the error is logged twice (by the service and
    by the handler), and nothing but the log changes.  An [:id] that is not an
    ObjectId is answered 400 before any database call. *)
Theorem reorder_handlers_on_missing_request w id user rq :
  let twice text := [mkLog LvlError "reordering" text (Some "Reorder request not found");
                     mkLog LvlError "reordering" text (Some "Reorder request not found")] in
  (faults w = [] → find_by_id id (reorderRequests w) = None →
   approveRequest (AnObjectId id) user w
   = (Ret (Reply.mk 500 false "Reorder request not found"),
      set_logs (λ ls, ls ++ twice "Error approving reorder request:") w)
   ∧ markAsOrdered (AnObjectId id) w
     = (Ret (Reply.mk 500 false "Reorder request not found"),
        set_logs (λ ls, ls ++ twice "Error marking reorder request as ordered:") w)
   ∧ markAsReceived (AnObjectId id) rq w
     = (Ret (Reply.mk 500 false "Reorder request not found"),
        set_logs (λ ls, ls ++ twice "Error marking reorder request as received:") w))
  ∧ approveRequest NotAnObjectId user w = (Ret (Reply.mk 400 false "Invalid reorder request ID"), w)
  ∧ markAsOrdered NotAnObjectId w = (Ret (Reply.mk 400 false "Invalid reorder request ID"), w)
  ∧ markAsReceived NotAnObjectId rq w = (Ret (Reply.mk 400 false "Invalid reorder request ID"), w).
Proof.
  cbv zeta. split; [|done]. intros Hf Hr.
  split; [by apply approveRequest_missing|].
  split; [by apply markAsOrdered_missing|by apply markAsReceived_missing].
Qed.

Lemma reorder_handlers_on_missing_request_witness :
  (approveRequest (AnObjectId 2%nat) 9%nat pharmacy).1
  = Ret (Reply.mk 500 false "Reorder request not found").
Proof.
  destruct (reorder_handlers_on_missing_request pharmacy 2%nat 9%nat None) as [H _].
  destruct (H eq_refl eq_refl) as [-> _]. reflexivity.
Defined.

Lemma tracks_approveReorderRequest id user : tracks (approveReorderRequest id user).
Proof. unfold approveReorderRequest, ReorderRequest_findByIdAndUpdate. tracks_auto. Qed.

Lemma tracks_markReorderRequestAsOrdered id : tracks (markReorderRequestAsOrdered id).
Proof. unfold markReorderRequestAsOrdered, ReorderRequest_findByIdAndUpdate. tracks_auto. Qed.

Lemma tracks_markReorderRequestAsReceived id rq : tracks (markReorderRequestAsReceived id rq).
Proof.
  unfold markReorderRequestAsReceived, ReorderRequest_findByIdAndUpdate, ReorderRequest_findById,
    Medicine_findById, Medicine_findByIdAndUpdate.
  tracks_auto.
Qed.

(** X18.  When the driver refuses a database call of the reorder service,
    the handler answers 500 and its message is the driver's own error
    message, passed on to the client as it is. *)
Theorem reorder_handlers_pass_on_driver_message msg :
  (∀ id user w,
     refused_within w (approveRequest id user w).2 msg →
     (approveRequest id user w).1 = Ret (Reply.mk 500 false msg))
  ∧ (∀ id w,
     refused_within w (markAsOrdered id w).2 msg →
     (markAsOrdered id w).1 = Ret (Reply.mk 500 false msg))
  ∧ (∀ id rq w,
     refused_within w (markAsReceived id rq w).2 msg →
     (markAsReceived id rq w).1 = Ret (Reply.mk 500 false msg)).
Proof.
  split; [|split].
  - intros id user w Href.
    apply (answered_on_refusal _ (λ e, Reply.mk 500 false (message e))); [|done].
    destruct id; tracks_auto. apply tracks_approveReorderRequest.
  - intros id w Href.
    apply (answered_on_refusal _ (λ e, Reply.mk 500 false (message e))); [|done].
    destruct id; tracks_auto. apply tracks_markReorderRequestAsOrdered.
  - intros id rq w Href.
    apply (answered_on_refusal _ (λ e, Reply.mk 500 false (message e))); [|done].
    destruct id; tracks_auto. apply tracks_markReorderRequestAsReceived.
Qed.

Lemma reorder_handlers_pass_on_driver_message_witness :
  (markAsReceived (AnObjectId 1%nat) None
     (set_faults [None; Some "E11000 duplicate key"] pharmacy)).1
  = Ret (Reply.mk 500 false "E11000 duplicate key").
Proof.
  apply (proj2 (proj2 (reorder_handlers_pass_on_driver_message "E11000 duplicate key"))
           (AnObjectId 1%nat) None (set_faults [None; Some "E11000 duplicate key"] pharmacy)).
  exists 1%nat. reflexivity.
Defined.

(** ** Deleting a medicine *)

Lemma delete_run w id m :
  faults w = [] → medicines w !! id = Some m →
  deleteMedicine (AnObjectId id) w
  = (Ret (Reply.mk 200 true "Medicine deleted successfully"),
     mkWorld (alter deactivate id (medicines w)) (prescriptions w) (reorderRequests w)
       (transactions w) (logs w ++ [mkLog LvlInfo "inventory" "Medicine deleted" None])
       (clock w) []).
Proof.
  intros Hf Hm. destruct w as [meds rxs reqs txs lg ck fs].
  cbn [faults medicines] in *; subst fs.
  unfold deleteMedicine, Medicine_findByIdAndUpdate_new, logInventory. unfold_run.
  cbn -[alter lookup]. rewrite Hm. reflexivity.
Qed.

Lemma medicine_ok_deactivate m : medicine_ok (deactivate m) = medicine_ok m.
Proof. reflexivity. Qed.

(** X19.  Deleting a medicine is a soft delete.  On a working database the
    handler answers 200 and keeps the record, with [isActive] false and every
    other field as it was; nothing else changes.  A second delete answers 200
    again.  From then on the sweep creates no reorder request for the
    medicine, however low its stock. *)
Theorem delete_is_soft w id m :
  faults w = [] → schema_valid w = true → medicines w !! id = Some m →
  let run := deleteMedicine (AnObjectId id) w in
  run.1 = Ret (Reply.mk 200 true "Medicine deleted successfully")
  ∧ medicines run.2 = <[id := deactivate m]> (medicines w)
  ∧ prescriptions run.2 = prescriptions w
  ∧ reorderRequests run.2 = reorderRequests w
  ∧ transactions run.2 = transactions w
  ∧ (deleteMedicine (AnObjectId id) run.2).1
    = Ret (Reply.mk 200 true "Medicine deleted successfully")
  ∧ ∃ old created,
      reorderRequests (checkAndCreateReorderRequests run.2).2 = old ++ created
      ∧ Forall2 same_but_stock (reorderRequests w) old
      ∧ ∀ r, r ∈ created → ReorderRequest.medicineId r ≠ id.
Proof.
  intros Hf Hok Hm. cbv zeta. rewrite (delete_run w id m Hf Hm). cbn [fst snd].
  set (w1 := mkWorld _ _ _ _ _ _ _).
  assert (medicines w1 = <[id := deactivate m]> (medicines w)) as Hmeds.
  { cbn. apply map_eq. intros mid. destruct (decide (mid = id)) as [->|Hne].
    - by rewrite lookup_alter_eq, lookup_insert_eq, Hm.
    - by rewrite lookup_alter_ne, lookup_insert_ne. }
  assert (medicines w1 !! id = Some (deactivate m)) as Hm1.
  { by rewrite Hmeds, lookup_insert_eq. }
  split; [done|]. split; [done|]. do 3 (split; [done|]).
  split; [by rewrite (delete_run w1 id (deactivate m) eq_refl Hm1)|].
  assert (schema_valid w1 = true) as Hok1.
  { apply schema_valid_spec. intros mid m' Hm'. rewrite Hmeds in Hm'.
    destruct (decide (mid = id)) as [->|Hne].
    - rewrite lookup_insert_eq in Hm'. injection Hm' as <-.
      rewrite medicine_ok_deactivate. by eapply schema_valid_lookup.
    - rewrite lookup_insert_ne in Hm' by done. by eapply schema_valid_lookup. }
  destruct (sweep_created w1 eq_refl Hok1) as (old & created & Hreqs & _ & _ & Hold & _ & _ & Hinv).
  exists old, created. split; [done|]. split; [done|].
  intros r Hr Hmid. destruct (Hinv r Hr) as (m' & Hm' & [Hact _]%andb_true_iff & _).
  rewrite Hmid, Hm1 in Hm'. by injection Hm' as <-.
Qed.

(** The example medicine stays on record, inactive. *)
Lemma delete_is_soft_witness :
  Medicine.isActive <$> medicines (deleteMedicine (AnObjectId 1%nat) pharmacy_low).2 !! 1%nat
  = Some false.
Proof.
  destruct (delete_is_soft pharmacy_low 1%nat amoxicillin eq_refl eq_refl eq_refl)
    as (_ & H & _).
  cbv zeta in H. rewrite H. reflexivity.
Defined.

Lemma validate_run_rejected w id p notes user e es :
  faults w = [] → prescriptions w !! id = Some p →
  Prescription.status p = RxPENDING →
  omap (item_error (medicines w) (clock w)) (Prescription.items p) = e :: es →
  ∃ ls,
    validatePrescription (AnObjectId id) notes user w
    = (Ret (Response.mk 400 false "Prescription validation failed" (e :: es) None []),
       mkWorld (medicines w)
         (alter (rejected_update user (clock w) (e :: es)) id (prescriptions w))
         (reorderRequests w) (transactions w) (logs w ++ ls) (clock w) []).
Proof.
  intros Hf Hp Hst Herrs.
  destruct (validate_items_run (clock w) (Prescription.items p) [] w Hf) as [ls Hloop].
  cbn [app] in Hloop. rewrite Herrs in Hloop.
  unfold validatePrescription, try_catch.
  rewrite run_bind. unfold Prescription_findById at 1. rewrite db_call_ok by done.
  rewrite Hp, Hst. rewrite bool_decide_eq_true_2 by done.
  cbn [negb]. rewrite run_bind. unfold new_Date at 1.
  rewrite run_bind, Hloop. cbn [length Nat.ltb Nat.leb].
  unfold_run. cbn -[alter lookup join]. unfold_world.
  rewrite <- !app_assoc. eexists. reflexivity.
Qed.

(** X20.  A deleted medicine can no longer be prescribed: on a working
    database, once a medicine is deleted, validating a pending prescription
    that has an item of it answers 400, lists [Medicine <name> is not
    available] among the errors and leaves the prescription [rejected]. *)
Theorem deleted_medicine_fails_validation w id p item m notes user :
  faults w = [] → prescriptions w !! id = Some p →
  Prescription.status p = RxPENDING → item ∈ Prescription.items p →
  medicines w !! PrescriptionItem.medicineId item = Some m →
  let deleted := (deleteMedicine (AnObjectId (PrescriptionItem.medicineId item)) w).2 in
  let run := validatePrescription (AnObjectId id) notes user deleted in
  ∃ resp,
    run.1 = Ret resp ∧ Response.code resp = 400
    ∧ "Medicine " +:+ PrescriptionItem.medicineName item +:+ " is not available"
      ∈ Response.errors resp
    ∧ Prescription.status <$> prescriptions run.2 !! id = Some RxREJECTED.
Proof.
  intros Hf Hp Hst Hin Hm. cbv zeta. rewrite (delete_run w _ m Hf Hm). cbn [snd].
  set (w1 := mkWorld _ _ _ _ _ _ _).
  assert ("Medicine " +:+ PrescriptionItem.medicineName item +:+ " is not available"
          ∈ omap (item_error (medicines w1) (clock w1)) (Prescription.items p)) as Herr.
  { apply list_elem_of_omap. exists item. split; [done|].
    unfold item_error. cbn [medicines w1]. by rewrite lookup_alter_eq, Hm. }
  destruct (omap (item_error (medicines w1) (clock w1)) (Prescription.items p)) as [|e es] eqn:Herrs.
  { by apply elem_of_nil in Herr. }
  destruct (validate_run_rejected w1 id p notes user e es eq_refl Hp Hst Herrs) as [ls ->].
  eexists. split; [done|]. split; [done|]. split; [done|].
  cbn [snd prescriptions]. rewrite lookup_alter_eq.
  change (prescriptions w1) with (prescriptions w). by rewrite Hp.
Qed.

Lemma deleted_medicine_fails_validation_witness :
  Prescription.status
    <$> prescriptions
          (validatePrescription (AnObjectId 7%nat) None 9%nat
             (deleteMedicine (AnObjectId 1%nat) (pharmacy_rx rx_three 5)).2).2 !! 7%nat
  = Some RxREJECTED.
Proof.
  assert (PrescriptionItem.mk 1%nat "Amoxicillin" 3 ∈ Prescription.items rx_three) as Hin
    by (by left).
  destruct (deleted_medicine_fails_validation (pharmacy_rx rx_three 5) 7%nat rx_three
              (PrescriptionItem.mk 1%nat "Amoxicillin" 3) (Medicine.set_quantity 5 amoxicillin)
              None 9%nat eq_refl eq_refl eq_refl Hin eq_refl) as (resp & _ & _ & _ & H).
  exact H.
Defined.






(** ** The reorder recommendations *)

Lemma foldl_total l : ∀ acc,
  foldl (λ sum t, js_add sum (js_of_Z (Transaction.quantity t))) acc l
  = js_sum_from acc (Transaction.quantity <$> l).
Proof. induction l as [|t l IH]; intros acc; cbn; [done|]. by rewrite IH. Qed.

Lemma recommend_loop_run zone priority days start meds : ∀ acc w,
  faults w = [] → setDate_back zone (clock w) days = Some start →
  recommend_loop zone priority days meds acc w
  = (Ret (acc ++ omap (recommend priority w days start) meds), w).
Proof.
  induction meds as [|[mid m] meds IH]; intros acc w Hf Hstart.
  - cbn. by rewrite app_nil_r.
  - cbn [recommend_loop omap list_omap].
    rewrite run_bind. unfold new_Date at 1. rewrite !run_bind. unfold new_Date at 1.
    unfold mret at 1, M_ret at 1. rewrite Hstart, run_bind.
    unfold Transaction_find_demand. rewrite db_call_ok by done.
    fold (demand_window w mid start). cbv zeta.
    rewrite foldl_total.
    fold (js_sum (Transaction.quantity <$> demand_window w mid start)).
    unfold recommend. cbn [fst snd]. unfold isLowStock.
    destruct (js_is_pos _ && _).
    + rewrite IH by done. by rewrite <- app_assoc.
    + by rewrite IH.
Qed.

Lemma recommendations_run zone priority days start w :
  faults w = [] → setDate_back zone (clock w) days = Some start →
  getReorderRecommendations zone priority days w
  = (Ret (RecommendationsOk
            (sort compare_recommendations
               (omap (recommend priority w days start) (active_medicines w)))
            (clock w)),
     set_logs (λ ls, ls ++ [mkLog LvlInfo "analytics" "Reorder recommendations generated" None]) w).
Proof.
  intros Hf Hstart. unfold getReorderRecommendations, try_catch.
  rewrite run_bind. unfold Medicine_find_active. rewrite db_call_ok by done.
  fold (active_medicines w).
  rewrite run_bind, (recommend_loop_run _ _ _ start) by done. reflexivity.
Qed.


(** *** The sort *)






Lemma recommend_medicineId priority w days start d r :
  recommend priority w days start d = Some r → Recommendation.medicineId r = d.1.
Proof. unfold recommend. destruct (_ && _); [|done]. by intros [= <-]. Qed.


Lemma recommended_iff priority days start w r :
  r ∈ sort compare_recommendations (omap (recommend priority w days start) (active_medicines w)) ↔
  ∃ m, medicines w !! Recommendation.medicineId r = Some m
       ∧ Medicine.isActive m = true
       ∧ recommend priority w days start (Recommendation.medicineId r, m) = Some r.
Proof.
  rewrite sort_perm, list_elem_of_omap. split.
  - intros ([mid m] & Hd & Hr). pose proof (recommend_medicineId _ _ _ _ _ _ Hr) as Hid.
    cbn in Hid. subst mid. apply elem_of_active_medicines in Hd as [Hm Hact]. by exists m.
  - intros (m & Hm & Hact & Hr). exists (Recommendation.medicineId r, m).
    split; [by apply elem_of_active_medicines|done].
Qed.

(** The entry of a medicine in the answer, if there is one, is the
    recommendation of that medicine. *)
Lemma recommended_of priority days start w mid m r :
  medicines w !! mid = Some m →
  r ∈ sort compare_recommendations (omap (recommend priority w days start) (active_medicines w)) →
  Recommendation.medicineId r = mid →
  recommend priority w days start (mid, m) = Some r.
Proof.
  intros Hm (m' & Hm' & _ & Hr)%recommended_iff Hid. rewrite Hid, Hm in Hm'.
  injection Hm' as <-. by rewrite Hid in Hr.
Qed.



(** *** A medicine without demand, and one without stock *)

(** What [recommend] returns for an active medicine is in the answer. *)
Lemma recommended_listed priority days start w mid m r :
  medicines w !! mid = Some m → Medicine.isActive m = true →
  recommend priority w days start (mid, m) = Some r →
  r ∈ sort compare_recommendations (omap (recommend priority w days start) (active_medicines w)).
Proof.
  intros Hm Hact Hr. apply recommended_iff.
  pose proof (recommend_medicineId _ _ _ _ _ _ Hr) as Hid. cbn in Hid.
  exists m. by rewrite Hid.
Qed.

(** The recommendation for a medicine without demand, over a number of days
    and for a threshold that are integers below 2^53. *)
Lemma recommend_idle priority w n start mid m :
  n ≠ 0 → Z.abs n < 2 ^ 53 → Z.abs (Medicine.reorderThreshold m) < 2 ^ 53 →
  demand_window w mid start = [] →
  recommend priority w (Int n) start (mid, m)
  = if isLowStock m && (0 <? Medicine.reorderThreshold m)
    then Some (Recommendation.mk mid (Medicine.name m) (Medicine.quantity m)
                 (Medicine.reorderThreshold m) (S754_zero (n <? 0)) (S754_zero (n <? 0))
                 (js_of_Z (Medicine.reorderThreshold m)) (js_of_Z 999)
                 Level.low (priority mid))
    else None.
Proof.
  intros Hn Hsafe Hthr Hidle. unfold recommend. cbn [fst snd js_number]. rewrite Hidle.
  change (js_sum (Transaction.quantity <$> [])) with (S754_zero false).
  destruct (js_of_Z_safe n Hn Hsafe) as (mn & en & -> & _).
  change (js_div (S754_zero false) (S754_finite (n <? 0) mn en)) with (S754_zero (n <? 0)).
  assert (js_mul (S754_zero (n <? 0)) (js_of_Z 30) = S754_zero (n <? 0)) as ->
    by (by destruct (n <? 0)).
  assert (js_is_pos (S754_zero (n <? 0)) = false) as -> by (by destruct (n <? 0)).
  change (js_le (js_of_Z 999) (js_of_Z 60)) with false. rewrite orb_false_r.
  change (urgency_of (js_of_Z 999)) with Level.low.
  destruct (Z.eq_dec (Medicine.reorderThreshold m) 0) as [Hz|Hnz].
  - rewrite Hz.
    assert (js_is_pos (js_ceil (js_add (S754_zero (n <? 0)) (js_of_Z 0))) = false) as ->
      by (by destruct (n <? 0)).
    by rewrite andb_false_r.
  - destruct (js_of_Z_safe _ Hnz Hthr) as (mt & et & Ht & Hint). rewrite Ht.
    assert (js_add (S754_zero (n <? 0)) (S754_finite (Medicine.reorderThreshold m <? 0) mt et)
            = S754_finite (Medicine.reorderThreshold m <? 0) mt et) as -> by done.
    rewrite (js_ceil_integral _ Hint).
    assert (js_is_pos (S754_finite (Medicine.reorderThreshold m <? 0) mt et)
            = (0 <? Medicine.reorderThreshold m)) as ->.
    { destruct (Z.ltb_spec (Medicine.reorderThreshold m) 0), (Z.ltb_spec 0 (Medicine.reorderThreshold m));
        (done || lia). }
    by rewrite andb_comm.
Qed.

(** X23.  A medicine nobody bought is never urgent.  On a working database,
    for a window that starts at a valid date and an active medicine without
    any sale or dispense in it, an entry of the medicine in the
    recommendations gives 999 days until stock-out and the urgency [low],
    even when the stock is zero, and there is an entry only when the stock is
    at or below the threshold.  When the number of days is an integer other
    than 0 and the threshold an integer, both below 2^53 in size, there is an
    entry exactly when the stock is at or below a threshold that is positive,
    and the entry says to reorder the threshold quantity. *)
Theorem idle_medicine_is_low_urgency zone priority w mid m days start :
  faults w = [] → setDate_back zone (clock w) days = Some start →
  medicines w !! mid = Some m → Medicine.isActive m = true →
  demand_window w mid start = [] →
  ∃ recs generatedAt,
    (getReorderRecommendations zone priority days w).1 = Ret (RecommendationsOk recs generatedAt)
    ∧ (∀ r, r ∈ recs → Recommendation.medicineId r = mid →
         isLowStock m = true
         ∧ Recommendation.currentStock r = Medicine.quantity m
         ∧ Recommendation.daysUntilStockout r = js_of_Z 999
         ∧ Recommendation.urgency r = Level.low)
    ∧ (∀ n, days = Int n → n ≠ 0 → Z.abs n < 2 ^ 53 →
         Z.abs (Medicine.reorderThreshold m) < 2 ^ 53 →
         if isLowStock m && (0 <? Medicine.reorderThreshold m)
         then ∃ r, r ∈ recs
                   ∧ Recommendation.medicineId r = mid
                   ∧ Recommendation.recommendedQuantity r = js_of_Z (Medicine.reorderThreshold m)
         else ∀ r, r ∈ recs → Recommendation.medicineId r ≠ mid).
Proof.
  intros Hf Hstart Hm Hact Hidle.
  rewrite (recommendations_run zone priority days start w Hf Hstart). cbn [fst].
  eexists _, _. split; [done|]. split.
  - intros r Hr Hid.
    pose proof (recommended_of priority days start w mid m r Hm Hr Hid) as Hrec.
    unfold recommend in Hrec. cbn [fst snd] in Hrec. rewrite Hidle in Hrec.
    change (js_sum (Transaction.quantity <$> [])) with (js_of_Z 0) in Hrec.
    rewrite zero_average_not_positive in Hrec.
    change (js_le (js_of_Z 999) (js_of_Z 60)) with false in Hrec.
    rewrite orb_false_r in Hrec.
    destruct (isLowStock m); [|by rewrite andb_false_r in Hrec].
    destruct (js_is_pos _); [|done]. by injection Hrec as <-.
  - intros n -> Hn Hsafe Hthr.
    pose proof (recommend_idle priority w n start mid m Hn Hsafe Hthr Hidle) as Hrec.
    destruct (isLowStock m && (0 <? Medicine.reorderThreshold m)).
    + eexists. split; [by eapply recommended_listed|]. done.
    + intros r Hr Hid.
      pose proof (recommended_of priority (Int n) start w mid m r Hm Hr Hid). congruence.
Qed.

(** The example medicine, 5 in stock under a threshold of 10 and never sold:
    recommended, with urgency [low]. *)
Lemma idle_medicine_is_low_urgency_witness :
  ∃ recs generatedAt r,
    (getReorderRecommendations utc (λ _, Level.critical) (Int 30) pharmacy_low).1
    = Ret (RecommendationsOk recs generatedAt)
    ∧ r ∈ recs ∧ Recommendation.medicineId r = 1%nat
    ∧ Recommendation.recommendedQuantity r = js_of_Z 10
    ∧ Recommendation.urgency r = Level.low.
Proof.
  destruct (idle_medicine_is_low_urgency utc (λ _, Level.critical) pharmacy_low 1%nat amoxicillin
              (Int 30) (1700000000000 - 30 * MS_PER_DAY)
              eq_refl eq_refl eq_refl eq_refl eq_refl) as (recs & at_ & Hrun & Hlow & Hlisted).
  specialize (Hlisted 30 eq_refl ltac:(lia) ltac:(by vm_compute) ltac:(by vm_compute)).
  cbn in Hlisted. destruct Hlisted as (r & Hr & Hid & Hq).
  exists recs, at_, r. repeat split; try done. by apply (Hlow r Hr Hid).
Defined.

(** Nothing divided by an average above 0 is [+0]. *)
Lemma nothing_left (average : spec_float) :
  js_is_pos average = true → js_floor (js_div (js_of_Z 0) average) = js_of_Z 0.
Proof. by destruct average as [[]|[]| |[] ? ?]. Qed.

(** X24.  Out of stock and in demand is critical.  On a working database,
    for a window that starts at a valid date and an active medicine whose
    stock is 0 while its average daily demand over the window is above 0, an
    entry of the medicine in the recommendations gives 0 days until stock-out
    and the urgency [critical]. *)
Theorem out_of_stock_in_demand_is_critical zone priority w mid m days start :
  faults w = [] → setDate_back zone (clock w) days = Some start →
  medicines w !! mid = Some m → Medicine.isActive m = true →
  Medicine.quantity m = 0 →
  js_is_pos (js_div (js_sum (Transaction.quantity <$> demand_window w mid start))
               (js_number days)) = true →
  ∃ recs generatedAt,
    (getReorderRecommendations zone priority days w).1 = Ret (RecommendationsOk recs generatedAt)
    ∧ ∀ r, r ∈ recs → Recommendation.medicineId r = mid →
        Recommendation.currentStock r = 0
        ∧ Recommendation.daysUntilStockout r = js_of_Z 0
        ∧ Recommendation.urgency r = Level.critical.
Proof.
  intros Hf Hstart Hm Hact Hq Hdemand.
  rewrite (recommendations_run zone priority days start w Hf Hstart). cbn [fst].
  eexists _, _. split; [done|]. intros r Hr Hid.
  pose proof (recommended_of priority days start w mid m r Hm Hr Hid) as Hrec.
  unfold recommend in Hrec. cbn [fst snd] in Hrec.
  rewrite Hdemand, Hq, (nothing_left _ Hdemand) in Hrec.
  destruct (_ && _); [|done]. by injection Hrec as <-.
Qed.

(** The example pharmacy after its three units were dispensed: out of stock
    with a demand of three units in 30 days, and recommended as
    [critical]. *)
Lemma out_of_stock_in_demand_is_critical_witness :
  ∃ recs generatedAt r,
    (getReorderRecommendations utc (λ _, Level.high) (Int 30) pharmacy_sold_out).1
    = Ret (RecommendationsOk recs generatedAt)
    ∧ r ∈ recs ∧ Recommendation.medicineId r = 1%nat
    ∧ Recommendation.urgency r = Level.critical.
Proof.
  destruct (out_of_stock_in_demand_is_critical utc (λ _, Level.high) pharmacy_sold_out 1%nat
              (Medicine.set_quantity 0 amoxicillin) (Int 30) (1700000000000 - 30 * MS_PER_DAY)
              eq_refl eq_refl eq_refl eq_refl eq_refl ltac:(by vm_compute))
    as (recs & at_ & Hrun & H).
  pose proof Hrun as Hrecs. vm_compute in Hrecs. injection Hrecs as <- <-.
  eexists _, _, _. split; [exact Hrun|]. split; [by left|]. split; [done|].
  by apply H; [left|].
Defined.

(** ** What the sweep leaves behind *)

(** X25.  After a sweep on a working database with unique identifiers, every
    active medicine at or below its threshold has an open request, pending or
    approved, and the first such request in the collection, the one the next
    sweep would find, records the medicine's present quantity as its stock
    snapshot. *)
Theorem sweep_refreshes_snapshots w mid m :
  faults w = [] → schema_valid w = true → unique_ids w →
  medicines w !! mid = Some m → Medicine.isActive m = true → isLowStock m = true →
  ∃ r, List.find (open_for mid) (reorderRequests (checkAndCreateReorderRequests w).2) = Some r
       ∧ ReorderRequest.medicineId r = mid
       ∧ (ReorderRequest.status r = PENDING ∨ ReorderRequest.status r = APPROVED)
       ∧ ReorderRequest.currentStock r = Medicine.quantity m.
Proof.
  intros Hf Hok Hids Hm Hact Hlow.
  destruct (sweep_run w Hf Hok) as [ls ->]. cbn [snd reorderRequests].
  destruct (sweep_fold_settles (active_medicines w) (reorderRequests w)
              (NoDup_active_medicines w) Hids (mid, m)) as (r & Hfind & Hstock).
  { by apply elem_of_active_medicines. }
  { exact Hlow. }
  exists r. split; [done|]. apply find_some in Hfind as [_ Hopen].
  unfold open_for, is_open in Hopen. apply andb_true_iff in Hopen as [Hmid Hst].
  apply bool_decide_eq_true in Hmid, Hst. done.
Qed.

(** The pending request of the example pharmacy recorded a stock of 5; with 3
    in stock the sweep brings the snapshot to 3. *)
Lemma sweep_refreshes_snapshots_witness :
  ∃ r, List.find (open_for 1%nat)
         (reorderRequests (checkAndCreateReorderRequests pharmacy_stale).2) = Some r
       ∧ ReorderRequest.currentStock r = 3.
Proof.
  assert (unique_ids pharmacy_stale) as Hids by (apply (bool_decide_unpack _); by vm_compute).
  destruct (sweep_refreshes_snapshots pharmacy_stale 1%nat (Medicine.set_quantity 3 amoxicillin)
              eq_refl eq_refl Hids eq_refl eq_refl eq_refl)
    as (r & Hfind & _ & _ & Hstock).
  by exists r.
Defined.

(** ** Who may change what *)

Lemma substring_all s : String.substring 0 (String.length s) s = s.
Proof. induction s as [|a s IH]; cbn; [done|]. by rewrite IH. Qed.

Lemma bearer_prefix token : String.prefix "Bearer " ("Bearer " +:+ token) = true.
Proof. cbv [String.append]. cbn. by destruct token. Qed.

Lemma bearer_token token :
  String.substring 7 (String.length ("Bearer " +:+ token) - 7) ("Bearer " +:+ token) = token.
Proof. cbv [String.append]. cbn. rewrite Nat.sub_0_r. apply substring_all. Qed.

Lemma authenticate_signed_in req user w :
  faults w = [] → signed_in req user →
  authenticate req w = (Ret (inr user), authenticated w).
Proof.
  intros Hf (token & secret & Hheader & Htoken & Hsecret & Hsecret' & Hverify & Huser & Hactive).
  unfold authenticate, try_catch. rewrite Hheader, Hsecret.
  rewrite bearer_prefix, bearer_token. cbn [negb].
  rewrite (bool_decide_eq_false_2 (token = "")), (bool_decide_eq_false_2 (secret = "")) by done.
  rewrite run_bind, Hverify, run_bind.
  unfold User_findById. rewrite db_call_ok by done. rewrite Huser, Hactive.
  reflexivity.
Qed.

Lemma authenticate_no_header req w :
  Session.authorization req = None →
  authenticate req w
  = (Ret (inl (Reply.mk 401 false "Authentication required. Please provide a valid token.")),
     set_logs (λ ls, ls ++ [mkLog LvlInfo "authentication"
                              "Authentication failed: No token provided" None]) w).
Proof. intros Hheader. unfold authenticate, try_catch. by rewrite Hheader. Qed.

Lemma authorize_denied {A} roles user (next : M A) w :
  User.role user ∉ roles → authorize roles (Some user) next w = denied w.
Proof. intros Hr. unfold authorize. by rewrite bool_decide_eq_false_2. Qed.

Lemma authorize_granted {A} roles user (next : M A) w resp w' :
  User.role user ∈ roles → next (let_through w) = (Ret resp, w') →
  authorize roles (Some user) next w = (Ret (inr resp), w').
Proof.
  intros Hr Hnext. unfold authorize. rewrite bool_decide_eq_true_2 by done. cbn [negb].
  rewrite run_bind. unfold logAuth at 1, write_log at 1. rewrite run_bind.
  fold (let_through w). by rewrite Hnext.
Qed.

Lemma guarded_signed_in {A} req roles (handler : User.t → M A) user w :
  faults w = [] → signed_in req user →
  guarded req roles handler w = authorize roles (Some user) (handler user) (authenticated w).
Proof.
  intros Hf Hin. unfold guarded. by rewrite run_bind, (authenticate_signed_in req user w).
Qed.

Lemma guarded_no_header {A} req roles (handler : User.t → M A) w :
  Session.authorization req = None → guarded req roles handler w = unauthenticated w.
Proof.
  intros Hheader. unfold guarded. by rewrite run_bind, (authenticate_no_header req w).
Qed.

Lemma answers_run {A} (c : M A) w : (∃ a, (c w).1 = Ret a) → ∃ a w', c w = (Ret a, w').
Proof. intros [a Ha]. destruct (c w) as [res w']. cbn in Ha. subst. by exists a, w'. Qed.

(** X29.  A request without an [Authorization] header gets no further than
    [authenticate]: 401, one line of the log, and no database call, whatever
    the driver would have done.  On a working database, a signed-in user with
    the role [staff] can change neither a prescription nor a reorder request,
    and only an administrator can delete a medicine: the route reads the user
    and answers 403, and nothing changes but two lines of the log.  A
    pharmacist or an administrator is let through to the handlers of the
    prescription routes: the route's answer and effect are the handler's,
    after three lines of the log. *)
Theorem routes_enforce_roles req user id notes rq w :
  (Session.authorization req = None →
   post_prescription_validate req id notes w = unauthenticated w
   ∧ post_prescription_dispense req id w = unauthenticated w
   ∧ post_reorder_approve req id w = unauthenticated w
   ∧ post_reorder_order req id w = unauthenticated w
   ∧ post_reorder_receive req id rq w = unauthenticated w
   ∧ delete_medicine req id w = unauthenticated w)
  ∧ (faults w = [] → signed_in req user →
     (User.role user = STAFF →
      post_prescription_validate req id notes w = denied (authenticated w)
      ∧ post_prescription_dispense req id w = denied (authenticated w)
      ∧ post_reorder_approve req id w = denied (authenticated w)
      ∧ post_reorder_order req id w = denied (authenticated w)
      ∧ post_reorder_receive req id rq w = denied (authenticated w))
     ∧ (User.role user ≠ ADMIN → delete_medicine req id w = denied (authenticated w))
     ∧ (User.role user ≠ STAFF →
        (∃ resp w', validatePrescription id notes (User._id user) (let_through (authenticated w))
                    = (Ret resp, w')
                    ∧ post_prescription_validate req id notes w = (Ret (inr resp), w'))
        ∧ (∃ resp w', dispensePrescription id (User._id user) (let_through (authenticated w))
                      = (Ret resp, w')
                      ∧ post_prescription_dispense req id w = (Ret (inr resp), w')))).
Proof.
  split.
  { intros Hheader. repeat split; by apply guarded_no_header. }
  intros Hf Hin.
  unfold post_prescription_validate, post_prescription_dispense, post_reorder_approve,
    post_reorder_order, post_reorder_receive, delete_medicine.
  rewrite !(guarded_signed_in req _ _ user w Hf Hin).
  split; [|split].
  - intros Hrole.
    repeat split; apply authorize_denied; rewrite Hrole, !not_elem_of_cons;
      (split; [done|split; [done|apply not_elem_of_nil]]).
  - intros Hrole. apply authorize_denied. rewrite not_elem_of_cons.
    split; [done|apply not_elem_of_nil].
  - intros Hrole.
    assert (User.role user ∈ [PHARMACIST; ADMIN]) as Hroles.
    { destruct (User.role user); [right; by left | by left | done]. }
    split.
    + destruct (answers_run (validatePrescription id notes (User._id user))
                  (let_through (authenticated w))) as (resp & w' & Hrun).
      { apply try_catch_answers. intros e w0. by eexists. }
      exists resp, w'. split; [done|]. by apply authorize_granted.
    + destruct (answers_run (dispensePrescription id (User._id user))
                  (let_through (authenticated w))) as (resp & w' & Hrun).
      { apply try_catch_answers. intros e w0. by eexists. }
      exists resp, w'. split; [done|]. by apply authorize_granted.
Qed.

(** The staff member of the example pharmacy asking for a dispense is turned
    away with 403, and the stock is as it was. *)
Lemma routes_enforce_roles_witness :
  post_prescription_dispense (request_of "staff-token") (AnObjectId 7%nat)
    (pharmacy_rx rx_validated 5)
  = denied (authenticated (pharmacy_rx rx_validated 5)).
Proof.
  destruct (routes_enforce_roles (request_of "staff-token") staff_member (AnObjectId 7%nat)
              None None (pharmacy_rx rx_validated 5)) as [_ H].
  destruct (H eq_refl) as [Hstaff _].
  { exists "staff-token", "secret". by repeat split. }
  by destruct (Hstaff eq_refl) as (_ & -> & _).
Defined.

(** ** The expiry flags together *)

(** X26.  The two expiry flags of a medicine never hold together, and they
    leave a gap: at the very instant of its expiry date a medicine is neither
    expired nor expiring soon (its days until expiry are 0), and on a working
    database an item of it still passes validation if it is active and in
    stock.  Apart from that instant, neither flag holds exactly when the
    expiry date is more than 30 days away. *)
Theorem expiry_flags_leave_a_gap today m :
  (isExpired today m = true → isExpiringSoon today m = false)
  ∧ (isExpired today m = false ∧ isExpiringSoon today m = false
     ↔ Medicine.expiryDate m = today ∨ today + 30 * MS_PER_DAY < Medicine.expiryDate m)
  ∧ (Medicine.expiryDate m = today →
     daysUntilExpiry today m = 0
     ∧ ∀ meds item, meds !! PrescriptionItem.medicineId item = Some m →
         Medicine.isActive m = true →
         PrescriptionItem.quantity item ≤ Medicine.quantity m →
         item_error meds today item = None).
Proof.
  assert (0 < MS_PER_DAY) as Hday by done.
  pose proof (ceil_div_spec (Medicine.expiryDate m - today) MS_PER_DAY 30 Hday) as H30.
  pose proof (ceil_div_spec (Medicine.expiryDate m - today) MS_PER_DAY 0 Hday) as H0.
  assert (isExpiringSoon today m = true
          ↔ today < Medicine.expiryDate m ≤ today + 30 * MS_PER_DAY) as Hsoon.
  { unfold isExpiringSoon. cbv zeta. rewrite andb_true_iff, Z.ltb_lt, Z.leb_le. lia. }
  assert (isExpired today m = true ↔ Medicine.expiryDate m < today) as Hexp.
  { unfold isExpired. apply Z.ltb_lt. }
  split; [|split].
  - intros He%Hexp. apply not_true_iff_false. intros Hs%Hsoon. lia.
  - rewrite <- !not_true_iff_false, Hsoon, Hexp. lia.
  - intros Heq. split.
    + unfold daysUntilExpiry. cbv zeta. rewrite Heq, Z.sub_diag. done.
    + intros meds item Hm Hact Hq. unfold item_error. rewrite Hm, Hact. cbn [negb].
      destruct (Z.ltb_spec (Medicine.quantity m) (PrescriptionItem.quantity item)); [lia|].
      rewrite Heq, Z.ltb_irrefl. done.
Qed.

(** ** A failed dispense, tried again *)


Lemma receipts_app id user num now pre : ∀ meds post,
  dispensable meds pre = true →
  receipts id user num now meds (pre ++ post)
  = receipts id user num now meds pre ++ receipts id user num now (debit meds pre) post.
Proof.
  induction pre as [|item pre IH]; intros meds post Hok; [done|].
  cbn [app dispensable receipts debit] in *.
  destruct (meds !! PrescriptionItem.medicineId item) as [m|]; [|done].
  rewrite !andb_true_iff in Hok. destruct Hok as [_ Hrest]. cbn. by rewrite IH.
Qed.



(** ** The list of pending requests *)

Lemma pending_run w :
  faults w = [] →
  getPendingReorderRequests w
  = (Ret (reverse (filter (λ r, ReorderRequest.status r = PENDING) (reorderRequests w))), w).
Proof.
  intros Hf. unfold getPendingReorderRequests, try_catch. by rewrite db_call_ok.
Qed.

Lemma filter_all {A} (P : A → Prop) `{!∀ x, Decision (P x)} (l : list A) :
  (∀ x, x ∈ l → P x) → filter P l = l.
Proof.
  induction l as [|x l IH]; intros Hall; [done|].
  rewrite filter_cons_True by (apply Hall; by left). f_equal. apply IH.
  intros y Hy. apply Hall. by right.
Qed.

Lemma filter_pending_update id f l :
  NoDup (ReorderRequest._id <$> l) →
  (∀ r, ReorderRequest.status (f r) ≠ PENDING) →
  filter (λ r, ReorderRequest.status r = PENDING) (update_by_id id f l)
  = filter (λ r, ReorderRequest._id r ≠ id)
      (filter (λ r, ReorderRequest.status r = PENDING) l).
Proof.
  intros Hnd Hf. induction l as [|x l IH]; [done|].
  cbn in Hnd. apply NoDup_cons in Hnd as [Hx Hnd]. cbn [update_by_id].
  destruct (bool_decide (ReorderRequest._id x = id)) eqn:Hid.
  - apply bool_decide_eq_true in Hid. rewrite filter_cons_False by apply Hf.
    assert (filter (λ r, ReorderRequest._id r ≠ id)
              (filter (λ r, ReorderRequest.status r = PENDING) l)
            = filter (λ r, ReorderRequest.status r = PENDING) l) as Hrest.
    { apply filter_all. intros r [_ Hin]%list_elem_of_filter Heq. apply Hx. rewrite Hid, <- Heq.
      apply list_elem_of_fmap. by exists r. }
    destruct (decide (ReorderRequest.status x = PENDING)).
    + rewrite (filter_cons_True _ x) by done. rewrite filter_cons_False by (cbn; intros Hne; apply Hne, Hid).
      by rewrite Hrest.
    + rewrite (filter_cons_False _ x) by done. by rewrite Hrest.
  - apply bool_decide_eq_false in Hid.
    destruct (decide (ReorderRequest.status x = PENDING)).
    + rewrite !(filter_cons_True _ x) by done. by rewrite IH.
    + rewrite !(filter_cons_False _ x) by done. by apply IH.
Qed.

(** X28.  The pending list follows the status changes: on a working
    database with unique identifiers, once an existing request is approved,
    marked as ordered or marked as received, [getPendingReorderRequests]
    answers the list it answered before without that request, every other
    request where it was. *)
Theorem handled_request_leaves_pending_list w id user rq r :
  faults w = [] → unique_ids w → find_by_id id (reorderRequests w) = Some r →
  is_Some (medicines w !! ReorderRequest.medicineId r) →
  ∃ pending,
    (getPendingReorderRequests w).1 = Ret pending
    ∧ (getPendingReorderRequests (approveReorderRequest id user w).2).1
      = Ret (filter (λ r', ReorderRequest._id r' ≠ id) pending)
    ∧ (getPendingReorderRequests (markReorderRequestAsOrdered id w).2).1
      = Ret (filter (λ r', ReorderRequest._id r' ≠ id) pending)
    ∧ (getPendingReorderRequests (markReorderRequestAsReceived id rq w).2).1
      = Ret (filter (λ r', ReorderRequest._id r' ≠ id) pending).
Proof.
  intros Hf Hids Hr [m Hm]. rewrite (pending_run w Hf). eexists. split; [done|].
  destruct (approve_run w id user r Hf Hr) as [ls1 ->].
  destruct (ordered_run w id r Hf Hr) as [ls2 ->].
  destruct (received_run w id rq r m Hf Hr Hm) as [ls3 ->].
  cbn [snd]. rewrite !pending_run by done. cbn [fst reorderRequests].
  rewrite !filter_pending_update by done. by rewrite !filter_reverse.
Qed.

Lemma handled_request_leaves_pending_list_witness :
  (getPendingReorderRequests (approveReorderRequest 1%nat 9%nat pharmacy).2).1 = Ret [].
Proof.
  assert (unique_ids pharmacy) as Hids by (apply (bool_decide_unpack _); by vm_compute).
  destruct (handled_request_leaves_pending_list pharmacy 1%nat 9%nat None pending_request
              eq_refl Hids eq_refl (mk_is_Some _ _ eq_refl)) as (pending & Hp & -> & _).
  vm_compute in Hp. by injection Hp as <-.
Defined.
